(** * kastle-demo: the conversation core, embedded and verified

    A shallow embedding of the four pure pieces of the outbound-call
    service and of the orchestrator that ties them together:

    - [app/utils/transition_rules.py]  (module [Transition])
    - [app/utils/context_manager.py]   (modules [ContextStore], contexts
      as values, and [SharedStore], their lists as shared objects)
    - [app/utils/template_render.py]   (module [Render])
    - [app/utils/node_engine.py]       (module [Engine])

    Python values are the JSON-shaped values the service handles.  Text is
    a [string] whose characters are read as the code points U+0000..U+00FF.
    A Python exception is a value of [exc]; [try]/[except] is the
    combinator [try_except]. *)

From Stdlib Require Import ZArith String Ascii List Bool Lia DecimalString.
From Stdlib Require Import Floats.
From stdpp Require Import gmap strings list.

Set Warnings "-register-all".
Local Open Scope string_scope.
Local Open Scope Z_scope.

(* ================================================================== *)
(** * Python values *)
(* ================================================================== *)

Module Py.

Inductive pyval :=
| PNone
| PBool (b : bool)
| PInt (z : Z)
| PFloat (f : float)
| PStr (s : string)
| PList (l : list pyval)
| PDict (d : gmap string pyval).

(** A [Dict[str, Any]]. *)
Abbreviation dict := (gmap string pyval).

(** The literals the rule tables compare against. *)
Inductive pylit :=
| LNone
| LBool (b : bool)
| LInt (z : Z)
| LStr (s : string).

(** An exception: its class name and [str(e)]. *)
Record pyexn := Exn { exn_class : string; exn_msg : string }.

Inductive exc (A : Type) :=
| Ok (a : A)
| Raise (e : pyexn).
Arguments Ok {A} a.
Arguments Raise {A} e.

Definition bind {A B} (m : exc A) (k : A -> exc B) : exc B :=
  match m with
  | Ok a => k a
  | Raise e => Raise e
  end.

Declare Scope exc_scope.
Notation "x ← y ; z" := (bind y (fun x => z))
  (at level 20, y at level 100, z at level 200, only parsing) : exc_scope.

(** [try: body / except Exception as e: handler e]. *)
Definition try_except {A} (body : exc A) (handler : pyexn -> exc A) : exc A :=
  match body with
  | Ok a => Ok a
  | Raise e => handler e
  end.

Definition TypeError {A} (msg : string) : exc A := Raise (Exn "TypeError" msg).
Definition ValueError {A} (msg : string) : exc A := Raise (Exn "ValueError" msg).
Definition AttributeError {A} (msg : string) : exc A :=
  Raise (Exn "AttributeError" msg).

(** [bool(x)], the test an [if] applies. *)
Definition truthy (x : pyval) : bool :=
  match x with
  | PNone => false
  | PBool b => b
  | PInt z => negb (z =? 0)
  | PFloat f => negb (f =? 0)%float
  | PStr s => negb (String.eqb s "")
  | PList l => negb (Nat.eqb (length l) 0)
  | PDict d => negb (Nat.eqb (size d) 0)
  end.

Definition py_not (x : pyval) : pyval := PBool (negb (truthy x)).
(** [x or y] and [x and y] return one of their operands. *)
Definition py_or (x y : pyval) : pyval := if truthy x then x else y.
Definition py_and (x y : pyval) : pyval := if truthy x then y else x.

(** [d.get(k)] and [d.get(k, dflt)] on a dict. *)
Definition get (d : dict) (k : string) : pyval := default PNone (d !! k).
Definition get_or (d : dict) (k : string) (dflt : pyval) : pyval :=
  default dflt (d !! k).

(** [c.get(k)] where [c] may be [None]: the orchestrator hands the engine
    whatever the store returned. *)
Definition oget (c : option dict) (k : string) : exc pyval :=
  match c with
  | Some d => Ok (get d k)
  | None => AttributeError "'NoneType' object has no attribute 'get'"
  end.
Definition oget_or (c : option dict) (k : string) (dflt : pyval) : exc pyval :=
  match c with
  | Some d => Ok (get_or d k dflt)
  | None => AttributeError "'NoneType' object has no attribute 'get'"
  end.

(** ** Numbers: [bool] is an [int]; ints and floats compare by value. *)

(** The order of a binary64 value and an integer, [None] for NaN. *)
Definition float_cmp_Z (f : float) (z : Z) : option comparison :=
  match Prim2SF f with
  | S754_nan => None
  | S754_infinity s => Some (if s then Lt else Gt)
  | S754_zero _ => Some (0 ?= z)
  | S754_finite s m e =>
      let sm := if s then Z.neg m else Z.pos m in
      if 0 <=? e then Some (sm * 2 ^ e ?= z)
      else Some (sm ?= z * 2 ^ (- e))
  end.

(** [x ?= n] for a number [x] and an int literal [n]; [Raise] when [x] is
    not a number ([TypeError: '>=' not supported between ...]). *)
Definition num_cmp_int (x : pyval) (n : Z) : exc (option comparison) :=
  match x with
  | PBool b => Ok (Some ((if b then 1 else 0) ?= n))
  | PInt z => Ok (Some (z ?= n))
  | PFloat f => Ok (float_cmp_Z f n)
  | _ => TypeError "ordering not supported between these instances"
  end.

Definition cmp_ge (c : option comparison) : bool :=
  match c with Some Gt | Some Eq => true | _ => false end.
Definition cmp_gt (c : option comparison) : bool :=
  match c with Some Gt => true | _ => false end.
Definition cmp_le (c : option comparison) : bool :=
  match c with Some Lt | Some Eq => true | _ => false end.
Definition cmp_eq (c : option comparison) : bool :=
  match c with Some Eq => true | _ => false end.

Definition py_ge_int (x : pyval) (n : Z) : exc pyval :=
  bind (num_cmp_int x n) (fun c => Ok (PBool (cmp_ge c))).
Definition py_gt_int (x : pyval) (n : Z) : exc pyval :=
  bind (num_cmp_int x n) (fun c => Ok (PBool (cmp_gt c))).

(** [x == k] for a literal [k]: never raises. *)
Definition num_eq_int (x : pyval) (n : Z) : bool :=
  match num_cmp_int x n with
  | Ok c => cmp_eq c
  | Raise _ => false
  end.

Definition py_eq (x : pyval) (k : pylit) : bool :=
  match k with
  | LNone => match x with PNone => true | _ => false end
  | LStr s => match x with PStr t => String.eqb t s | _ => false end
  | LBool b => num_eq_int x (if b then 1 else 0)
  | LInt z => num_eq_int x z
  end.

(** [x in [k1, ..., kn]]. *)
Definition py_in (x : pyval) (ks : list pylit) : bool := existsb (py_eq x) ks.

End Py.

(* ================================================================== *)
(** * Transition engine: [app/utils/transition_rules.py] *)
(* ================================================================== *)

Module Transition.
Import Py.

Local Open Scope exc_scope.

(** [TransitionRule = Tuple[Callable[[Dict, Dict], bool], str, str]]: the
    condition is applied to the extracted variables and to the context, and
    its result is tested by an [if]. *)
Record rule := Rule {
  cond : dict -> option dict -> exc pyval;
  target : string;
  description : string
}.

(** ** Global triggers, checked for all nodes before node-specific rules *)

Definition GLOBAL_TRIGGERS : list rule := [
    Rule (fun v _ => Ok (get v "user_requests_live_agent"))
         "n34" "User requests live agent";
    Rule (fun v _ => Ok (get v "user_requests_supervisor"))
         "n34" "User requests supervisor";
    Rule (fun v _ => Ok (get v "user_requests_transfer"))
         "n34" "User requests transfer";
    Rule (fun v _ => Ok (get v "user_mentions_attorney"))
         "n5" "Attorney notification";
    Rule (fun v _ => Ok (get v "user_represented_by_attorney"))
         "n5" "Represented by attorney";
    Rule (fun v _ => Ok (get v "user_requests_cease_communication"))
         "n11" "Cease and desist";
    Rule (fun v _ => Ok (get v "user_requests_written_only"))
         "n11" "Written communication only";
    Rule (fun v _ => Ok (get v "user_says_wrong_number"))
         "n69" "Wrong number";
    Rule (fun v _ => Ok (get v "wrong_person"))
         "n69" "Wrong person";
    Rule (fun v _ => Ok (get v "user_has_complex_question"))
         "n34" "Complex question - transfer";
    Rule (fun v _ => Ok (get v "user_asks_about_nsf"))
         "n34" "NSF question - transfer";
    Rule (fun v _ => Ok (get v "user_asks_about_escrow"))
         "n34" "Escrow question - transfer"
  ].

(** ** Node-specific transition rules *)

Definition TRANSITION_RULES : gmap string (list rule) := list_to_map [
    ("n61", [
      Rule (fun v _ => Ok (py_or (get v "is_borrower") (get v
          "confirmed_identity")))
           "n68" "Identity confirmed - go to DOB";
      Rule (fun v _ => Ok (get v "party_name"))
           "n68" "Got party name - go to DOB";
      Rule (fun v _ => Ok (get v "speaking_to_borrower"))
           "n68" "Speaking to borrower - go to DOB";
      Rule (fun v _ => Ok (get v "user_not_available"))
           "n8" "Borrower not available - offer callback";
      Rule (fun v _ => Ok (get v "call_back_later"))
           "n8" "Call back later requested"
    ]);
    ("n68", [
      Rule (fun v _ => Ok (get v "dob_verified"))
           "n41" "DOB correct - go to Mini Miranda";
      Rule (fun v _ => Ok (get v "dob_correct"))
           "n41" "DOB matches - go to Mini Miranda";
      Rule (fun v _ => Ok (get v "dob_mismatch"))
           "n32" "DOB wrong - notify mismatch";
      Rule (fun v _ => Ok (get v "dob_incorrect"))
           "n32" "DOB incorrect - notify mismatch";
      Rule (fun _ c => x ← oget_or c "dob_attempts" (PInt 0); py_ge_int x 5)
           "n34" "Too many DOB attempts - transfer"
    ]);
    ("n32", [
      Rule (fun _ _ => Ok (PBool true))
           "n22" "Always go to second DOB attempt"
    ]);
    ("n22", [
      Rule (fun v _ => Ok (py_or (get v "dob_verified") (get v
          "dob_reconfirmed")))
           "n41" "DOB correct - go to Mini Miranda";
      Rule (fun v _ => Ok (get v "dob_correct"))
           "n41" "DOB matches - go to Mini Miranda";
      Rule (fun _ c => x ← oget_or c "dob_attempts" (PInt 0); py_ge_int x 5)
           "n34" "Too many attempts - transfer";
      Rule (fun v _ => Ok (py_or (get v "dob_still_wrong") (get v
          "dob_mismatch")))
           "n26" "Still wrong - end call"
    ]);
    ("n26", [
      Rule (fun _ _ => Ok (PBool true))
           "END" "DOB verification failed - end call"
    ]);
    ("n41", [
      Rule (fun v _ => Ok (get v "mini_miranda_complete"))
           "n45" "Disclosure complete - check occupancy";
      Rule (fun v _ => Ok (get v "user_acknowledges"))
           "n45" "User acknowledged - check occupancy";
      Rule (fun v _ => Ok (get v "proceed_to_business"))
           "n45" "Ready to proceed - check occupancy"
    ]);
    ("n45", [
      Rule (fun v _ => Ok (py_and (get v "occupancy") (PBool (negb (py_in
          (get v "occupancy") [LStr "N/A"; LStr "null"; LNone; LStr ""
          ])))))
           "n20" "Occupancy verified - check disaster";
      Rule (fun v _ => Ok (get v "occupancy_verified"))
           "n20" "Occupancy verified flag - check disaster";
      Rule (fun v _ => Ok (get v "occupancy_confirmed"))
           "n20" "Occupancy confirmed flag - check disaster";
      Rule (fun v _ => Ok (get v "occupancy_status"))
           "n20" "Got occupancy status - check disaster"
    ]);
    ("n20", [
      Rule (fun v _ => Ok (PBool (py_eq (get v "affected_by_disaster")
          (LBool true))))
           "n37" "Disaster affected - loss mitigation";
      Rule (fun v _ => Ok (PBool (py_eq (get v "disaster_impact") (LBool
          true))))
           "n37" "Disaster impact - loss mitigation";
      Rule (fun v _ => Ok (PBool (py_eq (get v "affected_by_disaster")
          (LBool false))))
           "n28" "Not affected - continue to payment";
      Rule (fun v _ => Ok (get v "not_affected_by_disaster"))
           "n28" "Not affected - continue to payment";
      Rule (fun v _ => Ok (get v "no_disaster_impact"))
           "n28" "No impact - continue to payment"
    ]);
    ("n28", [
      Rule (fun _ _ => Ok (PBool true))
           "n49" "Continue to payment collection"
    ]);
    ("n37", [
      Rule (fun v _ => Ok (get v "wants_appointment"))
           "n56" "User wants appointment";
      Rule (fun v _ => Ok (get v "schedule_appointment"))
           "n56" "Schedule appointment requested";
      Rule (fun v _ => Ok (get v "wants_callback"))
           "n8" "User wants callback";
      Rule (fun v _ => Ok (get v "user_wants_to_end_call"))
           "n25" "User wants to end call"
    ]);
    ("n49", [
      Rule (fun v _ => Ok (get v "user_claims_payment_made"))
           "n51" "User claims already paid - confirmation";
      Rule (fun v _ => Ok (get v "payment_already_sent"))
           "n51" "Payment already sent - confirmation";
      Rule (fun v _ => Ok (get v "user_wants_set_up_later"))
           "n51" "User wants to set up later - promise";
      Rule (fun v _ => Ok (get v "declined_bank_account_setup_today"))
           "n51" "Declined setup - promise";
      Rule (fun v _ => Ok (get v "will_pay_independently"))
           "n51" "Will pay independently - promise";
      Rule (fun v _ => Ok (py_and (get v "payment_date_received") (get v
          "payment_amount_received")))
           "n67" "Got date and amount - validate";
      Rule (fun v _ => Ok (py_and (get v "user_provided_payment_amount")
          (get v "upd_extracted_payment_date")))
           "n67" "Have amount and date - validate";
      Rule (fun v _ => Ok (py_and (py_and (get v "payment_amount_received")
          (get v "collection_waterfall_completed")) (get v
          "total_amount_due_informed")))
           "n67" "Amount confirmed - proceed to validation";
      Rule (fun v _ => Ok (py_and (get v "borrower_wants_options") (get v
          "options_question_asked")))
           "n23" "User wants payment options";
      Rule (fun v _ => Ok (get v "borrower_requests_options_directly"))
           "n23" "User directly requests assistance programs";
      Rule (fun v _ => Ok (py_and (get v "needs_assistance") (get v
          "options_question_asked")))
           "n23" "User needs assistance - show options";
      Rule (fun v _ => Ok (py_and (get v "financial_hardship") (get v
          "options_question_asked")))
           "n23" "Financial hardship - show options";
      Rule (fun v _ => Ok (get v "capture_delinquency_reason"))
           "n19" "Capture delinquency reason"
    ]);
    ("n19", [
      Rule (fun v _ => Ok (py_or (get v "reason_captured") (get v
          "delinquency_reason")))
           "n49" "Reason captured - back to payment"
    ]);
    ("n67", [
      Rule (fun v _ => Ok (get v "borrower_requests_options_directly"))
           "n23" "User asks about options - show options";
      Rule (fun v _ => Ok (py_and (py_and (py_and (get v
          "user_provided_payment_amount") (PBool (negb (py_in (get v
          "user_provided_payment_amount") [LStr "NA"; LStr "N/A"; LNone;
          LStr "" ])))) (get v "user_provided_payment_date")) (PBool (negb
          (py_in (get v "user_provided_payment_date") [LStr "NA"; LStr
          "N/A"; LNone; LStr "" ])))))
           "n1" "Payment details confirmed - collect account";
      Rule (fun v _ => Ok (get v "validation_confirmed"))
           "n1" "Validated - collect account";
      Rule (fun v _ => Ok (get v "user_confirms_amount"))
           "n1" "Amount confirmed - collect account";
      Rule (fun v _ => Ok (get v "details_confirmed"))
           "n1" "Details confirmed - collect account";
      Rule (fun v _ => Ok (get v "user_wants_to_change_amount"))
           "n49" "Change amount - back to collection";
      Rule (fun v _ => Ok (get v "user_wants_to_change_date"))
           "n49" "Change date - back to collection"
    ]);
    ("n1", [
      Rule (fun v _ => Ok (get v "declined_bank_account_setup_today"))
           "n51" "Declined - promise to pay";
      Rule (fun v _ => Ok (get v "user_wants_set_up_later"))
           "n51" "Set up later - promise to pay";
      Rule (fun v _ => Ok (get v "will_pay_online"))
           "n51" "Will pay online - promise";
      Rule (fun v _ => Ok (get v "will_mail_check"))
           "n51" "Will mail check - promise";
      Rule (fun v _ => Ok (get v "existing_bank_account_confirmed"))
           "n42" "Existing account confirmed - NACHA";
      Rule (fun v _ => Ok (get v "new_bank_account_confirmed"))
           "n42" "New account confirmed - NACHA";
      Rule (fun v _ => Ok (get v "account_ready"))
           "n42" "Account ready - NACHA";
      Rule (fun v _ => Ok (get v "certified_funds_mail_date_confirmed"))
           "n12" "Certified funds confirmed";
      Rule (fun v c => x ← oget c "RestrictAutoPayDraft"; Ok (py_and (PBool
          (py_eq x (LStr "Y"))) (get v "mail_date_confirmed")))
           "n12" "Certified funds date confirmed"
    ]);
    ("n42", [
      Rule (fun v _ => Ok (get v "user_says_no"))
           "n49" "User declined - back to collection";
      Rule (fun v _ => Ok (get v "user_declines_authorization"))
           "n49" "Declined auth - back to collection";
      Rule (fun v _ => Ok (get v "user_wants_to_change_amtdate"))
           "n49" "Change requested - back to collection";
      Rule (fun v _ => Ok (get v "user_wants_different_amount"))
           "n49" "Different amount - back to collection";
      Rule (fun v _ => Ok (get v "nacha_permission_granted"))
           "n50" "Permission granted - process";
      Rule (fun v _ => Ok (get v "user_authorizes_payment"))
           "n50" "Authorized - process";
      Rule (fun v _ => Ok (get v "user_confirms_authorization"))
           "n50" "Confirmed auth - process"
    ]);
    ("n50", [
      Rule (fun v _ => Ok (get v "payment_processed"))
           "n51" "Payment processed - confirmation";
      Rule (fun _ c => x ← oget c "api_status_code"; Ok (PBool (py_eq x
          (LInt 200))))
           "n51" "API success - confirmation";
      Rule (fun _ c => oget c "confirmation_number")
           "n51" "Got confirmation - success";
      Rule (fun _ c => x ← oget c "api_status_code"; Ok (py_and x (PBool
          (negb (py_eq x (LInt 200))))))
           "n34" "API failed - transfer";
      Rule (fun _ c => oget c "api_error")
           "n34" "API error - transfer";
      Rule (fun v _ => Ok (get v "payment_failed"))
           "n34" "Payment failed - transfer"
    ]);
    ("n51", [
      Rule (fun v _ => Ok (get v "call_complete"))
           "n25" "Call complete - end";
      Rule (fun v _ => Ok (get v "no_more_questions"))
           "n25" "No more questions - end";
      Rule (fun v _ => Ok (get v "user_satisfied"))
           "n25" "User satisfied - end";
      Rule (fun v _ => Ok (get v "goodbye_said"))
           "n25" "Goodbye - end"
    ]);
    ("n23", [
      Rule (fun v _ => Ok (get v "user_has_no_other_questions"))
           "n49" "No more questions - back to payment";
      Rule (fun v _ => Ok (get v "option_selected"))
           "n49" "Option selected - back to payment";
      Rule (fun v _ => Ok (get v "ready_to_pay"))
           "n49" "Ready to pay - back to payment";
      Rule (fun v _ => Ok (get v "wants_appointment"))
           "n56" "Wants appointment - schedule";
      Rule (fun v _ => Ok (get v "schedule_appointment"))
           "n56" "Schedule appointment";
      Rule (fun v _ => Ok (get v "wants_callback"))
           "n8" "Wants callback";
      Rule (fun v _ => Ok (get v "needs_more_time"))
           "n8" "Needs more time - offer callback"
    ]);
    ("n12", [
      Rule (fun v _ => Ok (get v "user_has_no_other_questions"))
           "n25" "No questions - end call";
      Rule (fun v _ => Ok (get v "call_complete"))
           "n25" "Complete - end call"
    ]);
    ("n34", [
      Rule (fun v _ => Ok (get v "transfer_intake_complete"))
           "n35" "Intake complete - confirm transfer";
      Rule (fun v _ => Ok (py_and (get v "transfer_reason") (get v
          "ready_to_transfer")))
           "n35" "Ready to transfer"
    ]);
    ("n35", [
      Rule (fun v _ => Ok (get v "user_confirms_transfer"))
           "n36" "Transfer confirmed - execute";
      Rule (fun v _ => Ok (get v "proceed_with_transfer"))
           "n36" "Proceed - execute transfer";
      Rule (fun v _ => Ok (get v "user_cancels_transfer"))
           "n49" "Cancelled - back to payment"
    ]);
    ("n36", [
      Rule (fun v _ => Ok (get v "transfer_completed"))
           "n2" "Transfer done - end";
      Rule (fun _ c => oget c "transfer_completed")
           "n2" "Transfer executed - end"
    ]);
    ("n5", [
      Rule (fun v _ => Ok (get v "attorney_noted"))
           "n25" "Attorney noted - end call";
      Rule (fun _ _ => Ok (PBool true))
           "n25" "End call after attorney notification"
    ]);
    ("n11", [
      Rule (fun _ _ => Ok (PBool true))
           "n25" "Cease communication - end call"
    ]);
    ("n8", [
      Rule (fun v _ => Ok (get v "callback_time_confirmed"))
           "n9" "Callback time confirmed";
      Rule (fun v _ => Ok (get v "callback_scheduled"))
           "n9" "Callback scheduled";
      Rule (fun v _ => Ok (get v "user_declines_callback"))
           "n25" "Declined callback - end";
      Rule (fun v _ => Ok (get v "no_callback_needed"))
           "n25" "No callback - end"
    ]);
    ("n9", [
      Rule (fun _ _ => Ok (PBool true))
           "n25" "Callback confirmed - end call"
    ]);
    ("n56", [
      Rule (fun v _ => Ok (get v "user_time_preference"))
           "n6" "Got preference - fetch slots";
      Rule (fun v _ => Ok (get v "preferred_day"))
           "n6" "Got preferred day - fetch slots";
      Rule (fun v _ => Ok (get v "preferred_time"))
           "n6" "Got preferred time - fetch slots"
    ]);
    ("n6", [
      Rule (fun _ c => x ← oget c "api_status_code"; Ok (PBool (py_eq x
          (LInt 200))))
           "n4" "Slots received - offer times";
      Rule (fun v _ => Ok (get v "slots_available"))
           "n4" "Slots available - offer times";
      Rule (fun _ c => oget c "api_error")
           "n34" "API error - transfer"
    ]);
    ("n4", [
      Rule (fun v _ => Ok (get v "specific_time_selected"))
           "n3" "Time selected - confirm";
      Rule (fun v _ => Ok (get v "user_selected_slot"))
           "n3" "Slot selected - confirm";
      Rule (fun v _ => Ok (get v "user_appt_conflict"))
           "n56" "Conflict - get new preference";
      Rule (fun v _ => Ok (get v "none_work"))
           "n56" "None work - get new preference"
    ]);
    ("n3", [
      Rule (fun v _ => Ok (get v "appointment_confirmed"))
           "n62" "Appointment booked - success";
      Rule (fun v _ => Ok (get v "appt_booked"))
           "n62" "Booked - success";
      Rule (fun v _ => Ok (get v "user_cancels"))
           "n56" "Cancelled - back to scheduling"
    ]);
    ("n62", [
      Rule (fun _ _ => Ok (PBool true))
           "n25" "Appointment done - end call"
    ]);
    ("n69", [
      Rule (fun _ _ => Ok (PBool true))
           "END" "Wrong number - end call"
    ]);
    ("n25", [
      Rule (fun _ _ => Ok (PBool true))
           "END" "Standard call ending"
    ]);
    ("n24", [
      Rule (fun _ _ => Ok (PBool true))
           "END" "Alternative call ending"
    ]);
    ("n2", [
      Rule (fun _ _ => Ok (PBool true))
           "END" "Transfer completed ending"
    ])
  ].

(** ** [get_next_node] *)

(** One turn of either [for] loop: the condition is evaluated and tested
    inside [try]; [except Exception] logs and goes on with the next rule.
    [Some target] stands for [return target]. *)
Definition check_rule (r : rule) (v : dict) (c : option dict)
  : exc (option string) :=
  try_except
    (x ← cond r v c; Ok (if truthy x then Some (target r) else None))
    (fun _ => Ok None).

Fixpoint for_rules (rules : list rule) (v : dict) (c : option dict)
  : exc (option string) :=
  match rules with
  | [] => Ok None
  | r :: rest =>
      hit ← check_rule r v c;
      match hit with
      | Some t => Ok (Some t)
      | None => for_rules rest v c
      end
  end.

(** The engine over arbitrary tables. *)
Definition next_node_with (globals : list rule)
    (table : gmap string (list rule))
    (current_node : string) (extracted_vars : dict) (context : option dict)
  : exc string :=
  hit ← for_rules globals extracted_vars context;
  match hit with
  | Some t => Ok t
  | None =>
      let rules := default [] (table !! current_node) in
      match rules with
      | [] => Ok current_node
      | _ =>
          hit ← for_rules rules extracted_vars context;
          match hit with
          | Some t => Ok t
          | None => Ok current_node
          end
      end
  end.

Definition get_next_node : string -> dict -> option dict -> exc string :=
  next_node_with GLOBAL_TRIGGERS TRANSITION_RULES.

End Transition.

(* ================================================================== *)
(** * The interpreter's services *)
(* ================================================================== *)

Module Host.
Import Py.

(** What the code asks of the Python interpreter and of the clock rather
    than of this repository: the numeric conversions [int(x)] and
    [float(x)], [str(x)] of a float or of a container, the order in which
    a [set] of strings is iterated (hash order: some enumeration without
    repeats), and the current UTC time in the formats the code asks for. *)
Record builtins := Builtins {
  py_int : pyval -> exc Z;
  py_float : pyval -> exc float;
  py_repr : pyval -> string;
  set_iter : list string -> list string;
  set_iter_NoDup : forall l, NoDup (set_iter l);
  set_iter_elem : forall l x, x ∈ set_iter l <-> x ∈ l;
  utc_today : string;
  utc_isoformat : string;
  utc_weekday : string;
  utc_clock : string
}.

(** [str(x)]. *)
Definition py_str (B : builtins) (x : pyval) : string :=
  match x with
  | PNone => "None"
  | PBool true => "True"
  | PBool false => "False"
  | PInt z => NilZero.string_of_int (Z.to_int z)
  | PStr s => s
  | PFloat _ | PList _ | PDict _ => py_repr B x
  end.

End Host.

(* ================================================================== *)
(** * Transition engine: the helpers of [transition_rules.py] *)
(* ================================================================== *)

Module TransitionTools.
Import Py Host Transition.

(** The dictionary of [get_node_description]. *)
Definition descriptions : gmap string string := list_to_map [
    ("n61", "Greeting & Identity Confirmation");
    ("n68", "DOB Verification (Attempt 1)");
    ("n32", "DOB Mismatch Notification");
    ("n22", "DOB Verification (Attempt 2)");
    ("n26", "DOB Failed - End Call");
    ("n41", "Mini Miranda Disclosure");
    ("n45", "Occupancy Verification");
    ("n20", "Disaster Impact Check");
    ("n28", "Continue to Payment");
    ("n37", "Loss Mitigation Discussion");
    ("n49", "Payment Collection");
    ("n19", "Delinquency Reason Capture");
    ("n67", "Payment Validation");
    ("n1", "Account Collection");
    ("n42", "NACHA Authorization");
    ("n50", "Payment Processing");
    ("n51", "Confirmation / Promise to Pay");
    ("n23", "Payment Options");
    ("n12", "Certified Funds Confirmation");
    ("n34", "Transfer Intake");
    ("n35", "Transfer Confirmation");
    ("n36", "Execute Transfer");
    ("n5", "Attorney Notification");
    ("n11", "Cease & Desist");
    ("n8", "Callback Offering");
    ("n9", "Callback Confirmed");
    ("n56", "Appointment Scheduling");
    ("n6", "Fetch Available Slots");
    ("n4", "Offer Time Slots");
    ("n3", "Confirm Appointment");
    ("n62", "Appointment Success");
    ("n69", "Wrong Number");
    ("n25", "Call Ending (Standard)");
    ("n24", "Call Ending (Alternative)");
    ("n2", "Call Ending (Transfer Complete)");
    ("END", "Call Ended")
  ].

Definition get_node_description (node_id : string) : string :=
  default ("Unknown Node (" ++ node_id ++ ")") (descriptions !! node_id).

Section WithBuiltins.
Variable B : builtins.

(** [get_all_target_nodes]: the targets are added to a set, the global
    ones first, and the set is listed. *)
Definition get_all_target_nodes (node_id : string) : list string :=
  let targets := map target GLOBAL_TRIGGERS in
  let rules := default [] (TRANSITION_RULES !! node_id) in
  let targets := (targets ++ map target rules)%list in
  set_iter B targets.

End WithBuiltins.
End TransitionTools.

(* ================================================================== *)
(** * Regular expressions, as [re] runs the patterns of this code *)
(* ================================================================== *)

Module Re.

Definition code (a : ascii) : N := N_of_ascii a.
Definition between (lo hi : N) (a : ascii) : bool :=
  ((lo <=? code a) && (code a <=? hi))%N.

(** [\s], and the characters [str.strip()] removes. *)
Definition is_space (a : ascii) : bool :=
  between 9 13 a || between 28 32 a || between 133 133 a
  || between 160 160 a.

(** [\w]: alphanumeric (letters, digits and other numerics) or [_]. *)
Definition is_word (a : ascii) : bool :=
  between 48 57 a || between 65 90 a || between 95 95 a
  || between 97 122 a || between 170 170 a || between 178 179 a
  || between 181 181 a || between 185 186 a || between 188 190 a
  || between 192 214 a || between 216 246 a || between 248 255 a.

Definition is_newline (a : ascii) : bool := between 10 10 a.
(** [.] under [re.DOTALL]. *)
Definition any_char (_ : ascii) : bool := true.

(** The patterns of this code are sequences of literals, one capture
    group, a character class, and repetitions of a character class: [c*],
    [c+], [c{n,}] and the lazy [c*?]. *)
Inductive regex :=
| Lit (s : string)
| Class (cls : ascii -> bool)
| Rep (cls : ascii -> bool) (lo : nat) (greedy : bool)
| Cat (r1 r2 : regex)
| Group (r : regex).

Fixpoint strip_prefix (p s : string) : option string :=
  match p with
  | EmptyString => Some s
  | String a p' =>
      match s with
      | String b s' => if Ascii.eqb a b then strip_prefix p' s' else None
      | EmptyString => None
      end
  end.

(** The [lo] repetitions a [Rep] must see. *)
Fixpoint eat (cls : ascii -> bool) (n : nat) (s : string) : option string :=
  match n with
  | O => Some s
  | S n' =>
      match s with
      | String a s' => if cls a then eat cls n' s' else None
      | EmptyString => None
      end
  end.

Section Backtracking.
Context {R : Type}.

(** Greedy: as many as possible first, one fewer on failure. *)
Fixpoint more_greedy (cls : ascii -> bool) (k : string -> option R)
    (s : string) : option R :=
  match s with
  | String a s' =>
      if cls a then
        match more_greedy cls k s' with
        | Some r => Some r
        | None => k s
        end
      else k s
  | EmptyString => k s
  end.

(** Lazy: as few as possible first, one more on failure. *)
Fixpoint more_lazy (cls : ascii -> bool) (k : string -> option R)
    (s : string) : option R :=
  match k s with
  | Some r => Some r
  | None =>
      match s with
      | String a s' => if cls a then more_lazy cls k s' else None
      | EmptyString => None
      end
  end.

(** [rmatch r s cap k]: match [r] at the start of [s], then go on with
    [k] on what is left and on group 1; the first success is the
    answer. *)
Fixpoint rmatch (r : regex) (s : string) (cap : option string)
    (k : string -> option string -> option R) : option R :=
  match r with
  | Lit p =>
      match strip_prefix p s with
      | Some s' => k s' cap
      | None => None
      end
  | Class cls =>
      match eat cls 1 s with
      | Some s' => k s' cap
      | None => None
      end
  | Rep cls lo greedy =>
      match eat cls lo s with
      | Some s' =>
          (if greedy then more_greedy else more_lazy)
            cls (fun s'' => k s'' cap) s'
      | None => None
      end
  | Cat r1 r2 => rmatch r1 s cap (fun s' cap' => rmatch r2 s' cap' k)
  | Group r1 =>
      rmatch r1 s cap
        (fun s' _ =>
           k s' (Some (substring 0 (String.length s - String.length s') s)))
  end.
End Backtracking.

(** A match at the start of [s]: its length and group 1. *)
Definition match_at (r : regex) (s : string) : option (nat * option string) :=
  rmatch r s None
    (fun rest cap => Some ((String.length s - String.length rest)%nat, cap)).

(** [re.sub(r, repl, s)] for a function [repl] of group 1: leftmost
    matches, not overlapping; [skip] characters of the current match are
    still to be passed over.  An empty match is replaced and the scan
    moves one character on. *)
Fixpoint sub_from (r : regex) (repl : option string -> string)
    (skip : nat) (s : string) : string :=
  match skip with
  | S n =>
      match s with
      | String _ s' => sub_from r repl n s'
      | EmptyString => EmptyString
      end
  | O =>
      match match_at r s with
      | Some (S n, cap) =>
          repl cap ++
          match s with
          | String _ s' => sub_from r repl n s'
          | EmptyString => EmptyString
          end
      | Some (O, cap) =>
          repl cap ++
          match s with
          | String a s' => String a (sub_from r repl O s')
          | EmptyString => EmptyString
          end
      | None =>
          match s with
          | String a s' => String a (sub_from r repl O s')
          | EmptyString => EmptyString
          end
      end
  end.

Definition re_sub (r : regex) (repl : option string -> string) (s : string)
  : string := sub_from r repl O s.

(** [re.findall(r, s)] for a pattern with one group: the group of each
    match. *)
Fixpoint findall_from (r : regex) (skip : nat) (s : string) : list string :=
  match skip with
  | S n =>
      match s with
      | String _ s' => findall_from r n s'
      | EmptyString => []
      end
  | O =>
      match match_at r s with
      | Some (len, cap) =>
          default EmptyString cap ::
          match s with
          | String _ s' => findall_from r (Nat.pred len) s'
          | EmptyString => []
          end
      | None =>
          match s with
          | String _ s' => findall_from r O s'
          | EmptyString => []
          end
      end
  end.

Definition re_findall (r : regex) (s : string) : list string :=
  findall_from r O s.

(** The matches of [re.sub], for a caller that must know whether its
    replacement function runs at all. *)
Definition re_search (r : regex) (s : string) : bool :=
  negb (Nat.eqb (length (re_findall r s)) 0).

(** ** [str] methods *)

Definition NL : string := String (ascii_of_nat 10) EmptyString.

(** [s.split(sep)] for a one-character [sep], as a first piece and the
    pieces after it. *)
Fixpoint split_first (sep : ascii -> bool) (s : string)
  : string * list string :=
  match s with
  | EmptyString => (EmptyString, [])
  | String a s' =>
      let '(l, ls) := split_first sep s' in
      if sep a then (EmptyString, l :: ls) else (String a l, ls)
  end.

Definition split (sep : ascii -> bool) (s : string) : list string :=
  let '(l, ls) := split_first sep s in l :: ls.

(** [s.split('\n')]. *)
Definition split_lines (s : string) : list string := split is_newline s.

(** ['\n'.join(lines)]. *)
Definition join_lines (lines : list string) : string := String.concat NL lines.

Fixpoint lstrip (s : string) : string :=
  match s with
  | String a s' => if is_space a then lstrip s' else s
  | EmptyString => EmptyString
  end.

Fixpoint rstrip (s : string) : string :=
  match s with
  | EmptyString => EmptyString
  | String a s' =>
      match rstrip s' with
      | EmptyString => if is_space a then EmptyString else String a EmptyString
      | t => String a t
      end
  end.

(** [s.strip()]. *)
Definition strip (s : string) : string := lstrip (rstrip s).

(** [s.lower()] on code points below 256. *)
Definition lower_char (a : ascii) : ascii :=
  if between 65 90 a || between 192 214 a || between 216 222 a
  then ascii_of_N (code a + 32) else a.

Fixpoint lower (s : string) : string :=
  match s with
  | EmptyString => EmptyString
  | String a s' => String (lower_char a) (lower s')
  end.

(** [while lines and test(lines[0]): lines.pop(0)]. *)
Fixpoint dropwhile {A} (test : A -> bool) (l : list A) : list A :=
  match l with
  | x :: l' => if test x then dropwhile test l' else l
  | [] => []
  end.

(** [s.startswith(p)]. *)
Definition startswith (p s : string) : bool :=
  match strip_prefix p s with Some _ => true | None => false end.

End Re.

(* ================================================================== *)
(** * Template renderer: [app/utils/template_render.py] *)
(* ================================================================== *)

Module Render.
Import Py Host Re.

Local Open Scope exc_scope.

Section WithBuiltins.
Variable B : builtins.

(** ** Conditional tags *)

Definition today_categories : list string :=
  ["today"; "tonight"; "end of day"; "by the end of the day"].

(** [_is_payment_today]: [.lower()] exists on a [str] only. *)
Definition _is_payment_today (ctx : option dict) : exc pyval :=
  a ← oget ctx "upd_extracted_payment_date";
  b ← oget ctx "user_provided_payment_date";
  let payment_date := py_or a b in
  if negb (truthy payment_date) then Ok (PBool false)
  else
    match payment_date with
    | PStr s =>
        if existsb (String.eqb (lower s)) today_categories
        then Ok (PBool true)
        else
          d ← oget ctx "current_date";
          let today := py_or d (PStr (utc_today B)) in
          Ok (PBool (match today with
                     | PStr t => String.eqb s t
                     | _ => false
                     end))
    | _ => AttributeError "object has no attribute 'lower'"
    end.

(** The shapes the lambdas of [CONDITIONAL_MAPPINGS] take. *)
Definition cond := option dict -> exc pyval.

Definition eq_to (k : string) (dflt : pyval) (lit : pylit) : cond :=
  fun ctx => x ← oget_or ctx k dflt; Ok (PBool (py_eq x lit)).
Definition ne_to (k : string) (lit : pylit) : cond :=
  fun ctx => x ← oget ctx k; Ok (PBool (negb (py_eq x lit))).
Definition as_bool (k : string) : cond :=
  fun ctx => x ← oget ctx k; Ok (PBool (truthy x)).
Definition not_set (k : string) : cond :=
  fun ctx => x ← oget ctx k; Ok (py_not x).
Definition flag (k : string) : cond :=
  fun ctx => oget_or ctx k (PBool false).
Definition not_flag (k : string) : cond :=
  fun ctx => x ← oget_or ctx k (PBool false); Ok (py_not x).
Definition days_late (test : Z -> bool) : cond :=
  fun ctx => x ← oget_or ctx "DaysLate" (PInt 0);
             n ← py_int B x; Ok (PBool (test n)).
Definition fees (test : float -> bool) : cond :=
  fun ctx => x ← oget_or ctx "FeesBalance" (PInt 0);
             f ← py_float B (py_or x (PInt 0)); Ok (PBool (test f)).

Definition CONDITIONAL_MAPPINGS : gmap string cond := list_to_map [
    (* Language conditionals *)
    ("en", eq_to "language" (PStr "en") (LStr "en"));
    ("es", eq_to "language" (PStr "en") (LStr "es"));
    ("english_examples", eq_to "language" (PStr "en") (LStr "en"));
    ("spanish_examples", eq_to "language" (PStr "en") (LStr "es"));
    (* Account availability *)
    ("essex_loan_acct_available", as_bool "AccountNumberLastFour");
    ("essex_loan_acct_unavailable", not_set "AccountNumberLastFour");
    (* Payment date (today vs future) *)
    ("upd_current_dated_payment", fun ctx => _is_payment_today ctx);
    ("upd_future_dated_payment",
       fun ctx => x ← _is_payment_today ctx; Ok (py_not x));
    (* Certified funds restriction *)
    ("RestrictAutoPayDraft", eq_to "RestrictAutoPayDraft" PNone (LStr "Y"));
    ("NoRestrictAutoPayDraft", ne_to "RestrictAutoPayDraft" (LStr "Y"));
    (* Days late thresholds *)
    ("days_late_leq_15", days_late (fun n => n <=? 15));
    ("days_late_gt_15", days_late (fun n => 15 <? n));
    ("days_late_gt_30", days_late (fun n => 30 <? n));
    ("days_late_gt_45", days_late (fun n => 45 <? n));
    ("days_late_leq_45", days_late (fun n => n <=? 45));
    (* Birthday/Anniversary/Veteran *)
    ("is_birthday", flag "is_birthday");
    ("is_anniversary", flag "is_anniversary");
    ("is_veteran", flag "is_veteran");
    ("not_birthday", not_flag "is_birthday");
    ("not_anniversary", not_flag "is_anniversary");
    (* Prompt ordering (first vs reprompt) *)
    ("firstprompt", eq_to "prompt_count" (PInt 0) (LInt 0));
    ("reprompt",
       fun ctx => x ← oget_or ctx "prompt_count" (PInt 0); py_gt_int x 0);
    (* Appointment handling *)
    ("user_appt_conflict", flag "appt_conflict");
    ("no_appt_conflict", not_flag "appt_conflict");
    (* Name matching (for co-borrower scenarios) *)
    ("name_match", flag "name_match");
    ("name_no_match", not_flag "name_match");
    (* Bank account scenarios *)
    ("has_existing_account", as_bool "AccountNumberLastFour");
    ("no_existing_account", not_set "AccountNumberLastFour");
    ("using_new_account", flag "new_bank_account_confirmed");
    ("using_existing_account", flag "existing_bank_account_confirmed");
    (* Payment method *)
    ("payment_method_checking",
       eq_to "new_account_payment_method" PNone (LStr "checking"));
    ("payment_method_savings",
       eq_to "new_account_payment_method" PNone (LStr "savings"));
    (* Disaster impact *)
    ("disaster_affected", flag "affected_by_disaster");
    ("not_disaster_affected", not_flag "affected_by_disaster");
    (* Transfer scenarios *)
    ("transfer_reason_provided", as_bool "transfer_reason");
    (* DOB verification *)
    ("dob_attempt_1", eq_to "dob_attempts" (PInt 0) (LInt 1));
    ("dob_attempt_2",
       fun ctx => x ← oget_or ctx "dob_attempts" (PInt 0); py_ge_int x 2);
    (* Fees *)
    ("has_fees", fees (fun f => (0 <? f)%float));
    ("no_fees", fees (fun f => (f <=? 0)%float))
  ].

(** ** Patterns *)

Fixpoint seq (rs : list regex) : regex :=
  match rs with
  | [] => Lit ""
  | [r] => r
  | r :: rs' => Cat r (seq rs')
  end.

Definition spaces : regex := Rep is_space 0 true.

(** [r'\{%\s*(\w+)\s*%\}'] *)
Definition tag_pattern : regex :=
  seq [Lit "{%"; spaces; Group (Rep is_word 1 true); spaces; Lit "%}"].

(** [r'\{%\s*' + re.escape(tag_name) + r'\s*%\}(.*?)\{%\s*end'
    + re.escape(tag_name) + r'\s*%\}'], with [re.DOTALL]. *)
Definition keep_pattern (tag_name : string) : regex :=
  seq [Lit "{%"; spaces; Lit tag_name; spaces; Lit "%}";
       Group (Rep any_char 0 false);
       Lit "{%"; spaces; Lit "end"; Lit tag_name; spaces; Lit "%}"].

(** The same without the group. *)
Definition remove_pattern (tag_name : string) : regex :=
  seq [Lit "{%"; spaces; Lit tag_name; spaces; Lit "%}";
       Rep any_char 0 false;
       Lit "{%"; spaces; Lit "end"; Lit tag_name; spaces; Lit "%}"].

(** [r'\{\{\s*(\w+)\s*\}\}'] *)
Definition var_pattern : regex :=
  seq [Lit "{{"; spaces; Group (Rep is_word 1 true); spaces; Lit "}}"].

(** [r'\n{3,}'] *)
Definition newlines_pattern : regex := Rep is_newline 3 true.

(** ** The pipeline *)

(** Replace by [r'\1']. *)
Definition keep_block (template tag_name : string) : string :=
  re_sub (keep_pattern tag_name) (fun cap => default "" cap) template.

Definition remove_block (template tag_name : string) : string :=
  re_sub (remove_pattern tag_name) (fun _ => "") template.

(** The body of the loop of [process_conditionals]. *)
Definition process_tag (ctx : option dict) (tag_name : string)
    (result : string) : exc string :=
  if startswith "end" tag_name then Ok result
  else
    match CONDITIONAL_MAPPINGS !! tag_name with
    | Some predicate =>
        should_keep ← predicate ctx;
        if truthy should_keep then Ok (keep_block result tag_name)
        else Ok (remove_block result tag_name)
    | None => Ok (keep_block result tag_name)
    end.

Fixpoint for_tags (ctx : option dict) (tags : list string) (result : string)
  : exc string :=
  match tags with
  | [] => Ok result
  | tag_name :: rest =>
      result ← process_tag ctx tag_name result; for_tags ctx rest result
  end.

Definition process_conditionals (template : string) (ctx : option dict)
  : exc string :=
  let tags_found := set_iter B (re_findall tag_pattern template) in
  for_tags ctx tags_found template.

Definition replace_var (d : dict) (cap : option string) : string :=
  let var_name := strip (default "" cap) in
  match get d var_name with
  | PNone => ""
  | value => py_str B value
  end.

(** [context.get] runs once per placeholder: with no context the first
    placeholder raises. *)
Definition substitute_variables (template : string) (ctx : option dict)
  : exc string :=
  match ctx with
  | Some d => Ok (re_sub var_pattern (replace_var d) template)
  | None =>
      if re_search var_pattern template
      then AttributeError "'NoneType' object has no attribute 'get'"
      else Ok template
  end.

Definition blank (line : string) : bool := String.eqb (strip line) "".

Definition clean_whitespace (text : string) : string :=
  let text := re_sub newlines_pattern (fun _ => NL ++ NL) text in
  let lines := split_lines text in
  let cleaned_lines :=
    map (fun line => if blank line then strip line else line) lines in
  let cleaned_lines := dropwhile blank cleaned_lines in
  let cleaned_lines := rev (dropwhile blank (rev cleaned_lines)) in
  join_lines cleaned_lines.

Definition render_template (template : string) (ctx : option dict)
  : exc string :=
  if String.eqb template "" then Ok ""
  else
    rendered ← process_conditionals template ctx;
    rendered ← substitute_variables rendered ctx;
    Ok (clean_whitespace rendered).

(** ** The inspection helpers *)

(** [list(set(re.findall(pattern, template)))] *)
Definition get_available_variables (template : string) : list string :=
  set_iter B (re_findall var_pattern template).

(** [[t for t in tags if not t.startswith('end')]] over the set of tags. *)
Definition get_conditional_tags (template : string) : list string :=
  let tags := set_iter B (re_findall tag_pattern template) in
  List.filter (fun t => negb (startswith "end" t)) tags.

(** [s.replace(old, new)] for a non-empty [old]: the occurrences from the
    left, not overlapping. *)
Definition replace (old new s : string) : string :=
  re_sub (Lit old) (fun _ => new) s.

(** [x in l] for a list of strings. *)
Definition is_in (x : string) (l : list string) : bool :=
  existsb (String.eqb x) l.

(** The dictionary [validate_template] returns. *)
Record validation := Validation {
  valid : bool;
  issues : list string;
  variables_used : list string;
  conditional_tags : list string
}.

Definition validate_template (template : string) : validation :=
  let tags := re_findall tag_pattern template in
  let open_tags := List.filter (fun t => negb (startswith "end" t)) tags in
  let close_tags :=
    map (replace "end" "") (List.filter (startswith "end") tags) in
  (* unclosed tags *)
  let unclosed :=
    map (fun tag => "Unclosed tag: " ++ tag)
      (List.filter (fun tag => negb (is_in tag close_tags)) open_tags) in
  let unopened :=
    map (fun tag => "Closing tag without opening: end" ++ tag)
      (List.filter (fun tag => negb (is_in tag open_tags)) close_tags) in
  (* unknown conditional tags *)
  let unknown :=
    map (fun tag => "Unknown conditional tag (will default to keep): " ++ tag)
      (List.filter
         (fun tag => negb (bool_decide (is_Some (CONDITIONAL_MAPPINGS !! tag))))
         open_tags) in
  let issues := List.app unclosed (List.app unopened unknown) in
  let variables := get_available_variables template in
  Validation (Nat.eqb (length issues) 0) issues variables open_tags.

(** ** [substitute_api_body] *)

(** [str.isdigit()]: not empty, every character a digit. *)
Definition is_digit (a : ascii) : bool :=
  between 48 57 a || between 178 179 a || between 185 185 a.
Definition isdigit (s : string) : bool :=
  negb (String.eqb s "") && forallb is_digit (list_ascii_of_string s).

(** The type a rendered body value is converted to. *)
Definition convert_value (value : string) : exc pyval :=
  if String.eqb (lower value) "true" then Ok (PBool true)
  else if String.eqb (lower value) "false" then Ok (PBool false)
  else if isdigit value then n ← py_int B (PStr value); Ok (PInt n)
  else
    try_except (f ← py_float B (PStr value); Ok (PFloat f))
      (fun e => if String.eqb (exn_class e) "ValueError"
                then Ok (PStr value) else Raise e).

Fixpoint substitute_api_body (body_items : list (string * string))
    (ctx : option dict) (result : dict) : exc dict :=
  match body_items with
  | [] => Ok result
  | (key, value_template) :: rest =>
      value ← substitute_variables value_template ctx;
      value ← convert_value value;
      substitute_api_body rest ctx (<[key := value]> result)
  end.

End WithBuiltins.
End Render.

(* ================================================================== *)
(** * Context store: [app/utils/context_manager.py] *)
(* ================================================================== *)

Module ContextStore.
Import Py Host.

(** [ContextManager._contexts].  The per-call locks only serialise the
    operations below; each operation is one step on the store. *)
Abbreviation store := (gmap string dict).

Section WithBuiltins.
Variable B : builtins.

(** The literal of [create_context], before [**initial_data]. *)
Definition fresh_context (call_sid : string) : dict := list_to_map [
    ("call_sid", PStr call_sid);
    ("created_at", PStr (utc_isoformat B));
    ("current_node", PStr "n61");
    ("language", PStr "en");
    ("current_date", PStr (utc_today B));
    ("current_day_of_week", PStr (utc_weekday B));
    ("current_time", PStr (utc_clock B));
    ("transcript", PList []);
    ("extracted_dob", PNone);
    ("party_name", PNone);
    ("dob_verified", PBool false);
    ("dob_attempts", PInt 0);
    ("mini_miranda_complete", PBool false);
    ("occupancy_verified", PBool false);
    ("occupancy_status", PNone);
    ("affected_by_disaster", PNone);
    ("payment_date_received", PBool false);
    ("payment_amount_received", PBool false);
    ("user_provided_payment_amount", PNone);
    ("upd_extracted_payment_date", PNone);
    ("new_routing_number", PStr "N/A");
    ("new_account_number", PStr "N/A");
    ("new_account_payment_method", PNone);
    ("existing_bank_account_confirmed", PBool false);
    ("new_bank_account_confirmed", PBool false);
    ("new_routing_number_confirmed", PBool false);
    ("declined_bank_account_setup_today", PBool false);
    ("user_claims_payment_made", PBool false);
    ("user_wants_set_up_later", PBool false);
    ("borrower_wants_options", PBool false);
    ("nacha_permission_granted", PBool false);
    ("payment_processed", PBool false);
    ("confirmation_number", PNone);
    ("transfer_completed", PBool false);
    ("transfer_reason", PNone);
    ("callback_scheduled", PBool false);
    ("callback_time", PNone);
    ("appt_scheduled_success", PBool false);
    ("delinquency_reason", PNone);
    ("api_status_code", PNone);
    ("api_error", PNone)
  ].

(** The keys of [initial_data] come last in the literal and win. *)
Definition create_context (st : store) (call_sid : string)
    (initial_data : dict) : store * dict :=
  let ctx := initial_data ∪ fresh_context call_sid in
  (<[call_sid := ctx]> st, ctx).

Definition get_context (st : store) (call_sid : string) : option dict :=
  st !! call_sid.

Definition is_none (x : pyval) : bool :=
  match x with PNone => true | _ => false end.

(** [{k: v for k, v in updates.items() if v is not None}] *)
Definition filtered_updates (updates : dict) : dict :=
  filter (fun kv => is_none kv.2 = false) updates.

(** [update_context]: the filtered updates are written over the stored
    context; a copy of the result is returned, [None] for an unknown
    call. *)
Definition update_context (st : store) (call_sid : string) (updates : dict)
  : store * option dict :=
  match st !! call_sid with
  | None => (st, None)
  | Some ctx =>
      let ctx' := filtered_updates updates ∪ ctx in
      (<[call_sid := ctx']> st, Some ctx')
  end.

(** [self._contexts[call_sid]["transcript"].append({...})] *)
Definition append_transcript (st : store) (call_sid role content : string)
  : store * exc unit :=
  match st !! call_sid with
  | None => (st, Ok tt)
  | Some ctx =>
      match ctx !! "transcript" with
      | None => (st, Raise (Exn "KeyError" "'transcript'"))
      | Some (PList entries) =>
          let entry := PDict (list_to_map [
              ("role", PStr role);
              ("content", PStr content);
              ("timestamp", PStr (utc_isoformat B))]) in
          (<[call_sid := <["transcript" := PList (entries ++ [entry])]> ctx]> st,
           Ok tt)
      | Some _ => (st, AttributeError "object has no attribute 'append'")
      end
  end.

(** [l[-n:]] for [n > 0]. *)
Definition last_n {A} (n : nat) (l : list A) : list A :=
  drop (length l - n) l.

(** [transcript.copy()]: lists and dicts have it. *)
Definition copy_of (transcript : pyval) : exc pyval :=
  match transcript with
  | PList entries => Ok (PList entries)
  | PDict d => Ok (PDict d)
  | _ => AttributeError "object has no attribute 'copy'"
  end.

(** [get_transcript(call_sid, last_n)], [0] standing for a [last_n] that is
    [None] or zero: the slice of whatever is stored under ["transcript"],
    or a copy of it. *)
Definition get_transcript (st : store) (call_sid : string) (n : nat)
  : exc pyval :=
  match st !! call_sid with
  | None => Ok (PList [])
  | Some ctx =>
      let transcript := get_or ctx "transcript" (PList []) in
      if Nat.eqb n 0 then copy_of transcript
      else
        match transcript with
        | PList entries => Ok (PList (last_n n entries))
        | PStr s =>
            Ok (PStr (string_of_list_ascii (last_n n (list_ascii_of_string s))))
        | _ => TypeError "object is not subscriptable"
        end
  end.

Definition set_current_node (st : store) (call_sid node_id : string) : store :=
  match st !! call_sid with
  | None => st
  | Some ctx => <[call_sid := <["current_node" := PStr node_id]> ctx]> st
  end.

Definition get_current_node (st : store) (call_sid : string) : pyval :=
  match st !! call_sid with
  | None => PStr "n61"
  | Some ctx => get_or ctx "current_node" (PStr "n61")
  end.

Definition delete_context (st : store) (call_sid : string)
  : store * option dict :=
  (delete call_sid st, st !! call_sid).

(** [current + 1] for what a counter holds: a [bool] counts as an int, a
    float stays a float, anything else has no sum with an int. *)
Definition add_one (current : pyval) : exc pyval :=
  match current with
  | PInt z => Ok (PInt (z + 1))
  | PBool b => Ok (PInt ((if b then 1 else 0) + 1))
  | PFloat f => Ok (PFloat (f + 1)%float)
  | _ => TypeError "unsupported operand type(s) for +"
  end.

(** [increment_counter]: [0] for an unknown call; else the counter, read
    with default [0], is stored and returned one higher. *)
Definition increment_counter (st : store) (call_sid counter_name : string)
  : store * exc pyval :=
  match st !! call_sid with
  | None => (st, Ok (PInt 0))
  | Some ctx =>
      match add_one (get_or ctx counter_name (PInt 0)) with
      | Raise e => (st, Raise e)
      | Ok next => (<[call_sid := <[counter_name := next]> ctx]> st, Ok next)
      end
  end.

End WithBuiltins.
End ContextStore.

(* ================================================================== *)
(** * The context store with its list objects:
      [app/utils/context_manager.py] *)
(* ================================================================== *)

Module SharedStore.
Import Py Host.

(** Every context the manager hands out is a shallow copy: a new dict
    whose lists are the list objects of the stored context, and
    [append_transcript] changes such an object in place.  Here a list in
    a context is held by its address; what else a context holds is never
    changed in place and is held as it is. *)
Abbreviation address := nat.

Inductive item :=
| INone
| IBool (b : bool)
| IInt (z : Z)
| IFloat (f : float)
| IStr (s : string)
| IDict (d : dict)
| IList (a : address).

Abbreviation context := (gmap string item).

(** [ContextManager._contexts], and the list objects by address. *)
Record manager := Manager {
  contexts : gmap string context;
  lists : gmap address (list pyval)
}.

Section WithBuiltins.
Variable B : builtins.

(** A value of the literal of [create_context] as an item, its one list
    the object at [a]. *)
Definition held (a : address) (x : pyval) : item :=
  match x with
  | PNone => INone
  | PBool b => IBool b
  | PInt z => IInt z
  | PFloat f => IFloat f
  | PStr s => IStr s
  | PDict d => IDict d
  | PList _ => IList a
  end.

(** The literal of [create_context]; its [[]] is a new list, at [a]. *)
Definition fresh_context (call_sid : string) (a : address) : context :=
  held a <$> ContextStore.fresh_context B call_sid.

(** The new list gets an address no list has; the keys of [initial_data]
    come last in the literal and win. *)
Definition create_context (m : manager) (call_sid : string)
    (initial_data : context) : manager * context :=
  let a := fresh (dom (lists m)) in
  let ctx := initial_data ∪ fresh_context call_sid a in
  (Manager (<[call_sid := ctx]> (contexts m)) (<[a := []]> (lists m)), ctx).

(** [self._contexts[call_sid].copy()]: the items, lists by address. *)
Definition get_context (m : manager) (call_sid : string) : option context :=
  contexts m !! call_sid.

Definition is_none (i : item) : bool :=
  match i with INone => true | _ => false end.

Definition filtered_updates (updates : context) : context :=
  filter (fun kv => is_none kv.2 = false) updates.

Definition update_context (m : manager) (call_sid : string)
    (updates : context) : manager * option context :=
  match contexts m !! call_sid with
  | None => (m, None)
  | Some ctx =>
      let ctx' := filtered_updates updates ∪ ctx in
      (Manager (<[call_sid := ctx']> (contexts m)) (lists m), Some ctx')
  end.

(** [self._contexts[call_sid]["transcript"].append({...})]: the list
    object grows; no dict is assigned to. *)
Definition append_transcript (m : manager) (call_sid role content : string)
  : manager * exc unit :=
  match contexts m !! call_sid with
  | None => (m, Ok tt)
  | Some ctx =>
      match ctx !! "transcript" with
      | None => (m, Raise (Exn "KeyError" "'transcript'"))
      | Some (IList a) =>
          let entry := PDict (list_to_map [
              ("role", PStr role);
              ("content", PStr content);
              ("timestamp", PStr (utc_isoformat B))]) in
          (Manager (contexts m)
             (<[a := (default [] (lists m !! a) ++ [entry])%list]> (lists m)),
           Ok tt)
      | Some _ => (m, AttributeError "object has no attribute 'append'")
      end
  end.

Definition set_current_node (m : manager) (call_sid node_id : string)
  : manager :=
  match contexts m !! call_sid with
  | None => m
  | Some ctx =>
      Manager (<[call_sid := <["current_node" := IStr node_id]> ctx]>
                 (contexts m)) (lists m)
  end.

Definition add_one (current : item) : exc item :=
  match current with
  | IInt z => Ok (IInt (z + 1))
  | IBool b => Ok (IInt ((if b then 1 else 0) + 1))
  | IFloat f => Ok (IFloat (f + 1)%float)
  | _ => TypeError "unsupported operand type(s) for +"
  end.

Definition increment_counter (m : manager) (call_sid counter_name : string)
  : manager * exc item :=
  match contexts m !! call_sid with
  | None => (m, Ok (IInt 0))
  | Some ctx =>
      match add_one (default (IInt 0) (ctx !! counter_name)) with
      | Raise e => (m, Raise e)
      | Ok next =>
          (Manager (<[call_sid := <[counter_name := next]> ctx]> (contexts m))
             (lists m), Ok next)
      end
  end.

Definition delete_context (m : manager) (call_sid : string)
  : manager * option context :=
  (Manager (delete call_sid (contexts m)) (lists m), contexts m !! call_sid).

End WithBuiltins.
End SharedStore.

(* ================================================================== *)
(** * Node engine: [app/utils/node_engine.py] *)
(* ================================================================== *)

Module Engine.
Import Py Host Re Render ContextStore Transition.
Local Open Scope exc_scope.

(** ** The node catalog ([outbound_config.json], read at start-up) *)

(** One entry of a node's ['apis']: the URL under ['post'] or ['get'] (empty
    when absent), the ['body'] items as key and value template, and the
    ['response_data'] items as context key and optional response path. *)
Record api_spec := ApiSpec {
  api_post : string;
  api_get : string;
  api_body : list (string * string);
  api_response_data : list (string * option string)
}.

(** ['details'] of a node: the prompt template (empty when absent), the
    variable specs as name, type and description, and the API actions. *)
Record node_def := NodeDef {
  node_prompt : string;
  node_variables : list (string * string * string);
  node_apis : list api_spec
}.

(** ** The services outside the process *)

(** What an HTTP request comes back with: an exception of the client, or a
    response with its status, its text and what [response.json()] gives. *)
Inductive http_outcome :=
| Transport (e : pyexn)
| Response (status_code : Z) (text : string) (json : exc pyval).

(** The language model behind [extract_variables], as
    [json.loads(response.choices[0].message.content)] for the variable
    specs, the transcript and the context the prompt is built from, and
    the HTTP client of [execute_apis]. *)
Record services := Services {
  llm_json : list (string * string * string) -> string -> dict -> exc pyval;
  http_post : string -> dict -> http_outcome;
  http_get : string -> http_outcome
}.

(** The decision bundle [process] returns. *)
Record bundle := Bundle {
  next_node : string;
  prompt : option string;
  context : option dict;
  should_update_agent : bool
}.

Section WithEnvironment.
Variable B : builtins.
Variable W : services.
Variable nodes : gmap string node_def.

Definition apis_of (node_id : string) : list api_spec :=
  match nodes !! node_id with
  | Some node => node_apis node
  | None => []
  end.

(** ** [_format_transcript] *)

Definition format_entry (entry : pyval) : exc string :=
  match entry with
  | PDict d =>
      let role := get_or d "role" (PStr "unknown") in
      let content := get_or d "content" (PStr "") in
      Ok (py_str B role ++ ": " ++ py_str B content)
  | _ => AttributeError "object has no attribute 'get'"
  end.

Fixpoint format_entries (entries : list pyval) : exc (list string) :=
  match entries with
  | [] => Ok []
  | entry :: rest =>
      line ← format_entry entry;
      lines ← format_entries rest;
      Ok (line :: lines)
  end.

(** Iterating a [str] yields its characters, which have no [get]. *)
Definition _format_transcript (transcript : pyval) : exc string :=
  match transcript with
  | PList entries => lines ← format_entries entries; Ok (join_lines lines)
  | PStr "" => Ok ""
  | _ => AttributeError "object has no attribute 'get'"
  end.

(** ** [extract_variables] *)

(** [value is not None and value != "N/A" and value != "null"] *)
Definition extracted_value (value : pyval) : bool :=
  negb (is_none value) && negb (py_eq value (LStr "N/A"))
  && negb (py_eq value (LStr "null")).

(** The prompt reads [context.get('FirstName')] and
    [context.get('LastName')] before the [try]; inside it every failure of
    the model, of the parser or of [result.items()] gives [{}]. *)
Definition extract_variables (node_id transcript : string)
    (ctx : option dict) : exc dict :=
  let variables :=
    match nodes !! node_id with
    | Some node => node_variables node
    | None => []
    end in
  match variables with
  | [] => Ok ∅
  | _ =>
      _ ← oget ctx "FirstName";
      _ ← oget ctx "LastName";
      try_except
        (result ← llm_json W variables transcript (default ∅ ctx);
         match result with
         | PDict d => Ok (filter (fun kv => extracted_value kv.2 = true) d)
         | _ => AttributeError "object has no attribute 'items'"
         end)
        (fun _ => Ok ∅)
  end.

(** ** [execute_apis] *)

Definition is_dot (a : ascii) : bool := between 46 46 a.

(** [for part in path.split('.')]: one step down a nested response. *)
Fixpoint walk (parts : list string) (value : pyval) : pyval :=
  match parts with
  | [] => value
  | part :: rest =>
      let value :=
        match value with
        | PDict d => get d part
        | _ => PNone
        end in
      if is_none value then PNone else walk rest value
  end.

(** The loop over [api.get('response_data', [])]. *)
Fixpoint map_response (items : list (string * option string))
    (response_data : pyval) (ctx : dict) : dict :=
  match items with
  | [] => ctx
  | (key, path) :: rest =>
      let value := walk (split is_dot (default key path)) response_data in
      map_response rest response_data
        (if is_none value then ctx else <[key := value]> ctx)
  end.

(** The body of a [try] that assigns into the context and may raise
    half-way: the context as it is left, and the exception if any. *)
Definition attempt : Type := dict * option pyexn.

Definition post_request (api : api_spec) (ctx : dict) : attempt :=
  match substitute_api_body B (api_body api) (Some ctx) ∅ with
  | Raise e => (ctx, Some e)
  | Ok body =>
      match http_post W (api_post api) body with
      | Transport e => (ctx, Some e)
      | Response status_code text json =>
          let ctx := <["api_status_code" := PInt status_code]> ctx in
          if status_code =? 200 then
            match json with
            | Raise e => (ctx, Some e)
            | Ok response_data =>
                (map_response (api_response_data api) response_data ctx, None)
            end
          else
            (<["api_error" :=
                 PStr ("Status " ++ py_str B (PInt status_code) ++ ": " ++ text)]>
               ctx, None)
      end
  end.

Definition get_request (api : api_spec) (ctx : dict) : attempt :=
  match render_template B (api_get api) (Some ctx) with
  | Raise e => (ctx, Some e)
  | Ok url =>
      match http_get W url with
      | Transport e => (ctx, Some e)
      | Response status_code text json =>
          let ctx := <["api_status_code" := PInt status_code]> ctx in
          if status_code =? 200 then
            match json with
            | Raise e => (ctx, Some e)
            | Ok response_data => (<["api_response" := response_data]> ctx, None)
            end
          else
            (<["api_error" := PStr ("Status " ++ py_str B (PInt status_code))]>
               ctx, None)
      end
  end.

Definition nonempty (s : string) : bool := negb (String.eqb s "").

(** One turn of the loop: the [try] and its
    [except Exception as e: context['api_error'] = str(e)]. *)
Definition run_api (api : api_spec) (ctx : dict) : exc dict :=
  let '(ctx, raised) :=
    if nonempty (api_post api) then post_request api ctx
    else if nonempty (api_get api) then get_request api ctx
    else (ctx, None) in
  match raised with
  | None => Ok ctx
  | Some e => Ok (<["api_error" := PStr (exn_msg e)]> ctx)
  end.

Fixpoint for_apis (apis : list api_spec) (ctx : dict) : exc dict :=
  match apis with
  | [] => Ok ctx
  | api :: rest => ctx ← run_api api ctx; for_apis rest ctx
  end.

(** With [None] for a context the first assignment raises inside the
    [try], and the assignment of the handler raises out of it. *)
Definition execute_apis (node_id : string) (ctx : option dict)
  : exc (option dict) :=
  let apis := apis_of node_id in
  match ctx with
  | Some d => d ← for_apis apis d; Ok (Some d)
  | None =>
      if existsb (fun api => nonempty (api_post api) || nonempty (api_get api))
           apis
      then TypeError "'NoneType' object does not support item assignment"
      else Ok None
  end.

(** ** [get_rendered_prompt] *)

Definition get_rendered_prompt (node_id : string) (ctx : option dict)
  : exc (option string) :=
  let prompt_template :=
    match nodes !! node_id with
    | Some node => node_prompt node
    | None => ""
    end in
  if String.eqb prompt_template "" then Ok None
  else rendered ← render_template B prompt_template ctx; Ok (Some rendered).

(** ** [process] *)

Definition is_ascii_digit (a : ascii) : bool := between 48 57 a.

(** [normalize_dob]: [None], the eight digits, or the text in lower
    case. *)
Definition normalize_dob (dob_str : pyval) : exc (option string) :=
  if negb (truthy dob_str) then Ok None
  else
    let clean :=
      re_sub (Class (fun a => negb (is_ascii_digit a))) (fun _ => "")
        (py_str B dob_str) in
    if Nat.eqb (String.length clean) 8 then Ok (Some clean)
    else
      match dob_str with
      | PStr s => Ok (Some (lower (strip s)))
      | _ => AttributeError "object has no attribute 'strip'"
      end.

(** Step 4: at [n68] an extracted date of birth is compared with the one
    on file. *)
Definition check_dob (node_id : string) (extracted : dict)
    (ctx : option dict) : exc dict :=
  if String.eqb node_id "n68" && truthy (get extracted "extracted_dob") then
    let extracted_dob := get extracted "extracted_dob" in
    dob_on_file ← oget_or ctx "DOB" (PStr "");
    normalized_extracted ← normalize_dob extracted_dob;
    normalized_on_file ← normalize_dob dob_on_file;
    match normalized_extracted, normalized_on_file with
    | Some a, Some b =>
        if nonempty a && nonempty b then
          if String.eqb a b
          then Ok (<["dob_correct" := PBool true]>
                    (<["dob_verified" := PBool true]> extracted))
          else Ok (<["dob_incorrect" := PBool true]>
                    (<["dob_mismatch" := PBool true]> extracted))
        else Ok extracted
    | _, _ => Ok extracted
    end
  else Ok extracted.

(** Step 4.5: the payment date under the name the templates use. *)
Definition sync_payment_date (extracted : dict) : dict :=
  let d := get extracted "user_provided_payment_date" in
  if truthy (py_and d
       (PBool (negb (py_in d [LStr "NA"; LStr "N/A"; LNone; LStr ""]))))
  then <["upd_extracted_payment_date" := d]> extracted
  else extracted.

(** The copy [update_context] hands out is shallow: its ['transcript'] is
    the list object of the stored context, so what is appended to the
    stored transcript afterwards shows in the copy as well. *)
Definition shared_transcript (st : store) (call_sid : string)
    (ctx : option dict) : option dict :=
  match ctx, st !! call_sid with
  | Some d, Some stored =>
      match stored !! "transcript" with
      | Some transcript => Some (<["transcript" := transcript]> d)
      | None => Some d
      end
  | _, _ => ctx
  end.

(** Steps 7 to 9, for a next node that is not ["END"].  [ctx] is the copy
    step 5 returned.  When the node changed, the log line before the
    prompt reads [context.get(...)], which raises for [None]. *)
Definition enter_node (st : store) (call_sid node_id next : string)
    (ctx : option dict) : store * exc bundle :=
  let changed := negb (String.eqb next node_id) in
  (* 7. APIs of a new node *)
  let '(st, ctx_r) :=
    if changed && negb (Nat.eqb (length (apis_of next)) 0) then
      match execute_apis next ctx with
      | Raise e => (st, Raise e)
      | Ok ctx' =>
          (match ctx' with
           | Some d => fst (update_context st call_sid d)
           | None => st
           end, Ok ctx')
      end
    else (st, Ok ctx) in
  match ctx_r with
  | Raise e => (st, Raise e)
  | Ok ctx =>
      (* 8. the prompt, only if the node changed *)
      if changed then
        match oget ctx "AccountNumberLastFour" with
        | Raise e => (st, Raise e)
        | Ok _ =>
            match get_rendered_prompt next ctx with
            | Raise e => (st, Raise e)
            | Ok prompt =>
                let st := set_current_node st call_sid next in
                if nonempty (default "" prompt) then
                  match append_transcript B st call_sid "assistant"
                          ("[Node: " ++ next ++ "]") with
                  | (st, Raise e) => (st, Raise e)
                  | (st, Ok _) =>
                      (st, Ok (Bundle next prompt
                                 (shared_transcript st call_sid ctx) true))
                  end
                else (st, Ok (Bundle next prompt ctx true))
            end
        end
      else (st, Ok (Bundle next None ctx false))
  end.

(** Step 2: the last ten entries of the transcript, as text. *)
Definition recent_transcript (st : store) (call_sid : string) : exc string :=
  transcript ← get_transcript st call_sid 10;
  _format_transcript transcript.

(** One conversation turn.  The store is returned as the turn leaves it,
    also when the turn raises. *)
Definition process (st : store) (call_sid node_id user_input : string)
    (ctx : option dict) : store * exc bundle :=
  (* 2. recent transcript *)
  match recent_transcript st call_sid with
  | Raise e => (st, Raise e)
  | Ok transcript_text =>
      (* 3. extraction, [{}] on any failure *)
      let extracted :=
        match extract_variables node_id transcript_text ctx with
        | Ok extracted => extracted
        | Raise _ => ∅
        end in
      (* 4. date of birth *)
      match check_dob node_id extracted ctx with
      | Raise e => (st, Raise e)
      | Ok extracted =>
          let extracted := sync_payment_date extracted in
          (* 5. merge into the store; the turn goes on with the copy *)
          let '(st, ctx) := update_context st call_sid extracted in
          (* 6. next node *)
          match get_next_node node_id extracted ctx with
          | Raise e => (st, Raise e)
          | Ok next =>
              if String.eqb next "END"
              then (st, Ok (Bundle "END" None ctx false))
              else enter_node st call_sid node_id next ctx
          end
      end
  end.

(** ** [initialize_call] and [end_call] *)

(** The dictionary [initialize_call] builds from the three records. *)
Definition initial_data (customer_data agent_data client_data : dict) : dict :=
  list_to_map [
    (* Customer data *)
    ("LoanID", get customer_data "LoanID");
    ("FirstName", get customer_data "FirstName");
    ("LastName", get customer_data "LastName");
    ("TotalAmountDue", get customer_data "TotalAmountDue");
    ("MonthlyPayment", get customer_data "MonthlyPayment");
    ("AccountNumberLastFour", get customer_data "AccountNumberLastFour");
    ("DOB", get customer_data "DOB");
    ("PropertyAddress", get customer_data "PropertyAddress");
    ("RestrictAutoPayDraft",
       get_or customer_data "RestrictAutoPayDraft" (PStr "N"));
    ("DaysLate", get_or customer_data "DaysLate" (PInt 0));
    ("FeesBalance", get_or customer_data "FeesBalance" (PInt 0));
    ("NextPaymentDueDate", get customer_data "NextPaymentDueDate");
    ("EscrowBalance", get customer_data "EscrowBalance");
    ("PrincipalBalance", get customer_data "PrincipalBalance");
    (* Agent data *)
    ("AIAgentFullName", get agent_data "name");
    ("AgentName", get agent_data "name");
    ("agent_id", get agent_data "id");
    (* Client data *)
    ("CompanyName", get client_data "CompanyName");
    ("LenderID", get client_data "LenderID")
  ].

Definition initialize_call (st : store) (call_sid : string)
    (customer_data agent_data client_data : dict) : store * dict :=
  create_context B st call_sid
    (initial_data customer_data agent_data client_data).

(** [end_call]: the context as it was, [{}] for an unknown call. *)
Definition end_call (st : store) (call_sid : string) : store * dict :=
  let '(st, final_context) := delete_context st call_sid in
  (st, match final_context with
       | Some d => if truthy (PDict d) then d else ∅
       | None => ∅
       end).

Definition get_initial_prompt (ctx : option dict) : exc (option string) :=
  get_rendered_prompt "n61" ctx.

End WithEnvironment.
End Engine.

(* ================================================================== *)
(** * Vocabulary of the properties *)
(* ================================================================== *)

Module TransitionSpec.
Import Py Transition.

(** A rule fires when its condition returns a true value; a condition
    that raises does not fire. *)
Definition fires (r : rule) (v : dict) (c : option dict) : bool :=
  match cond r v c with
  | Ok x => truthy x
  | Raise _ => false
  end.

Definition any_fires (rules : list rule) (v : dict) (c : option dict) : bool :=
  existsb (fun r => fires r v c) rules.

(** The rule set of a node, [TRANSITION_RULES.get(current_node, [])]. *)
Definition rules_of (table : gmap string (list rule)) (node : string)
  : list rule := default [] (table !! node).

End TransitionSpec.


Module Sample.
Import Py Host Engine.

(** A stand-in interpreter for the closed examples: [int] and [float] of
    numbers only, a fixed clock, and a set iterated in order of first
    occurrence.  None of the examples reaches a conversion. *)
Definition sample_int (x : pyval) : exc Z :=
  match x with
  | PInt z => Ok z
  | PBool b => Ok (if b then 1 else 0)
  | _ => TypeError "int() argument"
  end.

Definition sample_float (x : pyval) : exc float :=
  match x with
  | PFloat f => Ok f
  | _ => ValueError "could not convert to float"
  end.

Definition sample_builtins : builtins := {|
  py_int := sample_int;
  py_float := sample_float;
  py_repr := fun _ => "?";
  set_iter := remove_dups;
  set_iter_NoDup := fun l : list string => NoDup_remove_dups l;
  set_iter_elem :=
    fun (l : list string) (x : string) => elem_of_remove_dups l x;
  utc_today := "2025-01-15";
  utc_isoformat := "2025-01-15T10:30:00+00:00";
  utc_weekday := "Wednesday";
  utc_clock := "10:30 AM"
|}.

(** Services that answer every request the same way. *)
Definition fixed_reply (extraction : exc pyval) (reply : http_outcome)
  : services := {|
  llm_json := fun _ _ _ => extraction;
  http_post := fun _ _ => reply;
  http_get := fun _ => reply
|}.

Definition unreachable : pyexn := Exn "ConnectError" "connection refused".

(** Stores with one active call, and services for the examples. *)
Definition st_n32 : ContextStore.store := {["CA1" := {["current_node" := PStr "n32"]}]}.
Definition st_n25 : ContextStore.store := {["CA1" := {["current_node" := PStr "n25"]}]}.
Definition quiet : services := fixed_reply (Ok (PDict ∅)) (Transport unreachable).

Definition pay_api : api_spec :=
  ApiSpec "https://bank.example/payments" "" []
    [("confirmation_number", Some "confirmation_id")].

Definition nodes_pay : gmap string node_def :=
  {["n50" := NodeDef "" [] [pay_api]]}.

Definition paid : services :=
  fixed_reply (Ok (PDict ∅))
    (Response 200 "{confirmation_id: C-9}"
       (Ok (PDict {["confirmation_id" := PStr "C-9"]}))).

Definition paid_without_id : services :=
  fixed_reply (Ok (PDict ∅)) (Response 200 "{}" (Ok (PDict ∅))).

End Sample.

(** ** The renderer *)

Module RenderSpec.
Import Py Host Re Render.

(** The template [{%X%}A{%endX%}B]. *)
Definition block_template (X : string) : string :=
  "{%" ++ X ++ "%}A{%end" ++ X ++ "%}B".

(** The names under which [CONDITIONAL_MAPPINGS] registers a predicate. *)
Definition registered_names : list string := [
  "en"; "es"; "english_examples"; "spanish_examples";
  "essex_loan_acct_available"; "essex_loan_acct_unavailable";
  "upd_current_dated_payment"; "upd_future_dated_payment";
  "RestrictAutoPayDraft"; "NoRestrictAutoPayDraft";
  "days_late_leq_15"; "days_late_gt_15"; "days_late_gt_30";
  "days_late_gt_45"; "days_late_leq_45";
  "is_birthday"; "is_anniversary"; "is_veteran";
  "not_birthday"; "not_anniversary";
  "firstprompt"; "reprompt";
  "user_appt_conflict"; "no_appt_conflict";
  "name_match"; "name_no_match";
  "has_existing_account"; "no_existing_account";
  "using_new_account"; "using_existing_account";
  "payment_method_checking"; "payment_method_savings";
  "disaster_affected"; "not_disaster_affected";
  "transfer_reason_provided";
  "dob_attempt_1"; "dob_attempt_2";
  "has_fees"; "no_fees"
].

(** What the regular expressions do on the block template of [X]: the
    two tags are found, the name is not taken for a closing tag, keeping
    the block leaves [AB] and removing it leaves [B]. *)
Definition block_resolves (X : string) : bool :=
  bool_decide (re_findall tag_pattern (block_template X) = [X; "end" ++ X])
  && negb (startswith "end" X)
  && String.eqb (keep_block (block_template X) X) "AB"
  && String.eqb (remove_block (block_template X) X) "B".

End RenderSpec.

Module CleanSpec.
Import Re Render.

(** A run of newline characters capped at two: [run] newlines come just
    before [s]. *)
Fixpoint cap_newlines (run : nat) (s : string) : string :=
  match s with
  | EmptyString => EmptyString
  | String a s' =>
      if is_newline a then
        if (run <? 2)%nat then String a (cap_newlines (S run) s')
        else cap_newlines (S run) s'
      else String a (cap_newlines 0 s')
  end.

(** No run of three newline characters: [run] newlines come just before
    [s]. *)
Fixpoint short_runs (run : nat) (s : string) : bool :=
  match s with
  | EmptyString => true
  | String a s' =>
      if is_newline a then (run <? 2)%nat && short_runs (S run) s'
      else short_runs 0 s'
  end.

(** The characters of class [cls] that [s] starts with. *)
Fixpoint leading (cls : ascii -> bool) (s : string) : nat :=
  match s with
  | String a s' => if cls a then S (leading cls s') else O
  | EmptyString => O
  end.

Fixpoint skip_leading (cls : ascii -> bool) (s : string) : string :=
  match s with
  | String a s' => if cls a then skip_leading cls s' else s
  | EmptyString => EmptyString
  end.

(** A line without a newline character. *)
Fixpoint no_newline (s : string) : bool :=
  match s with
  | EmptyString => true
  | String a s' => negb (is_newline a) && no_newline s'
  end.

(** A content-bearing line: not blank. *)
Definition content (line : string) : bool := negb (blank line).

(** What [clean_whitespace] makes of one line. *)
Definition emptied (line : string) : string :=
  if blank line then strip line else line.

(** The blank lines dropped at both ends. *)
Definition trimmed (lines : list string) : list string :=
  rev (dropwhile blank (rev (dropwhile blank lines))).

End CleanSpec.

Module RerenderSpec.
Import Py Host Re Render CleanSpec.

(** A rendered text in which the renderer finds nothing to do: no tag, no
    placeholder, no run of three newlines. *)
Definition settled (r : string) : bool :=
  bool_decide (re_findall tag_pattern r = [])
  && negb (re_search var_pattern r)
  && short_runs 0 r.

(** Two whitespace-only lines between two content lines. *)
Definition two_blank_lines : string :=
  "a" ++ NL ++ " " ++ NL ++ " " ++ NL ++ "b".

End RerenderSpec.


(** ** Further vocabulary *)

Module GraphSpec.
Import Py Host Transition TransitionTools.

(** A node with rules of its own in [TRANSITION_RULES]. *)
Definition has_rules (n : string) : bool :=
  bool_decide (is_Some (TRANSITION_RULES !! n)).

(** A node [get_node_description] knows. *)
Definition described (n : string) : bool :=
  bool_decide (is_Some (descriptions !! n)).

(** Where a call can be: at a node with rules, or ended. *)
Definition on_the_graph (n : string) : bool :=
  (String.eqb n "END" || has_rules n) && described n.

(** The node a call is at after some turns, each with its extracted
    variables and its context. *)
Fixpoint follow (cur : string) (turns : list (dict * option dict))
  : exc string :=
  match turns with
  | [] => Ok cur
  | (v, c) :: rest =>
      match get_next_node cur v c with
      | Ok next => follow next rest
      | Raise e => Raise e
      end
  end.

(** The nodes all of whose rules have one target, the last of them without
    condition, with that target. *)
Definition pass_through : list (string * string) := [
  ("n32", "n22"); ("n26", "END"); ("n28", "n49"); ("n5", "n25");
  ("n11", "n25"); ("n9", "n25"); ("n62", "n25"); ("n69", "END");
  ("n25", "END"); ("n24", "END"); ("n2", "END")
].

End GraphSpec.

Module StoreSpec.
Import Py Host ContextStore.

(** The entry [append_transcript] adds. *)
Definition transcript_entry (B : builtins) (role content : string) : pyval :=
  PDict (list_to_map [
    ("role", PStr role);
    ("content", PStr content);
    ("timestamp", PStr (utc_isoformat B))]).

(** [increment_counter] called [n] times, the store threaded through; a
    call that raises leaves the store as it is. *)
Fixpoint increments (st : store) (call_sid counter_name : string) (n : nat)
  : store :=
  match n with
  | O => st
  | S n' =>
      increments (fst (increment_counter st call_sid counter_name))
        call_sid counter_name n'
  end.

End StoreSpec.

Module SharedSpec.
Import Py Host SharedStore.

(** What an item shows to a reader: a list by what its object holds now. *)
Definition shown (h : gmap nat (list pyval)) (i : item) : pyval :=
  match i with
  | INone => PNone
  | IBool b => PBool b
  | IInt z => PInt z
  | IFloat f => PFloat f
  | IStr s => PStr s
  | IDict d => PDict d
  | IList a => PList (default [] (h !! a))
  end.

(** What the stored context of a call shows, lists read through. *)
Definition view (m : manager) (call_sid : string) : option dict :=
  match contexts m !! call_sid with
  | Some ctx => Some (shown (lists m) <$> ctx)
  | None => None
  end.

(** What a copy handed out earlier shows now. *)
Definition view_copy (m : manager) (copy : gmap string item) : dict :=
  shown (lists m) <$> copy.

(** The stored context of a call holds the list at [a] under some key. *)
Definition holds (m : manager) (call_sid : string) (a : nat) : Prop :=
  exists ctx k, contexts m !! call_sid = Some ctx /\ ctx !! k = Some (IList a).

(** The list object a call's transcript is. *)
Definition transcript_at (m : manager) (call_sid : string) (a : nat) : Prop :=
  exists ctx, contexts m !! call_sid = Some ctx
              /\ ctx !! "transcript" = Some (IList a).

(** What the stored contexts show, as a store of values. *)
Definition shows (m : manager) : ContextStore.store :=
  (fun ctx : gmap string item => shown (lists m) <$> ctx) <$> contexts m.

(** The list at [a] is held once: by [call_sid], as its transcript. *)
Definition held_once (m : manager) (call_sid : string) (a : nat) : Prop :=
  forall c ctx k,
    contexts m !! c = Some ctx -> ctx !! k = Some (IList a) ->
    c = call_sid /\ k = "transcript".

(** No list among the items. *)
Definition flat (d : gmap string item) : Prop :=
  forall k a, d !! k <> Some (IList a).

(** Every list a stored context holds is an object of the manager. *)
Definition allocated (m : manager) : Prop :=
  forall call_sid a, holds m call_sid a -> is_Some (lists m !! a).

(** Two calls, each with a transcript of its own. *)
Definition two_calls : manager :=
  Manager
    {["CA1" := {["transcript" := IList 0%nat; "current_node" := IStr "n61"]};
      "CA2" := {["transcript" := IList 1%nat; "party_name" := IStr "Bo"]}]}
    {[0%nat := []; 1%nat := [PStr "hi"]]}.

End SharedSpec.

Module MarkupSpec.
Import Py Host Re Render.

Definition is_brace (a : ascii) : bool := between 123 123 a.

(** Text without an opening brace: no tag and no placeholder starts in
    it. *)
Fixpoint plain (s : string) : bool :=
  match s with
  | EmptyString => true
  | String a s' => negb (is_brace a) && plain s'
  end.

Fixpoint word_chars (s : string) : bool :=
  match s with
  | EmptyString => true
  | String a s' => is_word a && word_chars s'
  end.

(** A name, as [\w+] matches it. *)
Definition name (s : string) : bool :=
  negb (String.eqb s "") && word_chars s.

(** The markers [{%X%}], [{%endX%}] and [{{k}}]. *)
Definition open_tag (X : string) : string := "{%" ++ X ++ "%}".
Definition close_tag (X : string) : string := "{%" ++ "end" ++ X ++ "%}".
Definition placeholder (k : string) : string := "{{" ++ k ++ "}}".

(** [pre {%X%} body {%endX%} post] *)
Definition one_block (pre X body post : string) : string :=
  pre ++ open_tag X ++ body ++ close_tag X ++ post.

(** [pre {{k}} post] *)
Definition one_placeholder (pre k post : string) : string :=
  pre ++ placeholder k ++ post.

(** What a placeholder for [k] is replaced by. *)
Definition shown (B : builtins) (d : dict) (k : string) : string :=
  match get d k with
  | PNone => ""
  | value => py_str B value
  end.

(** A pattern that starts with a literal brace. *)
Definition opens_with_brace (r : regex) : Prop :=
  exists p r2, r = Cat (Lit (String "{" p)) r2.

(** The pairs of registered tags of which the second is the negation of
    the first. *)
Definition complementary_tags : list (string * string) := [
  ("essex_loan_acct_available", "essex_loan_acct_unavailable");
  ("upd_current_dated_payment", "upd_future_dated_payment");
  ("RestrictAutoPayDraft", "NoRestrictAutoPayDraft");
  ("days_late_leq_15", "days_late_gt_15");
  ("days_late_leq_45", "days_late_gt_45");
  ("is_birthday", "not_birthday");
  ("is_anniversary", "not_anniversary");
  ("user_appt_conflict", "no_appt_conflict");
  ("name_match", "name_no_match");
  ("has_existing_account", "no_existing_account");
  ("disaster_affected", "not_disaster_affected")
].

(** The second predicate answers with the negation of what the first
    answers, and raises what it raises. *)
Definition negates (B : builtins) (a b : string) : Prop :=
  exists pa pb,
    CONDITIONAL_MAPPINGS B !! a = Some pa /\
    CONDITIONAL_MAPPINGS B !! b = Some pb /\
    forall ctx,
      bind (pb ctx) (fun y => Ok (truthy y))
      = bind (pa ctx) (fun x => Ok (negb (truthy x))).

End MarkupSpec.

Module TurnSpec.
Import Py Host Re Render ContextStore Transition Engine.

(** [append_transcript] for each message in turn, a role and a content. *)
Fixpoint appends (B : builtins) (st : store) (call_sid : string)
    (messages : list (string * string)) : store :=
  match messages with
  | [] => st
  | (role, content) :: rest =>
      appends B (fst (append_transcript B st call_sid role content))
        call_sid rest
  end.

(** The line [_format_transcript] writes for a message. *)
Definition transcript_line (message : string * string) : string :=
  fst message ++ ": " ++ snd message.

(** The keys [initialize_call] takes from the three records. *)
Definition initial_keys : list string := [
  "LoanID"; "FirstName"; "LastName"; "TotalAmountDue"; "MonthlyPayment";
  "AccountNumberLastFour"; "DOB"; "PropertyAddress"; "RestrictAutoPayDraft";
  "DaysLate"; "FeesBalance"; "NextPaymentDueDate"; "EscrowBalance";
  "PrincipalBalance"; "AIAgentFullName"; "AgentName"; "agent_id";
  "CompanyName"; "LenderID"
].

(** The digits of a text, in order. *)
Fixpoint digits (s : string) : string :=
  match s with
  | EmptyString => EmptyString
  | String a s' => if is_ascii_digit a then String a (digits s') else digits s'
  end.

(** What a step keeps of the store: the other calls as they are, and the
    call itself known if it was. *)
Definition keeps (call_sid : string) (st st' : store) : Prop :=
  (forall other, other <> call_sid -> st' !! other = st !! other)
  /\ (is_Some (st !! call_sid) -> is_Some (st' !! call_sid)).

(** The store after the API step of [enter_node]. *)
Definition after_apis (B : builtins) (W : services)
    (nodes : gmap string node_def) (st : store) (call_sid next : string)
    (changed : bool) (ctx : option dict) : store * exc (option dict) :=
  if changed && negb (Nat.eqb (length (apis_of nodes next)) 0) then
    match execute_apis B W nodes next ctx with
    | Raise e => (st, Raise e)
    | Ok ctx' =>
        (match ctx' with
         | Some d => fst (update_context st call_sid d)
         | None => st
         end, Ok ctx')
    end
  else (st, Ok ctx).

End TurnSpec.


(* ================================================================== *)
(** * Properties of the transition engine *)
(* ================================================================== *)

Module TransitionFacts.
Import Py Transition TransitionSpec.

Lemma check_rule_fires r v c :
  check_rule r v c = Ok (if fires r v c then Some (target r) else None).
Proof.
  unfold check_rule, fires, try_except, bind.
  destruct (cond r v c) as [x|e]; [destruct (truthy x)|]; reflexivity.
Qed.

Lemma for_rules_find rules v c :
  for_rules rules v c =
  Ok (target <$> List.find (fun r => fires r v c) rules).
Proof.
  induction rules as [|r rest IH]; simpl; [reflexivity|].
  rewrite check_rule_fires. destruct (fires r v c); simpl; [reflexivity|].
  exact IH.
Qed.

Lemma find_none_any rules v c :
  any_fires rules v c = false ->
  List.find (fun r => fires r v c) rules = None.
Proof.
  unfold any_fires. induction rules as [|r rest IH]; simpl; [reflexivity|].
  destruct (fires r v c); simpl; [discriminate|exact IH].
Qed.

Lemma find_first rules v c i g :
  rules !! i = Some g -> fires g v c = true ->
  exists pre g0 post,
    rules = (pre ++ g0 :: post)%list /\ any_fires pre v c = false /\
    fires g0 v c = true /\
    List.find (fun r => fires r v c) rules = Some g0.
Proof.
  revert i. induction rules as [|r rest IH]; intros i Hi Hg.
  - rewrite lookup_nil in Hi. discriminate.
  - destruct (fires r v c) eqn:Hr.
    + exists [], r, rest. simpl. rewrite Hr. auto.
    + destruct i as [|i]; simpl in Hi.
      * injection Hi as ->. congruence.
      * destruct (IH i Hi Hg) as (pre & g0 & post & -> & Hpre & Hg0 & Hf).
        exists (r :: pre), g0, post. simpl. unfold any_fires in *. simpl.
        rewrite Hr. simpl. auto.
Qed.

Lemma find_skip pre r post v c :
  fires r v c = false ->
  List.find (fun r => fires r v c) (pre ++ r :: post)%list =
  List.find (fun r => fires r v c) (pre ++ post)%list.
Proof.
  intros Hr. induction pre as [|p pre IH]; simpl.
  - rewrite Hr. reflexivity.
  - destruct (fires p v c); [reflexivity|exact IH].
Qed.

(** [next_node_with] as a function: the first global rule that fires, else
    the first rule of the node that fires, else the node itself. *)
Lemma next_node_with_eq globals table cur v c :
  next_node_with globals table cur v c =
  Ok (match List.find (fun r => fires r v c) globals with
      | Some g => target g
      | None =>
          match List.find (fun r => fires r v c) (rules_of table cur) with
          | Some l => target l
          | None => cur
          end
      end).
Proof.
  unfold next_node_with, rules_of, bind. rewrite for_rules_find.
  destruct (List.find _ globals) as [g|]; simpl; [reflexivity|].
  destruct (default [] (table !! cur)) as [|r rest] eqn:E; [reflexivity|].
  rewrite for_rules_find.
  destruct (List.find _ (r :: rest)); reflexivity.
Qed.

(** C1. Global triggers override node rules: whenever some global trigger
    fires and some rule of the current node fires too, [get_next_node]
    returns the target of the first global trigger, in declared order,
    that fires. *)
Theorem global_trigger_overrides_node_rules
    (cur : string) (v : dict) (c : option dict)
    (i j : nat) (g l : rule) :
  GLOBAL_TRIGGERS !! i = Some g -> fires g v c = true ->
  rules_of TRANSITION_RULES cur !! j = Some l -> fires l v c = true ->
  exists pre g0 post,
    GLOBAL_TRIGGERS = (pre ++ g0 :: post)%list /\
    any_fires pre v c = false /\ fires g0 v c = true /\
    get_next_node cur v c = Ok (target g0).
Proof.
  intros Hi Hg _ _.
  destruct (find_first _ v c i g Hi Hg) as (pre & g0 & post & E & Hpre & Hg0 & Hf).
  exists pre, g0, post. repeat split; try assumption.
  unfold get_next_node. rewrite next_node_with_eq, Hf. reflexivity.
Qed.

Lemma global_trigger_overrides_witness :
  exists pre g0 post,
    GLOBAL_TRIGGERS = (pre ++ g0 :: post)%list /\
    any_fires pre {["dob_verified" := PBool true; "wrong_person" := PInt 1]} None = false /\
    fires g0 {["dob_verified" := PBool true; "wrong_person" := PInt 1]} None = true /\
    get_next_node "n68" {["dob_verified" := PBool true; "wrong_person" := PInt 1]} None
      = Ok (target g0).
Proof.
  eapply (global_trigger_overrides_node_rules "n68" _ None 8 0);
    [reflexivity | vm_compute; reflexivity | reflexivity | vm_compute; reflexivity].
Defined.


(** C2, as stated, fails: at [n68] with [dob_attempts = 5] and
    [dob_verified] true the engine goes to [n41], not to [n34]; the
    ceiling rule is the last of the node. *)
Lemma dob_ceiling_overridden :
  get_next_node "n68" {["dob_verified" := PBool true]}
    (Some {["dob_attempts" := PInt 5]}) = Ok "n41"
  /\ get_next_node "n68" {["dob_verified" := PBool true]}
       (Some {["dob_attempts" := PInt 5]}) <> Ok "n34".
Proof. split; [vm_compute; reflexivity | vm_compute; discriminate]. Qed.

Lemma rules_n68 :
  rules_of TRANSITION_RULES "n68" = [
    Rule (fun v _ => Ok (get v "dob_verified"))
         "n41" "DOB correct - go to Mini Miranda";
    Rule (fun v _ => Ok (get v "dob_correct"))
         "n41" "DOB matches - go to Mini Miranda";
    Rule (fun v _ => Ok (get v "dob_mismatch"))
         "n32" "DOB wrong - notify mismatch";
    Rule (fun v _ => Ok (get v "dob_incorrect"))
         "n32" "DOB incorrect - notify mismatch";
    Rule (fun _ c => bind (oget_or c "dob_attempts" (PInt 0))
                       (fun x => py_ge_int x 5))
         "n34" "Too many DOB attempts - transfer"
  ].
Proof. reflexivity. Qed.

Lemma py_ge_int_reached (n k : Z) :
  k <= n -> py_ge_int (PInt n) k = Ok (PBool true).
Proof.
  intros H. unfold py_ge_int, num_cmp_int, bind, cmp_ge.
  destruct (Z.compare_spec n k); [reflexivity|lia|reflexivity].
Qed.

(** C2, amended. At [n68], when no global trigger fires and none of
    [dob_verified], [dob_correct], [dob_mismatch], [dob_incorrect] is true
    in the extracted variables, a counter [dob_attempts] that has reached
    5 sends the call to [n34]. *)
Theorem dob_ceiling_escalates_when_nothing_else_fires
    (v c : dict) (n : Z) :
  any_fires GLOBAL_TRIGGERS v (Some c) = false ->
  truthy (get v "dob_verified") = false ->
  truthy (get v "dob_correct") = false ->
  truthy (get v "dob_mismatch") = false ->
  truthy (get v "dob_incorrect") = false ->
  c !! "dob_attempts" = Some (PInt n) -> 5 <= n ->
  get_next_node "n68" v (Some c) = Ok "n34".
Proof.
  intros Hg H1 H2 H3 H4 Hc Hn.
  unfold get_next_node. rewrite next_node_with_eq.
  rewrite (find_none_any _ _ _ Hg), rules_n68.
  unfold List.find, fires; cbn [cond target].
  rewrite H1, H2, H3, H4.
  unfold oget_or, get_or. rewrite Hc.
  change (default (PInt 0) (Some (PInt n))) with (PInt n).
  unfold bind at 1. rewrite (py_ge_int_reached n 5 Hn). reflexivity.
Qed.

Lemma dob_ceiling_escalates_witness :
  get_next_node "n68" {["unrelated" := PBool true]}
    (Some {["dob_attempts" := PInt 7]}) = Ok "n34".
Proof.
  apply (dob_ceiling_escalates_when_nothing_else_fires
           {["unrelated" := PBool true]} {["dob_attempts" := PInt 7]} 7);
    [vm_compute; reflexivity | reflexivity | reflexivity | reflexivity
    | reflexivity | reflexivity | lia].
Defined.

(** With no global trigger and no rule of the node firing, the engine
    stays at the current node. *)
Lemma no_rule_fires_self_loop cur v c :
  any_fires GLOBAL_TRIGGERS v c = false ->
  any_fires (rules_of TRANSITION_RULES cur) v c = false ->
  get_next_node cur v c = Ok cur.
Proof.
  intros Hg Hl. unfold get_next_node. rewrite next_node_with_eq.
  rewrite (find_none_any _ _ _ Hg), (find_none_any _ _ _ Hl). reflexivity.
Qed.

Lemma find_after pre post v c :
  any_fires pre v c = false ->
  List.find (fun r => fires r v c) (pre ++ post)%list
  = List.find (fun r => fires r v c) post.
Proof.
  unfold any_fires. induction pre as [|p pre IH]; cbn; [reflexivity|].
  destruct (fires p v c); cbn; [discriminate|exact IH].
Qed.

Lemma find_hit mid l rest v c :
  any_fires mid v c = false -> fires l v c = true ->
  List.find (fun r => fires r v c) (mid ++ l :: rest)%list = Some l.
Proof.
  intros Hm Hl. rewrite (find_after mid _ v c Hm). cbn. rewrite Hl.
  reflexivity.
Qed.

(** C10. A rule whose condition raises is skipped and the engine goes on
    with the rule after it.  The rule gives no target and lets no
    exception out; the engine answers as if the rule were not in its list,
    be it a global trigger or a rule of the current node.  When the engine
    reaches the rule, no rule before it firing, the rules after it decide:
    the first of them that fires gives the answer; when none does, a
    global trigger leaves the answer to the rules of the node and a rule
    of the node leaves the call where it is.  The engine always returns a
    node. *)
Theorem raising_rule_is_skipped
    (globals : list rule) (table : gmap string (list rule))
    (cur : string) (v : dict) (c : option dict)
    (pre post : list rule) (r : rule) (e : pyexn) :
  cond r v c = Raise e ->
  check_rule r v c = Ok None
  /\ next_node_with (pre ++ r :: post)%list table cur v c
     = next_node_with (pre ++ post)%list table cur v c
  /\ (table !! cur = Some (pre ++ r :: post)%list ->
      next_node_with globals table cur v c
      = next_node_with globals (<[cur := (pre ++ post)%list]> table) cur v c)
  /\ (any_fires pre v c = false ->
      for_rules (pre ++ r :: post)%list v c = for_rules post v c
      /\ next_node_with (pre ++ r :: post)%list table cur v c
         = next_node_with post table cur v c
      /\ (any_fires globals v c = false ->
          table !! cur = Some (pre ++ r :: post)%list ->
          next_node_with globals table cur v c
          = Ok (match List.find (fun l => fires l v c) post with
                | Some l => target l
                | None => cur
                end))
      /\ (forall mid l rest,
            post = (mid ++ l :: rest)%list ->
            any_fires mid v c = false -> fires l v c = true ->
            next_node_with (pre ++ r :: post)%list table cur v c
            = Ok (target l)
            /\ (any_fires globals v c = false ->
                table !! cur = Some (pre ++ r :: post)%list ->
                next_node_with globals table cur v c = Ok (target l)))
      /\ (any_fires post v c = false ->
          any_fires globals v c = false ->
          table !! cur = Some (pre ++ r :: post)%list ->
          next_node_with globals table cur v c = Ok cur))
  /\ (exists n, next_node_with globals table cur v c = Ok n)
  /\ (exists n, get_next_node cur v c = Ok n).
Proof.
  intros Hr.
  assert (Hf : fires r v c = false) by (unfold fires; rewrite Hr; reflexivity).
  assert (Hskip : forall rules,
            any_fires pre v c = false ->
            List.find (fun l => fires l v c) (pre ++ r :: rules)%list
            = List.find (fun l => fires l v c) rules).
  { intros rules Hp. rewrite (find_after pre _ v c Hp). cbn. rewrite Hf.
    reflexivity. }
  assert (Hnode : any_fires pre v c = false ->
            any_fires globals v c = false ->
            table !! cur = Some (pre ++ r :: post)%list ->
            next_node_with globals table cur v c
            = Ok (match List.find (fun l => fires l v c) post with
                  | Some l => target l
                  | None => cur
                  end)).
  { intros Hp Hg Ht. rewrite next_node_with_eq, (find_none_any _ _ _ Hg).
    unfold rules_of. rewrite Ht. simpl. rewrite (Hskip post Hp).
    reflexivity. }
  split; [rewrite check_rule_fires, Hf; reflexivity|].
  split; [rewrite !next_node_with_eq, (find_skip _ _ _ _ _ Hf); reflexivity|].
  split.
  { intros Ht. rewrite !next_node_with_eq. unfold rules_of.
    rewrite Ht, lookup_insert_eq. simpl.
    rewrite (find_skip _ _ _ _ _ Hf). reflexivity. }
  split.
  { intros Hp. split; [|split; [|split; [|split]]].
    - rewrite !for_rules_find, (Hskip post Hp). reflexivity.
    - rewrite !next_node_with_eq, (Hskip post Hp). reflexivity.
    - exact (Hnode Hp).
    - intros mid l rest -> Hm Hl. split.
      + rewrite next_node_with_eq, (Hskip _ Hp), (find_hit mid l rest v c Hm Hl).
        reflexivity.
      + intros Hg Ht. rewrite (Hnode Hp Hg Ht), (find_hit mid l rest v c Hm Hl).
        reflexivity.
    - intros Hq Hg Ht. rewrite (Hnode Hp Hg Ht), (find_none_any _ _ _ Hq).
      reflexivity. }
  split.
  - rewrite next_node_with_eq. eauto.
  - unfold get_next_node. rewrite next_node_with_eq. eauto.
Qed.

Lemma raising_rule_is_skipped_witness :
  let r := Rule (fun _ c => bind (oget c "api_status_code")
                              (fun x => Ok (PBool (py_eq x (LInt 200)))))
                "n51" "API success - confirmation" in
  let v : dict := {["payment_failed" := PBool true]} in
  check_rule r v None = Ok None
  /\ get_next_node "n50" v None = Ok "n34"
  /\ target r <> "n34".
Proof.
  intros r v.
  destruct (raising_rule_is_skipped GLOBAL_TRIGGERS TRANSITION_RULES "n50" v
              None (take 1 (rules_of TRANSITION_RULES "n50"))
              (drop 2 (rules_of TRANSITION_RULES "n50")) r
              (Exn "AttributeError" "'NoneType' object has no attribute 'get'")
              eq_refl) as (Hc & _ & _ & Hgo & _).
  split; [exact Hc|]. split; [|discriminate].
  destruct (Hgo eq_refl) as (_ & _ & _ & Hfirst & _).
  apply (Hfirst (take 3 (drop 2 (rules_of TRANSITION_RULES "n50")))
           (Rule (fun v _ => Ok (get v "payment_failed"))
                 "n34" "Payment failed - transfer") []);
    reflexivity.
Defined.

End TransitionFacts.

(* ================================================================== *)
(** * Properties of the context store *)
(* ================================================================== *)

Module ContextStoreFacts.
Import Py ContextStore.

Lemma is_none_false x : is_none x = false <-> x <> PNone.
Proof. destruct x; simpl; split; congruence. Qed.

Lemma filtered_updates_Some (updates : dict) k x :
  filtered_updates updates !! k = Some x <->
  updates !! k = Some x /\ x <> PNone.
Proof.
  unfold filtered_updates. rewrite map_lookup_filter_Some. simpl.
  rewrite is_none_false. reflexivity.
Qed.

Lemma filtered_updates_None (updates : dict) k :
  updates !! k = None \/ updates !! k = Some PNone ->
  filtered_updates updates !! k = None.
Proof.
  intros H. destruct (filtered_updates updates !! k) as [x|] eqn:E; [|reflexivity].
  apply filtered_updates_Some in E as [E Hx].
  destruct H as [H|H]; rewrite H in E; congruence.
Qed.

(** C5, amended. [update_context] on an active call: a key that is absent
    from the updates, or whose value there is [None], keeps its stored
    value; a key with any other value, the empty ones [''], [[]], [0] and
    [False] among them, is overwritten with it; so a stored value is never
    set back to [None]. *)
Theorem update_context_keeps_absent_overwrites_present
    (st : store) (call_sid : string) (updates ctx : dict) (k : string) :
  st !! call_sid = Some ctx ->
  exists ctx',
    update_context st call_sid updates = (<[call_sid := ctx']> st, Some ctx')
    /\ (updates !! k = None \/ updates !! k = Some PNone ->
        ctx' !! k = ctx !! k)
    /\ (forall x, updates !! k = Some x -> x <> PNone -> ctx' !! k = Some x)
    /\ (forall x, ctx !! k = Some x -> x <> PNone ->
        exists y, ctx' !! k = Some y /\ y <> PNone).
Proof.
  intros Hst. unfold update_context. rewrite Hst.
  eexists. split; [reflexivity|]. split; [|split].
  - intros H. rewrite lookup_union_r; [reflexivity|].
    apply filtered_updates_None, H.
  - intros x Hx Hn. apply lookup_union_Some_l.
    apply filtered_updates_Some. auto.
  - intros x Hx Hn.
    destruct (filtered_updates updates !! k) as [y|] eqn:E.
    + exists y. split; [apply lookup_union_Some_l, E|].
      apply filtered_updates_Some in E. tauto.
    + exists x. split; [|exact Hn]. rewrite lookup_union_r; assumption.
Qed.

Lemma update_context_witness :
  exists ctx',
    update_context {["CA1" := {["loan" := PStr "L-7"; "language" := PStr "en"]}]}
      "CA1" {["loan" := PNone; "language" := PStr "es"]}
    = (<["CA1" := ctx']> {["CA1" := {["loan" := PStr "L-7"; "language" := PStr "en"]}]},
       Some ctx')
    /\ (({["loan" := PNone; "language" := PStr "es"]} : dict) !! "loan" = None
        \/ ({["loan" := PNone; "language" := PStr "es"]} : dict) !! "loan" = Some PNone ->
        ctx' !! "loan"
        = ({["loan" := PStr "L-7"; "language" := PStr "en"]} : dict) !! "loan")
    /\ (forall x,
          ({["loan" := PNone; "language" := PStr "es"]} : dict) !! "loan" = Some x ->
          x <> PNone -> ctx' !! "loan" = Some x)
    /\ (forall x,
          ({["loan" := PStr "L-7"; "language" := PStr "en"]} : dict) !! "loan" = Some x ->
          x <> PNone -> exists y, ctx' !! "loan" = Some y /\ y <> PNone).
Proof.
  apply (update_context_keeps_absent_overwrites_present
           {["CA1" := {["loan" := PStr "L-7"; "language" := PStr "en"]}]}
           "CA1" {["loan" := PNone; "language" := PStr "es"]}
           {["loan" := PStr "L-7"; "language" := PStr "en"]} "loan").
  reflexivity.
Defined.

(** C5, as stated, fails: only [None] is filtered.  An empty string and an
    empty list in the updates are falsy and yet overwrite what is stored:
    the name is cleared to [''] and the transcript to [[]]. *)
Lemma empty_values_clear_stored_fields :
  let ctx : dict :=
    {["party_name" := PStr "Ann";
      "transcript" := PList [PStr "hello"]]} in
  let updates : dict :=
    {["party_name" := PStr ""; "transcript" := PList []]} in
  truthy (PStr "") = false /\ truthy (PList []) = false
  /\ exists ctx',
       update_context {["CA1" := ctx]} "CA1" updates
       = (<["CA1" := ctx']> {["CA1" := ctx]}, Some ctx')
       /\ ctx' !! "party_name" = Some (PStr "")
       /\ ctx' !! "transcript" = Some (PList [])
       /\ ctx' !! "party_name" <> ctx !! "party_name"
       /\ ctx' !! "transcript" <> ctx !! "transcript".
Proof.
  intros ctx updates. split; [reflexivity|]. split; [reflexivity|].
  eexists. split; [reflexivity|].
  split; [reflexivity|]. split; [reflexivity|].
  split; intros H; vm_compute in H; discriminate H.
Qed.

End ContextStoreFacts.

(* ================================================================== *)
(** * Properties of the node engine *)
(* ================================================================== *)

Module EngineFacts.
Import Py Host Re Render ContextStore Transition Engine TransitionSpec Sample.

Section WithEnvironment.
Variable B : builtins.
Variable W : services.
Variable nodes : gmap string node_def.

Lemma enter_node_bundle st call_sid node_id next ctx st' b :
  enter_node B W nodes st call_sid node_id next ctx = (st', Ok b) ->
  next_node b = next /\
  should_update_agent b = negb (String.eqb next node_id).
Proof.
  unfold enter_node.
  destruct (negb (String.eqb next node_id)) eqn:Hc; simpl.
  - destruct (negb (Nat.eqb (length (apis_of nodes next)) 0)).
    + destruct (execute_apis B W nodes next ctx) as [ctx'|e]; [|discriminate].
      destruct (oget ctx' _) as [x|e]; [|discriminate].
      destruct (get_rendered_prompt B nodes next ctx') as [p|e]; [|discriminate].
      destruct (nonempty (default "" p)).
      * destruct (append_transcript _ _ _ _ _) as [st2 [u|e]]; [|discriminate].
        intros [= <- <-]. auto.
      * intros [= <- <-]. auto.
    + destruct (oget ctx _) as [x|e]; [|discriminate].
      destruct (get_rendered_prompt B nodes next ctx) as [p|e]; [|discriminate].
      destruct (nonempty (default "" p)).
      * destruct (append_transcript _ _ _ _ _) as [st2 [u|e]]; [|discriminate].
        intros [= <- <-]. auto.
      * intros [= <- <-]. auto.
  - intros [= <- <-]. auto.
Qed.

(** A turn that returns a bundle either ends the call, with the bundle and
    the store as the merge of step 5 left them, or enters a node. *)
Lemma process_bundle st call_sid node_id user_input ctx st' b :
  process B W nodes st call_sid node_id user_input ctx = (st', Ok b) ->
  (next_node b = "END" /\ prompt b = None /\ should_update_agent b = false
   /\ exists extracted,
        update_context st call_sid extracted = (st', context b)) \/
  (next_node b <> "END" /\
   should_update_agent b = negb (String.eqb (next_node b) node_id)).
Proof.
  unfold process.
  destruct (recent_transcript B st call_sid) as [text|e]; [|discriminate].
  destruct (check_dob B node_id _ ctx) as [extracted|e]; [|discriminate].
  destruct (update_context st call_sid _) as [st1 ctx1] eqn:Hu.
  destruct (get_next_node node_id _ ctx1) as [next|e]; [|discriminate].
  destruct (String.eqb next "END") eqn:E.
  - intros [= <- <-]. left. simpl. eauto.
  - intros H. apply enter_node_bundle in H as [Hn Hs]. right.
    rewrite Hn. split; [|exact Hs]. apply String.eqb_neq, E.
Qed.

Lemma global_triggers_quiet (c : option dict) :
  any_fires GLOBAL_TRIGGERS ∅ c = false.
Proof. reflexivity. Qed.

Lemma update_context_empty (st : store) call_sid :
  update_context st call_sid ∅ = (st, st !! call_sid).
Proof.
  unfold update_context, filtered_updates.
  destruct (st !! call_sid) as [c|] eqn:E; [|reflexivity].
  rewrite map_filter_empty, (left_id_L ∅ (∪)), insert_id by exact E.
  reflexivity.
Qed.

Lemma quiet_turn_bundle st call_sid node_id user_input ctx text :
  recent_transcript B st call_sid = Ok text ->
  (extract_variables W nodes node_id text ctx = Ok ∅ \/
   exists e, extract_variables W nodes node_id text ctx = Raise e) ->
  any_fires (rules_of TRANSITION_RULES node_id) ∅ (st !! call_sid) = false ->
  process B W nodes st call_sid node_id user_input ctx
  = (st, Ok (Bundle node_id None (st !! call_sid) false)).
Proof.
  intros Ht He Hq. unfold process. rewrite Ht.
  assert (Hx : match extract_variables W nodes node_id text ctx with
               | Ok extracted => extracted
               | Raise _ => ∅
               end = ∅) by (destruct He as [->|[e ->]]; reflexivity).
  rewrite Hx.
  assert (Hd : check_dob B node_id ∅ ctx = Ok ∅).
  { unfold check_dob. rewrite andb_false_r. reflexivity. }
  rewrite Hd.
  change (sync_payment_date ∅) with (∅ : dict).
  rewrite update_context_empty.
  rewrite (TransitionFacts.no_rule_fires_self_loop node_id ∅ (st !! call_sid)
             (global_triggers_quiet _) Hq).
  destruct (String.eqb node_id "END") eqn:E.
  - apply String.eqb_eq in E. subst. reflexivity.
  - unfold enter_node. rewrite String.eqb_refl. reflexivity.
Qed.

(** C3. With no global trigger and no rule of the node firing,
    [get_next_node] returns the current node; and a turn whose extraction
    is empty (it returned [{}] or it failed) and in which no rule of the
    node fires returns the bundle with the current node, no prompt and
    [should_update_agent] false, and leaves the store as it was: nothing
    is rendered, no node is set, no transcript marker is added. *)
Theorem no_match_is_a_self_loop_without_refresh :
  (forall cur v c,
     any_fires GLOBAL_TRIGGERS v c = false ->
     any_fires (rules_of TRANSITION_RULES cur) v c = false ->
     get_next_node cur v c = Ok cur)
  /\
  (forall st call_sid node_id user_input ctx text,
     recent_transcript B st call_sid = Ok text ->
     (extract_variables W nodes node_id text ctx = Ok ∅ \/
      exists e, extract_variables W nodes node_id text ctx = Raise e) ->
     any_fires (rules_of TRANSITION_RULES node_id) ∅ (st !! call_sid) = false ->
     process B W nodes st call_sid node_id user_input ctx
     = (st, Ok (Bundle node_id None (st !! call_sid) false))).
Proof.
  split.
  - apply TransitionFacts.no_rule_fires_self_loop.
  - apply quiet_turn_bundle.
Qed.

(** C6, amended. In a turn that returns a bundle, [should_update_agent]
    is true exactly when the next node differs from the node the turn
    started at and is not the terminal ["END"].  A turn whose next node is
    ["END"] returns at once: no prompt, [should_update_agent] false, and
    the store and the context of the bundle are what the merge of the
    extracted variables gave, with no API call, no node set and no
    transcript marker after it. *)
Theorem should_update_agent_iff_changed_and_not_ended
    st call_sid node_id user_input ctx st' b :
  process B W nodes st call_sid node_id user_input ctx = (st', Ok b) ->
  (should_update_agent b = true <->
   next_node b <> node_id /\ next_node b <> "END")
  /\ (next_node b = "END" ->
      prompt b = None /\ should_update_agent b = false
      /\ exists extracted,
           update_context st call_sid extracted = (st', context b)).
Proof.
  intros H. apply process_bundle in H as [(Hn & Hp & Hs & Hu)|[Hn Hs]].
  - split; [|auto]. rewrite Hs. split; [discriminate|].
    intros [_ H]. contradiction.
  - split; [|contradiction]. rewrite Hs, negb_true_iff, String.eqb_neq.
    tauto.
Qed.

End WithEnvironment.

Lemma no_match_witness :
  get_next_node "n41" {["small_talk" := PBool true]} None = Ok "n41"
  /\ process sample_builtins quiet ∅ st_n32 "CA1" "n41" "hello"
       (st_n32 !! "CA1")
     = (st_n32, Ok (Bundle "n41" None (st_n32 !! "CA1") false)).
Proof.
  split.
  - apply (proj1 (no_match_is_a_self_loop_without_refresh
                    sample_builtins quiet ∅)); reflexivity.
  - apply (proj2 (no_match_is_a_self_loop_without_refresh
                    sample_builtins quiet ∅) st_n32 "CA1" "n41" "hello"
                 (st_n32 !! "CA1") "");
      [reflexivity | left; reflexivity | reflexivity].
Defined.

(** C6, as stated, fails on terminal turns: from [n25] the next node is
    ["END"], which differs from [n25], and [should_update_agent] is
    false. *)
Lemma terminal_turn_changes_node_without_refresh :
  process sample_builtins quiet ∅ st_n25 "CA1" "n25" "goodbye"
    (st_n25 !! "CA1")
  = (st_n25, Ok (Bundle "END" None (st_n25 !! "CA1") false))
  /\ "END" <> "n25".
Proof. split; [vm_compute; reflexivity | discriminate]. Qed.

Lemma should_update_agent_witness :
  (should_update_agent (Bundle "n22" None (st_n32 !! "CA1") true) = true <->
   "n22" <> "n32" /\ "n22" <> "END")
  /\ (prompt (Bundle "END" None (st_n25 !! "CA1") false) = None
      /\ should_update_agent (Bundle "END" None (st_n25 !! "CA1") false)
         = false
      /\ exists extracted,
           update_context st_n25 "CA1" extracted
           = (st_n25, st_n25 !! "CA1")).
Proof.
  split.
  - apply (should_update_agent_iff_changed_and_not_ended
             sample_builtins quiet ∅ st_n32 "CA1" "n32" "ok" (st_n32 !! "CA1")
             {["CA1" := {["current_node" := PStr "n22"]}]}
             (Bundle "n22" None (st_n32 !! "CA1") true)).
    vm_compute. reflexivity.
  - destruct (should_update_agent_iff_changed_and_not_ended
                sample_builtins quiet ∅ st_n25 "CA1" "n25" "goodbye"
                (st_n25 !! "CA1") st_n25
                (Bundle "END" None (st_n25 !! "CA1") false)) as [_ Hend];
      [vm_compute; reflexivity|].
    exact (Hend eq_refl).
Defined.

End EngineFacts.

Module ApiFacts.
Import Py Host Re Render ContextStore Transition Engine TransitionSpec Sample.

Section WithEnvironment.
Variable B : builtins.
Variable W : services.
Variable nodes : gmap string node_def.

Lemma run_api_returns api ctx : exists ctx', run_api B W api ctx = Ok ctx'.
Proof.
  unfold run_api.
  destruct (if nonempty (api_post api) then post_request B W api ctx
            else if nonempty (api_get api) then get_request B W api ctx
            else (ctx, None)) as [ctx' [e|]]; eauto.
Qed.

Lemma for_apis_returns apis ctx : exists ctx', for_apis B W apis ctx = Ok ctx'.
Proof.
  revert ctx. induction apis as [|api rest IH]; intros ctx; simpl; [eauto|].
  destruct (run_api_returns api ctx) as [ctx' ->]. simpl. apply IH.
Qed.

Lemma execute_apis_returns node_id d :
  exists d', execute_apis B W nodes node_id (Some d) = Ok (Some d').
Proof.
  unfold execute_apis.
  destruct (for_apis_returns (apis_of nodes node_id) d) as [d' ->].
  simpl. eauto.
Qed.

Lemma map_response_other items rd (ctx : dict) k :
  k ∉ map fst items -> map_response items rd ctx !! k = ctx !! k.
Proof.
  revert ctx. induction items as [|[key path] rest IH]; intros ctx Hk; simpl;
    [reflexivity|].
  simpl in Hk. apply not_elem_of_cons in Hk as [Hne Hk].
  rewrite IH by exact Hk.
  destruct (is_none _); [reflexivity|].
  apply lookup_insert_ne. congruence.
Qed.

Lemma map_response_item items rd (ctx : dict) key path :
  NoDup (map fst items) -> (key, path) ∈ items ->
  map_response items rd ctx !! key =
  match walk (split is_dot (default key path)) rd with
  | PNone => ctx !! key
  | x => Some x
  end.
Proof.
  revert ctx. induction items as [|[k p] rest IH]; intros ctx Hnd Hin.
  - apply elem_of_nil in Hin. contradiction.
  - simpl in Hnd. apply NoDup_cons in Hnd as [Hk Hnd].
    apply elem_of_cons in Hin as [[= <- <-]|Hin]; simpl.
    + rewrite map_response_other by exact Hk.
      destruct (walk _ rd); simpl; try apply lookup_insert_eq. reflexivity.
    + assert (key <> k).
      { intros ->. apply Hk. apply (list_elem_of_fmap_2 fst _ _ Hin). }
      rewrite IH by assumption.
      set (ctx1 := if is_none _ then ctx else _).
      assert (E : ctx1 !! key = ctx !! key).
      { subst ctx1. destruct (is_none _); [reflexivity|].
        apply lookup_insert_ne. congruence. }
      rewrite E. reflexivity.
Qed.

Lemma post_success api (ctx body : dict) text rd :
  nonempty (api_post api) = true ->
  substitute_api_body B (api_body api) (Some ctx) ∅ = Ok body ->
  http_post W (api_post api) body = Response 200 text (Ok rd) ->
  run_api B W api ctx =
  Ok (map_response (api_response_data api) rd
        (<["api_status_code" := PInt 200]> ctx)).
Proof.
  intros Hp Hb Hr. unfold run_api, post_request. rewrite Hp, Hb, Hr.
  reflexivity.
Qed.

Lemma post_failure_status api (ctx body : dict) status text json :
  nonempty (api_post api) = true ->
  substitute_api_body B (api_body api) (Some ctx) ∅ = Ok body ->
  http_post W (api_post api) body = Response status text json ->
  status <> 200 ->
  run_api B W api ctx =
  Ok (<["api_error" :=
          PStr ("Status " ++ py_str B (PInt status) ++ ": " ++ text)]>
        (<["api_status_code" := PInt status]> ctx)).
Proof.
  intros Hp Hb Hr Hs. unfold run_api, post_request. rewrite Hp, Hb, Hr.
  apply Z.eqb_neq in Hs. rewrite Hs. reflexivity.
Qed.

Lemma post_transport_error api (ctx body : dict) e :
  nonempty (api_post api) = true ->
  substitute_api_body B (api_body api) (Some ctx) ∅ = Ok body ->
  http_post W (api_post api) body = Transport e ->
  run_api B W api ctx = Ok (<["api_error" := PStr (exn_msg e)]> ctx).
Proof.
  intros Hp Hb Hr. unfold run_api, post_request. rewrite Hp, Hb, Hr.
  reflexivity.
Qed.

Lemma post_body_error api (ctx : dict) e :
  nonempty (api_post api) = true ->
  substitute_api_body B (api_body api) (Some ctx) ∅ = Raise e ->
  run_api B W api ctx = Ok (<["api_error" := PStr (exn_msg e)]> ctx).
Proof.
  intros Hp Hb. unfold run_api, post_request. rewrite Hp, Hb. reflexivity.
Qed.

Lemma post_unreadable_body api (ctx body : dict) text e :
  nonempty (api_post api) = true ->
  substitute_api_body B (api_body api) (Some ctx) ∅ = Ok body ->
  http_post W (api_post api) body = Response 200 text (Raise e) ->
  run_api B W api ctx =
  Ok (<["api_error" := PStr (exn_msg e)]>
        (<["api_status_code" := PInt 200]> ctx)).
Proof.
  intros Hp Hb Hr. unfold run_api, post_request. rewrite Hp, Hb, Hr.
  reflexivity.
Qed.

(** C7, amended. Executing the API actions of a node on a context never
    raises.  For a POST action: when the body cannot be built, or the
    request fails in transport, [api_error] is set to the message of the
    exception and nothing else changes, [api_status_code] included.  Once
    a response is there, [api_status_code] is set to its status.  On
    status 200 with a JSON body the declared pairs are gone through in
    order: a pair whose path resolves to a value other than [None] is
    written under its key, a pair whose path does not resolve writes
    nothing, and no other key changes.  On status 200 with a body that
    is not JSON, [api_error] is set to the message of the parser and
    [api_status_code] stays 200.  On another status [api_error] is set to
    the status and the text of the response, and nothing is written under
    the declared keys. *)
Theorem api_outcomes_are_recorded
    (node_id : string) (api : api_spec) (ctx : dict) :
  nonempty (api_post api) = true ->
  (forall d, exists d', execute_apis B W nodes node_id (Some d) = Ok (Some d'))
  /\ (apis_of nodes node_id = [api] ->
      execute_apis B W nodes node_id (Some ctx)
      = bind (run_api B W api ctx) (fun d => Ok (Some d)))
  /\ (forall e,
        substitute_api_body B (api_body api) (Some ctx) ∅ = Raise e ->
        run_api B W api ctx = Ok (<["api_error" := PStr (exn_msg e)]> ctx))
  /\ (forall body,
        substitute_api_body B (api_body api) (Some ctx) ∅ = Ok body ->
        (forall text rd,
           http_post W (api_post api) body = Response 200 text (Ok rd) ->
           let answered : dict := <["api_status_code" := PInt 200]> ctx in
           let ctx' := map_response (api_response_data api) rd answered in
           run_api B W api ctx = Ok ctx'
           /\ (forall k, k ∉ map fst (api_response_data api) ->
                 ctx' !! k = answered !! k)
           /\ ("api_status_code" ∉ map fst (api_response_data api) ->
               ctx' !! "api_status_code" = Some (PInt 200))
           /\ (NoDup (map fst (api_response_data api)) ->
               forall key path, (key, path) ∈ api_response_data api ->
                 ctx' !! key =
                 match walk (split is_dot (default key path)) rd with
                 | PNone => answered !! key
                 | x => Some x
                 end))
        /\ (forall text e,
              http_post W (api_post api) body = Response 200 text (Raise e) ->
              run_api B W api ctx =
              Ok (<["api_error" := PStr (exn_msg e)]>
                    (<["api_status_code" := PInt 200]> ctx)))
        /\ (forall status text json,
              http_post W (api_post api) body = Response status text json ->
              status <> 200 ->
              run_api B W api ctx =
              Ok (<["api_error" :=
                      PStr ("Status " ++ py_str B (PInt status) ++ ": "
                            ++ text)]>
                    (<["api_status_code" := PInt status]> ctx)))
        /\ (forall e,
              http_post W (api_post api) body = Transport e ->
              run_api B W api ctx
              = Ok (<["api_error" := PStr (exn_msg e)]> ctx))).
Proof.
  intros Hp. split; [|split; [|split]].
  - intros d. apply execute_apis_returns.
  - intros Ha. unfold execute_apis. rewrite Ha. simpl.
    destruct (run_api B W api ctx); reflexivity.
  - intros e He. apply post_body_error; assumption.
  - intros body Hb. split; [|split; [|split]].
    + intros text rd Hr. cbv zeta. split; [|split; [|split]].
      * eapply post_success; eauto.
      * intros k Hk. apply map_response_other, Hk.
      * intros Hk. rewrite map_response_other by exact Hk.
        apply lookup_insert_eq.
      * intros Hnd key path Hin. apply map_response_item; assumption.
    + intros text e Hr. eapply post_unreadable_body; eauto.
    + intros status text json Hr Hs. eapply post_failure_status; eauto.
    + intros e Hr. eapply post_transport_error; eauto.
Qed.

End WithEnvironment.

(** C7, as stated, fails: a 200 response that lacks the declared path
    writes nothing under the declared key. *)
Lemma success_without_the_path_writes_nothing :
  execute_apis sample_builtins paid_without_id nodes_pay "n50" (Some ∅)
  = Ok (Some {["api_status_code" := PInt 200]})
  /\ ({["api_status_code" := PInt 200]} : dict) !! "confirmation_number"
     = None.
Proof. split; vm_compute; reflexivity. Qed.

Lemma api_outcomes_witness :
  (forall d, exists d',
     execute_apis sample_builtins paid nodes_pay "n50" (Some d) = Ok (Some d'))
  /\ run_api sample_builtins paid pay_api ∅
     = Ok {["confirmation_number" := PStr "C-9";
            "api_status_code" := PInt 200]}
  /\ run_api sample_builtins quiet pay_api ∅
     = Ok {["api_error" := PStr "connection refused"]}.
Proof.
  destruct (api_outcomes_are_recorded sample_builtins paid nodes_pay
              "n50" pay_api ∅ eq_refl) as (Htot & _ & _ & Hpaid).
  destruct (api_outcomes_are_recorded sample_builtins quiet nodes_pay
              "n50" pay_api ∅ eq_refl) as (_ & _ & _ & Hquiet).
  split; [exact Htot|]. split.
  - destruct (Hpaid ∅ eq_refl) as (H200 & _).
    destruct (H200 _ _ eq_refl) as (Hrun & _).
    exact Hrun.
  - destruct (Hquiet ∅ eq_refl) as (_ & _ & _ & Hdown).
    exact (Hdown _ eq_refl).
Defined.

End ApiFacts.


(* ================================================================== *)
(** * Properties of the template renderer *)
(* ================================================================== *)

Module RenderFacts.
Import Py Host Re Render RenderSpec.

Lemma registered_names_resolve : forallb block_resolves registered_names = true.
Proof. vm_compute. reflexivity. Qed.

Section WithBuiltins.
Variable B : builtins.

Lemma registered_name X p :
  CONDITIONAL_MAPPINGS B !! X = Some p -> In X registered_names.
Proof.
  intros H. unfold CONDITIONAL_MAPPINGS in H.
  apply elem_of_list_to_map_2 in H.
  apply (list_elem_of_fmap_2 fst) in H. apply list_elem_of_In in H. exact H.
Qed.

Lemma set_iter_pair (a b : string) :
  a <> b -> set_iter B [a; b] = [a; b] \/ set_iter B [a; b] = [b; a].
Proof.
  intros Hab.
  assert (P : Permutation [a; b] (set_iter B [a; b])).
  { apply NoDup_Permutation.
    - apply NoDup_cons. split; [|apply NoDup_singleton].
      rewrite list_elem_of_singleton. exact Hab.
    - apply set_iter_NoDup.
    - intros x. symmetry. apply set_iter_elem. }
  apply Permutation_length_2_inv in P. exact P.
Qed.

Lemma for_tags_block ctx X p x T tags :
  tags = [X; "end" ++ X] \/ tags = ["end" ++ X; X] ->
  startswith "end" X = false ->
  CONDITIONAL_MAPPINGS B !! X = Some p -> p ctx = Ok x ->
  for_tags B ctx tags T =
  Ok (if truthy x then keep_block T X else remove_block T X).
Proof.
  intros Ht Hs Hp Hx.
  assert (Hend : forall R, process_tag B ctx ("end" ++ X) R = Ok R)
    by reflexivity.
  assert (HX : forall R, process_tag B ctx X R =
                         Ok (if truthy x then keep_block R X
                             else remove_block R X)).
  { intros R. unfold process_tag. rewrite Hs, Hp, Hx. simpl.
    destruct (truthy x); reflexivity. }
  assert (Hcons : forall t rest R,
            for_tags B ctx (t :: rest) R =
            bind (process_tag B ctx t R) (fun R' => for_tags B ctx rest R'))
    by reflexivity.
  destruct Ht as [-> | ->]; rewrite Hcons.
  - rewrite HX. unfold bind at 1. rewrite Hcons, Hend. reflexivity.
  - rewrite Hend. unfold bind at 1. rewrite Hcons, HX. reflexivity.
Qed.

Lemma plain_text_renders (s : string) ctx :
  s = "AB" \/ s = "B" ->
  bind (substitute_variables B s ctx) (fun r => Ok (clean_whitespace r)) = Ok s.
Proof. intros [-> | ->]; destruct ctx; reflexivity. Qed.

(** C9. For the template [{%X%}A{%endX%}B], [X] a registered conditional
    marker whose predicate returns [x] in the context: rendering yields
    exactly [AB] when [x] is true and exactly [B] when it is false. *)
Theorem conditional_block_kept_or_removed
    (X : string) (predicate : cond) (ctx : option dict) (x : pyval) :
  CONDITIONAL_MAPPINGS B !! X = Some predicate ->
  predicate ctx = Ok x ->
  render_template B (block_template X) ctx
  = Ok (if truthy x then "AB" else "B").
Proof.
  intros Hp Hx.
  pose proof (registered_name X predicate Hp) as Hin.
  pose proof (proj1 (forallb_forall _ _) registered_names_resolve X Hin) as Hr.
  unfold block_resolves in Hr.
  apply andb_prop in Hr as [Hr Hrm]. apply andb_prop in Hr as [Hr Hk].
  apply andb_prop in Hr as [Hf Hs].
  apply bool_decide_eq_true in Hf. apply negb_true_iff in Hs.
  apply String.eqb_eq in Hk, Hrm.
  unfold render_template.
  assert (Hne : String.eqb (block_template X) "" = false) by reflexivity.
  rewrite Hne. unfold process_conditionals. rewrite Hf.
  assert (Hd : X <> "end" ++ X).
  { intros E.
    change ("end" ++ X) with (String "e" (String "n" (String "d" X))) in E.
    apply (f_equal String.length) in E. simpl in E. lia. }
  rewrite (for_tags_block ctx X predicate x (block_template X)
             (set_iter B [X; "end" ++ X]));
    [| destruct (set_iter_pair X ("end" ++ X) Hd) as [-> | ->]; auto
     | exact Hs | exact Hp | exact Hx].
  simpl bind. rewrite Hk, Hrm.
  destruct (truthy x); apply plain_text_renders; auto.
Qed.

End WithBuiltins.

Lemma conditional_block_witness :
  render_template Sample.sample_builtins (block_template "es")
    (Some {["language" := PStr "en"]}) = Ok "B".
Proof.
  apply (conditional_block_kept_or_removed Sample.sample_builtins "es"
           (eq_to "language" (PStr "en") (LStr "es"))
           (Some {["language" := PStr "en"]}) (PBool false));
    reflexivity.
Defined.

End RenderFacts.

Module CleanFacts.
Import Re Render CleanSpec.

Lemma skip_leading_length cls s :
  (String.length (skip_leading cls s) + leading cls s)%nat = String.length s.
Proof.
  induction s as [|a s IH]; simpl; [reflexivity|].
  destruct (cls a); simpl; lia.
Qed.

Lemma more_greedy_all {R} cls (k : string -> option R) s :
  (forall t, k t <> None) ->
  more_greedy cls k s = k (skip_leading cls s).
Proof.
  intros Hk. induction s as [|a s IH]; simpl; [reflexivity|].
  destruct (cls a); [|reflexivity].
  rewrite IH. destruct (k (skip_leading cls s)) eqn:E; [reflexivity|].
  exfalso. exact (Hk _ E).
Qed.

Lemma eat_Some cls n s s' :
  eat cls n s = Some s' ->
  (n <= leading cls s)%nat /\ skip_leading cls s' = skip_leading cls s.
Proof.
  revert s. induction n as [|n IH]; intros s H.
  - injection H as ->. split; [lia|reflexivity].
  - destruct s as [|a s]; [discriminate|]. cbn [eat] in H. cbn.
    destruct (cls a); [|discriminate].
    destruct (IH s H) as [Hn Hs]. split; [lia|exact Hs].
Qed.

Lemma eat_None cls n s :
  eat cls n s = None -> (leading cls s < n)%nat.
Proof.
  revert s. induction n as [|n IH]; intros s H; [discriminate|].
  destruct s as [|a s]; cbn; [lia|]. cbn [eat] in H.
  destruct (cls a); [|lia]. specialize (IH s H). lia.
Qed.

(** A greedy repetition at the start of [s] takes every character of the
    class, when there are enough of them. *)
Lemma match_at_rep cls lo s :
  match_at (Rep cls lo true) s =
  if (lo <=? leading cls s)%nat then Some (leading cls s, None) else None.
Proof.
  unfold match_at. cbn [rmatch].
  destruct (eat cls lo s) as [s'|] eqn:E.
  - apply eat_Some in E as [Hn Hs].
    rewrite more_greedy_all by discriminate. rewrite Hs.
    apply Nat.leb_le in Hn. rewrite Hn. do 2 f_equal.
    pose proof (skip_leading_length cls s). lia.
  - apply eat_None in E. apply Nat.leb_gt in E. rewrite E. reflexivity.
Qed.

Lemma is_newline_char a : is_newline a = true -> a = ascii_of_nat 10.
Proof.
  unfold is_newline, between, code. intros H.
  apply andb_prop in H as [H1 H2].
  apply N.leb_le in H1, H2.
  assert (E : N_of_ascii a = 10%N) by lia.
  rewrite <- (ascii_N_embedding a), E. reflexivity.
Qed.

Lemma cap_newlines_saturated r1 r2 s :
  (2 <= r1)%nat -> (2 <= r2)%nat -> cap_newlines r1 s = cap_newlines r2 s.
Proof.
  revert r1 r2. induction s as [|a s IH]; intros r1 r2 H1 H2; [reflexivity|].
  cbn [cap_newlines]. destruct (is_newline a); [|reflexivity].
  apply Nat.ltb_ge in H1 as E1. apply Nat.ltb_ge in H2 as E2.
  rewrite E1, E2. apply IH; lia.
Qed.

Lemma cap_newlines_content run s :
  leading is_newline s = O -> cap_newlines run s = cap_newlines 0 s.
Proof.
  destruct s as [|a s]; [reflexivity|]. cbn.
  destruct (is_newline a); [discriminate|reflexivity].
Qed.

(** The substitution [re.sub(r'\n{3,}', '\n\n', text)], with [skip]
    characters of a matched run still to pass and [run] newlines before
    [s]: the runs of newlines are capped at two. *)
Lemma sub_newlines_cap s : forall skip run,
  ((0 < skip)%nat /\ leading is_newline s = skip /\ (2 <= run)%nat) \/
  (skip = O /\ (run = O \/ leading is_newline s = O \/
                (run + leading is_newline s < 3)%nat)) ->
  sub_from newlines_pattern (fun _ => NL ++ NL) skip s = cap_newlines run s.
Proof.
  induction s as [|a s IH]; intros skip run H.
  - destruct skip; reflexivity.
  - destruct H as [(Hs & Hl & Hr) | (-> & H)].
    + destruct skip as [|n]; [lia|]. cbn [sub_from cap_newlines].
      cbn [leading] in Hl. destruct (is_newline a) eqn:Ea; [|discriminate].
      apply Nat.ltb_ge in Hr as Er. rewrite Er.
      apply IH. destruct n as [|n].
      * right. split; [reflexivity|]. right. left. lia.
      * left. repeat split; lia.
    + cbn [sub_from].
      pose proof (match_at_rep is_newline 3 (String a s)) as Hm.
      fold newlines_pattern in Hm. rewrite Hm. clear Hm.
      cbn [leading cap_newlines]. cbn [leading] in H.
      destruct (is_newline a) eqn:Ea.
      * destruct (3 <=? S (leading is_newline s))%nat eqn:E3.
        -- apply Nat.leb_le in E3.
           assert (run = O) as -> by lia.
           cbn [Nat.ltb Nat.leb].
           rewrite (IH (leading is_newline s) 2%nat) by (left; lia).
           destruct s as [|a' s']; [cbn in E3; lia|].
           cbn [leading] in E3. destruct (is_newline a') eqn:Ea'; [|lia].
           cbn [cap_newlines]. rewrite Ea'. cbn [Nat.ltb Nat.leb].
           rewrite (is_newline_char a Ea), (is_newline_char a' Ea').
           rewrite (cap_newlines_saturated 3 2) by lia. reflexivity.
        -- apply Nat.leb_gt in E3.
           assert (Er : (run <? 2)%nat = true) by (apply Nat.ltb_lt; lia).
           rewrite Er. f_equal. apply IH. right. split; [reflexivity|].
           right. right. lia.
      * cbn [Nat.leb]. f_equal. apply IH. right. auto.
Qed.

Lemma collapse_is_cap text :
  re_sub newlines_pattern (fun _ => NL ++ NL) text = cap_newlines 0 text.
Proof. apply sub_newlines_cap. right. auto. Qed.

(** ** Lines *)

Lemma app_nil_l (t : string) : "" ++ t = t.
Proof. reflexivity. Qed.

Lemma app_cons (a : ascii) (s t : string) : String a s ++ t = String a (s ++ t).
Proof. reflexivity. Qed.

Lemma split_first_lines s l ls :
  split_first is_newline s = (l, ls) ->
  no_newline l = true /\ Forall (fun x => no_newline x = true) ls.
Proof.
  revert l ls. induction s as [|a s IH]; intros l ls H.
  - injection H as <- <-. split; [reflexivity|constructor].
  - cbn [split_first] in H.
    destruct (split_first is_newline s) as [l0 ls0].
    destruct (IH l0 ls0 eq_refl) as [H1 H2].
    destruct (is_newline a) eqn:Ea; injection H as <- <-.
    + split; [reflexivity|]. constructor; assumption.
    + split; [|assumption]. cbn. rewrite Ea, H1. reflexivity.
Qed.

Lemma split_lines_no_newline s :
  Forall (fun x => no_newline x = true) (split_lines s).
Proof.
  unfold split_lines, split.
  destruct (split_first is_newline s) as [l ls] eqn:E.
  apply split_first_lines in E as [H1 H2]. constructor; assumption.
Qed.

Lemma split_first_app l rest :
  no_newline l = true ->
  split_first is_newline (l ++ rest) =
  (l ++ fst (split_first is_newline rest), snd (split_first is_newline rest)).
Proof.
  induction l as [|a l IH]; intros H.
  - rewrite app_nil_l. destruct (split_first is_newline rest); reflexivity.
  - cbn in H. apply andb_prop in H as [Ha Hl]. apply negb_true_iff in Ha.
    rewrite app_cons. cbn [split_first]. rewrite (IH Hl), Ha. reflexivity.
Qed.

Lemma string_app_nil_r (s : string) : s ++ "" = s.
Proof. induction s as [|a s IH]; [reflexivity|]. rewrite app_cons, IH. reflexivity. Qed.

Lemma join_cons l l' ls :
  join_lines (l :: l' :: ls) = l ++ NL ++ join_lines (l' :: ls).
Proof. reflexivity. Qed.

Lemma split_first_NL rest :
  split_first is_newline (NL ++ rest) =
  ("", fst (split_first is_newline rest) :: snd (split_first is_newline rest)).
Proof.
  unfold NL. rewrite app_cons, app_nil_l. cbn [split_first].
  destruct (split_first is_newline rest). reflexivity.
Qed.

Lemma split_first_join l ls :
  no_newline l = true -> Forall (fun x => no_newline x = true) ls ->
  split_first is_newline (join_lines (l :: ls)) = (l, ls).
Proof.
  revert l. induction ls as [|l' ls IH]; intros l Hl Hls.
  - change (split_first is_newline l = (l, [])). clear Hls.
    induction l as [|a l IHl]; [reflexivity|].
    cbn in Hl. apply andb_prop in Hl as [Ha Hl]. apply negb_true_iff in Ha.
    cbn [split_first]. rewrite (IHl Hl), Ha. reflexivity.
  - apply Forall_cons in Hls as [Hl' Hls].
    rewrite join_cons, (split_first_app l _ Hl), split_first_NL.
    rewrite (IH l' Hl' Hls). cbn [fst snd].
    rewrite string_app_nil_r. reflexivity.
Qed.

Lemma split_join lines :
  lines <> [] -> Forall (fun x => no_newline x = true) lines ->
  split_lines (join_lines lines) = lines.
Proof.
  destruct lines as [|l ls]; [congruence|]. intros _ H.
  apply Forall_cons in H as [Hl Hls].
  unfold split_lines, split. rewrite (split_first_join l ls Hl Hls).
  reflexivity.
Qed.

Lemma content_empty : content "" = false.
Proof. reflexivity. Qed.

(** Capping the runs of newlines removes empty lines only. *)
Lemma cap_newlines_lines s : forall run,
  List.filter content (split_lines (cap_newlines run s))
  = List.filter content (split_lines s)
  /\ (run = O ->
      fst (split_first is_newline (cap_newlines run s))
      = fst (split_first is_newline s)).
Proof.
  unfold split_lines, split.
  induction s as [|a s IH]; intros run; [split; reflexivity|].
  cbn [cap_newlines split_first]. destruct (is_newline a) eqn:Ea.
  - destruct (IH (S run)) as [IHf _].
    destruct (split_first is_newline s) as [l0 ls0].
    destruct (run <? 2)%nat eqn:Er.
    + cbn [split_first]. rewrite Ea.
      destruct (split_first is_newline (cap_newlines (S run) s)) as [l1 ls1].
      split; [|reflexivity].
      cbn [List.filter]. rewrite content_empty. exact IHf.
    + destruct (split_first is_newline (cap_newlines (S run) s)) as [l1 ls1].
      split.
      * rewrite IHf. cbn [List.filter]. rewrite content_empty. reflexivity.
      * intros ->. discriminate Er.
  - destruct (IH O) as [IHf IHl]. specialize (IHl eq_refl).
    cbn [split_first]. rewrite Ea.
    destruct (split_first is_newline s) as [l0 ls0].
    destruct (split_first is_newline (cap_newlines 0 s)) as [l1 ls1].
    cbn [fst] in IHl. subst l1. split; [|reflexivity].
    cbn [List.filter] in *. destruct (content l0), (content (String a l0));
      congruence.
Qed.

Lemma filter_dropwhile (lines : list string) :
  List.filter content (dropwhile blank lines) = List.filter content lines.
Proof.
  induction lines as [|l ls IH]; [reflexivity|]. cbn [dropwhile List.filter].
  destruct (blank l) eqn:E; [|reflexivity].
  rewrite IH. unfold content. rewrite E. reflexivity.
Qed.

Lemma filter_content_rev (lines : list string) :
  List.filter content (rev lines) = rev (List.filter content lines).
Proof.
  induction lines as [|l ls IH]; [reflexivity|]. cbn [rev List.filter].
  rewrite List.filter_app, IH. cbn [List.filter].
  destruct (content l); cbn [rev]; [reflexivity|apply app_nil_r].
Qed.

Lemma filter_trimmed (lines : list string) :
  List.filter content (trimmed lines) = List.filter content lines.
Proof.
  unfold trimmed.
  rewrite filter_content_rev, filter_dropwhile, filter_content_rev,
    rev_involutive, filter_dropwhile.
  reflexivity.
Qed.

Lemma blank_strip line : blank line = true -> strip line = "".
Proof. unfold blank. apply String.eqb_eq. Qed.

Lemma filter_emptied (lines : list string) :
  List.filter content (map emptied lines) = List.filter content lines.
Proof.
  induction lines as [|l ls IH]; [reflexivity|]. cbn [map List.filter].
  rewrite IH. unfold emptied, content.
  destruct (blank l) eqn:E; [|rewrite ?E; reflexivity].
  rewrite (blank_strip l E). reflexivity.
Qed.

Lemma Forall_dropwhile {A} (P : A -> Prop) p (l : list A) :
  Forall P l -> Forall P (dropwhile p l).
Proof.
  induction 1 as [|x l Hx Hl IH]; [constructor|]. cbn.
  destruct (p x); [exact IH|constructor; assumption].
Qed.

Lemma Forall_trimmed (P : string -> Prop) lines :
  Forall P lines -> Forall P (trimmed lines).
Proof.
  intros H. unfold trimmed.
  apply Forall_rev, Forall_dropwhile, Forall_rev, Forall_dropwhile, H.
Qed.

Lemma dropwhile_head {A} p (l : list A) x r :
  dropwhile p l = x :: r -> p x = false.
Proof.
  induction l as [|y l IH]; [discriminate|]. cbn.
  destruct (p y) eqn:E; [exact IH|]. intros [= <- _]. exact E.
Qed.

Lemma dropwhile_snoc {A} p (l : list A) y :
  p y = false -> dropwhile p (l ++ [y])%list = (dropwhile p l ++ [y])%list.
Proof.
  intros Hy. induction l as [|x l IH]; cbn; [rewrite Hy; reflexivity|].
  destruct (p x); [exact IH|reflexivity].
Qed.

(** After trimming, the first and the last line bear content. *)
Lemma trimmed_ends lines :
  trimmed lines <> [] ->
  content (List.hd "" (trimmed lines)) = true /\
  content (List.last (trimmed lines) "") = true.
Proof.
  unfold trimmed, content. intros Hne.
  destruct (dropwhile blank lines) as [|y r] eqn:EY; [contradiction Hne; reflexivity|].
  pose proof (dropwhile_head _ _ _ _ EY) as Hy.
  cbn [rev] in *. rewrite (dropwhile_snoc blank (rev r) y Hy) in *.
  rewrite rev_app_distr. cbn [rev app List.hd]. rewrite Hy. split; [reflexivity|].
  destruct (dropwhile blank (rev r)) as [|z r'] eqn:EZ.
  - cbn [rev List.last]. rewrite Hy. reflexivity.
  - pose proof (dropwhile_head _ _ _ _ EZ) as Hz.
    cbn [rev]. change (y :: (rev r' ++ [z]))%list with ([y] ++ rev r' ++ [z])%list.
    rewrite app_assoc, last_last, Hz. reflexivity.
Qed.

Lemma emptied_no_newline lines :
  Forall (fun x => no_newline x = true) lines ->
  Forall (fun x => no_newline x = true) (map emptied lines).
Proof.
  induction 1 as [|l ls Hl Hls IH]; constructor; [|exact IH].
  unfold emptied. destruct (blank l) eqn:E; [|exact Hl].
  rewrite (blank_strip l E). reflexivity.
Qed.

Lemma emptied_shape lines :
  Forall (fun l => l = "" \/ content l = true) (map emptied lines).
Proof.
  induction lines as [|l ls IH]; constructor; [|exact IH].
  unfold emptied, content. destruct (blank l) eqn:E.
  - left. apply blank_strip, E.
  - right. rewrite E. reflexivity.
Qed.

(** After the cap no run of three newlines is left. *)
Lemma cap_newlines_short_runs s : forall run,
  short_runs (Nat.min run 2) (cap_newlines run s) = true.
Proof.
  induction s as [|a s IH]; intros run; [reflexivity|].
  cbn [cap_newlines]. destruct (is_newline a) eqn:Ea.
  - destruct (run <? 2)%nat eqn:Er.
    + apply Nat.ltb_lt in Er. cbn [short_runs]. rewrite Ea.
      replace (Nat.min run 2) with run by lia.
      specialize (IH (S run)).
      replace (Nat.min (S run) 2) with (S run) in IH by lia.
      rewrite IH. apply andb_true_iff. split; [|reflexivity].
      apply Nat.ltb_lt. exact Er.
    + apply Nat.ltb_ge in Er. specialize (IH (S run)).
      replace (Nat.min (S run) 2) with 2%nat in IH by lia.
      replace (Nat.min run 2) with 2%nat by lia. exact IH.
  - cbn [short_runs]. rewrite Ea. exact (IH O).
Qed.

Lemma clean_whitespace_lines text :
  clean_whitespace text
  = join_lines (trimmed (map emptied (split_lines (cap_newlines 0 text)))).
Proof. unfold clean_whitespace. rewrite collapse_is_cap. reflexivity. Qed.

(** The lines of the result are the trimmed lines, or the single empty line
    when nothing is left. *)
Lemma clean_whitespace_split text :
  let kept := trimmed (map emptied (split_lines (cap_newlines 0 text))) in
  (kept = [] /\ clean_whitespace text = ""
   /\ split_lines (clean_whitespace text) = [""])
  \/ (kept <> [] /\ split_lines (clean_whitespace text) = kept).
Proof.
  intros kept. rewrite clean_whitespace_lines. fold kept.
  destruct kept as [|l ls] eqn:E; [left; repeat split; reflexivity|].
  right. split; [discriminate|]. apply split_join; [discriminate|].
  rewrite <- E. apply Forall_trimmed, emptied_no_newline, split_lines_no_newline.
Qed.

(** C8, as stated, fails: three whitespace-only lines between two content
    lines are emptied but not collapsed, because the runs of newlines are
    capped before the whitespace-only lines are emptied. *)
Lemma three_blank_lines_survive :
  clean_whitespace
    ("a" ++ NL ++ " " ++ NL ++ " " ++ NL ++ " " ++ NL ++ "b")
  = "a" ++ NL ++ NL ++ NL ++ NL ++ "b"
  /\ split_lines
       (clean_whitespace
          ("a" ++ NL ++ " " ++ NL ++ " " ++ NL ++ " " ++ NL ++ "b"))
     = ["a"; ""; ""; ""; "b"].
Proof. split; vm_compute; reflexivity. Qed.

(** C8, amended. [clean_whitespace] replaces every run of three or more
    newline characters by two, which leaves no run of three, then empties
    the whitespace-only lines, then drops the blank lines at both ends.
    Every line of the result is empty or
    content-bearing, a result that is not empty starts and ends with a
    content-bearing line, and the content-bearing lines are those of the
    input, unchanged and in the same order. *)
Theorem clean_whitespace_normalises (text : string) :
  let out := split_lines (clean_whitespace text) in
  clean_whitespace text
  = join_lines (trimmed (map emptied (split_lines (cap_newlines 0 text))))
  /\ short_runs 0 (cap_newlines 0 text) = true
  /\ Forall (fun l => l = "" \/ content l = true) out
  /\ (clean_whitespace text = ""
      \/ content (List.hd "" out) = true
         /\ content (List.last out "") = true)
  /\ List.filter content out = List.filter content (split_lines text).
Proof.
  intros out. subst out.
  split; [apply clean_whitespace_lines|].
  split; [apply (cap_newlines_short_runs text O)|].
  pose proof (cap_newlines_lines text O) as [Hcap _].
  destruct (clean_whitespace_split text) as [(Hk & He & Hs)|(Hk & Hs)];
    rewrite Hs.
  - split; [repeat constructor|]. split; [left; exact He|].
    rewrite <- Hcap, <- (filter_emptied (split_lines (cap_newlines 0 text))),
      <- (filter_trimmed (map emptied _)), Hk.
    reflexivity.
  - split; [apply Forall_trimmed, emptied_shape|].
    split; [right; apply trimmed_ends, Hk|].
    rewrite filter_trimmed, filter_emptied. exact Hcap.
Qed.

End CleanFacts.

Module RerenderFacts.
Import Py Host Re Render CleanSpec CleanFacts RerenderSpec.

Lemma short_runs_cap s : forall run,
  short_runs run s = true -> cap_newlines run s = s.
Proof.
  induction s as [|a s IH]; intros run H; [reflexivity|].
  cbn [short_runs cap_newlines] in *. destruct (is_newline a).
  - apply andb_prop in H as [Hr Hs]. rewrite Hr, (IH _ Hs). reflexivity.
  - rewrite (IH _ H). reflexivity.
Qed.

Lemma dropwhile_idem {A} p (l : list A) :
  dropwhile p (dropwhile p l) = dropwhile p l.
Proof.
  induction l as [|x l IH]; [reflexivity|]. cbn.
  destruct (p x) eqn:E; [exact IH|]. cbn. rewrite E. reflexivity.
Qed.

Lemma trimmed_idem lines : trimmed (trimmed lines) = trimmed lines.
Proof.
  unfold trimmed.
  destruct (dropwhile blank lines) as [|y r] eqn:EY; [reflexivity|].
  pose proof (dropwhile_head _ _ _ _ EY) as Hy.
  cbn [rev]. rewrite (dropwhile_snoc blank (rev r) y Hy).
  rewrite rev_app_distr. cbn [rev app dropwhile]. rewrite Hy.
  cbn [rev]. rewrite rev_involutive.
  rewrite (dropwhile_snoc blank _ y Hy), dropwhile_idem.
  rewrite rev_app_distr. reflexivity.
Qed.

Lemma emptied_fix lines :
  Forall (fun l => l = "" \/ content l = true) lines ->
  map emptied lines = lines.
Proof.
  induction 1 as [|l ls Hl Hls IH]; [reflexivity|]. cbn [map]. rewrite IH.
  f_equal. destruct Hl as [-> | Hl]; [reflexivity|].
  unfold emptied. unfold content in Hl. apply negb_true_iff in Hl.
  rewrite Hl. reflexivity.
Qed.

(** Cleaning a cleaned text again changes nothing, unless emptying its
    whitespace-only lines has made a new run of three newlines. *)
Lemma clean_whitespace_fixpoint text :
  short_runs 0 (clean_whitespace text) = true ->
  clean_whitespace (clean_whitespace text) = clean_whitespace text.
Proof.
  intros H. rewrite (clean_whitespace_lines (clean_whitespace text)).
  rewrite (short_runs_cap _ _ H).
  destruct (clean_whitespace_split text) as [(_ & He & _)|(_ & Hs)].
  - rewrite He. reflexivity.
  - rewrite Hs, emptied_fix, trimmed_idem;
      [symmetry; apply clean_whitespace_lines|].
    apply Forall_trimmed, emptied_shape.
Qed.

Lemma findall_none_sub r repl s :
  re_findall r s = [] -> re_sub r repl s = s.
Proof.
  unfold re_findall, re_sub. induction s as [|a s IH]; cbn.
  - destruct (match_at r "") as [[len cap]|]; [discriminate|reflexivity].
  - destruct (match_at r (String a s)) as [[len cap]|]; [discriminate|].
    intros H. rewrite (IH H). reflexivity.
Qed.

Lemma search_none r s : re_search r s = false -> re_findall r s = [].
Proof.
  unfold re_search. destruct (re_findall r s); [reflexivity|discriminate].
Qed.

Section WithBuiltins.
Variable B : builtins.

Lemma set_iter_nil : set_iter B [] = [].
Proof.
  destruct (set_iter B []) as [|x l] eqn:E; [reflexivity|].
  assert (H : x ∈ set_iter B []) by (rewrite E; apply list_elem_of_here).
  apply set_iter_elem in H. inversion H.
Qed.

(** What a render returns on success is empty or comes out of
    [clean_whitespace]. *)
Lemma render_template_cleaned t ctx r :
  render_template B t ctx = Ok r ->
  r = "" \/ exists text, r = clean_whitespace text.
Proof.
  unfold render_template. destruct (String.eqb t "").
  - intros [= <-]. left. reflexivity.
  - destruct (process_conditionals B t ctx) as [r1|e]; [|discriminate].
    cbn [bind].
    destruct (substitute_variables B r1 ctx) as [r2|e]; [|discriminate].
    cbn [bind]. intros [= <-]. right. exists r2. reflexivity.
Qed.

(** C4, amended. Rendering what a render returned gives it back whenever
    that result is settled: the renderer finds no tag and no placeholder in
    it, and it has no run of three newline characters. *)
Theorem render_template_settled_fixpoint
    (t : string) (ctx : option dict) (r : string) :
  render_template B t ctx = Ok r ->
  settled r = true ->
  render_template B r ctx = Ok r.
Proof.
  intros Hr Hs. unfold settled in Hs.
  apply andb_prop in Hs as [Hs Hruns]. apply andb_prop in Hs as [Htags Hvars].
  apply bool_decide_eq_true in Htags. apply negb_true_iff in Hvars.
  unfold render_template. destruct (String.eqb r "") eqn:Er.
  - apply String.eqb_eq in Er. subst r. reflexivity.
  - unfold process_conditionals. rewrite Htags, set_iter_nil.
    cbn [for_tags bind].
    assert (Hsub : substitute_variables B r ctx = Ok r).
    { unfold substitute_variables. destruct ctx as [d|].
      - rewrite (findall_none_sub _ _ _ (search_none _ _ Hvars)). reflexivity.
      - rewrite Hvars. reflexivity. }
    rewrite Hsub. cbn [bind]. f_equal.
    destruct (render_template_cleaned t ctx r Hr) as [-> | [text ->]];
      [discriminate Er|].
    apply clean_whitespace_fixpoint, Hruns.
Qed.

End WithBuiltins.

(** C4, as stated, fails: rendering is not idempotent. Two whitespace-only
    lines between two content lines are emptied by the first render, which
    leaves three newlines in a row; the second render collapses them. *)
Lemma rerender_changes_the_result :
  let once := render_template Sample.sample_builtins two_blank_lines None in
  let twice :=
    bind once (fun r => render_template Sample.sample_builtins r None) in
  once = Ok ("a" ++ NL ++ NL ++ NL ++ "b")
  /\ twice = Ok ("a" ++ NL ++ NL ++ "b")
  /\ twice <> once.
Proof.
  cbv zeta. split; [vm_compute; reflexivity|].
  split; [vm_compute; reflexivity|].
  intros E. vm_compute in E. discriminate E.
Qed.

Lemma render_template_settled_witness :
  render_template Sample.sample_builtins "Hello {{name}}"
    (Some {["name" := PStr "Bob"]}) = Ok "Hello Bob"
  /\ settled "Hello Bob" = true
  /\ render_template Sample.sample_builtins "Hello Bob"
       (Some {["name" := PStr "Bob"]}) = Ok "Hello Bob".
Proof.
  split; [vm_compute; reflexivity|]. split; [vm_compute; reflexivity|].
  apply (render_template_settled_fixpoint Sample.sample_builtins
           "Hello {{name}}" (Some {["name" := PStr "Bob"]}) "Hello Bob");
    vm_compute; reflexivity.
Defined.

End RerenderFacts.


(* ================================================================== *)
(** * Further properties of the transition engine *)
(* ================================================================== *)

Module GraphFacts.
Import Py Host Transition TransitionTools TransitionSpec GraphSpec.

Lemma global_targets_on_the_graph :
  forallb on_the_graph (map target GLOBAL_TRIGGERS) = true.
Proof. vm_compute. reflexivity. Qed.

Lemma table_targets_on_the_graph :
  map_Forall (fun _ rules => forallb on_the_graph (map target rules) = true)
    TRANSITION_RULES.
Proof. apply (bool_decide_unpack _). vm_compute. reflexivity. Qed.

Lemma table_nodes_described :
  map_Forall (fun n _ => described n = true) TRANSITION_RULES.
Proof. apply (bool_decide_unpack _). vm_compute. reflexivity. Qed.

Lemma node_targets_on_the_graph cur :
  forallb on_the_graph (map target (rules_of TRANSITION_RULES cur)) = true.
Proof.
  unfold rules_of. destruct (TRANSITION_RULES !! cur) as [rules|] eqn:E;
    [|reflexivity].
  exact (table_targets_on_the_graph cur rules E).
Qed.

(** The engine answers with the current node or with the target of one of
    the rules it ran through. *)
Lemma next_node_cases cur v c :
  exists t, get_next_node cur v c = Ok t /\
    (t = cur \/ In t (map target GLOBAL_TRIGGERS)
     \/ In t (map target (rules_of TRANSITION_RULES cur))).
Proof.
  unfold get_next_node. rewrite TransitionFacts.next_node_with_eq.
  eexists. split; [reflexivity|].
  destruct (List.find _ GLOBAL_TRIGGERS) as [g|] eqn:Eg.
  - right. left. apply find_some in Eg as [Hin _]. apply in_map, Hin.
  - destruct (List.find _ (rules_of _ _)) as [l|] eqn:El; [|left; reflexivity].
    right. right. apply find_some in El as [Hin _]. apply in_map, Hin.
Qed.

Lemma next_node_on_the_graph cur v c t :
  on_the_graph cur = true -> get_next_node cur v c = Ok t ->
  on_the_graph t = true.
Proof.
  intros Hc Ht. destruct (next_node_cases cur v c) as (t' & Ht' & H).
  rewrite Ht in Ht'. injection Ht' as <-.
  destruct H as [-> | [H | H]]; [exact Hc| |].
  - exact (proj1 (forallb_forall _ _) global_targets_on_the_graph t H).
  - exact (proj1 (forallb_forall _ _) (node_targets_on_the_graph cur) t H).
Qed.

Section WithBuiltins.
Variable B : builtins.

Lemma listed_target cur t :
  t ∈ get_all_target_nodes B cur <->
  In t (map target GLOBAL_TRIGGERS)
  \/ In t (map target (rules_of TRANSITION_RULES cur)).
Proof.
  unfold get_all_target_nodes, rules_of.
  rewrite set_iter_elem, elem_of_app, !list_elem_of_In. reflexivity.
Qed.

(** X1. [get_next_node] never raises, and its answer is the current node or one
    of the nodes [get_all_target_nodes] lists for it; that list has no
    repeats and always holds the targets of the global triggers. *)
Theorem next_node_is_current_or_listed (cur : string) (v : dict)
    (c : option dict) :
  (exists t, get_next_node cur v c = Ok t /\
     (t = cur \/ t ∈ get_all_target_nodes B cur))
  /\ NoDup (get_all_target_nodes B cur)
  /\ (forall g, g ∈ GLOBAL_TRIGGERS -> target g ∈ get_all_target_nodes B cur).
Proof.
  split; [|split].
  - destruct (next_node_cases cur v c) as (t & Ht & H).
    exists t. split; [exact Ht|].
    destruct H as [H|H]; [left; exact H|right; apply listed_target, H].
  - apply set_iter_NoDup.
  - intros g Hg. apply listed_target. left.
    apply in_map, list_elem_of_In, Hg.
Qed.

(** X2. Every node [get_all_target_nodes] lists is ["END"] or has rules of its
    own, and [get_node_description] has an entry for it: no rule leads out
    of the graph. *)
Theorem listed_targets_are_on_the_graph (cur t : string) :
  t ∈ get_all_target_nodes B cur ->
  (t = "END" \/ is_Some (TRANSITION_RULES !! t))
  /\ exists d, descriptions !! t = Some d /\ get_node_description t = d.
Proof.
  intros H. apply listed_target in H.
  assert (Hg : on_the_graph t = true).
  { destruct H as [H|H].
    - exact (proj1 (forallb_forall _ _) global_targets_on_the_graph t H).
    - exact (proj1 (forallb_forall _ _) (node_targets_on_the_graph cur) t H). }
  unfold on_the_graph, has_rules, described in Hg.
  apply andb_prop in Hg as [H1 H2]. apply bool_decide_eq_true in H2.
  split.
  - apply orb_prop in H1 as [H1|H1].
    + left. apply String.eqb_eq, H1.
    + right. apply bool_decide_eq_true in H1. exact H1.
  - destruct H2 as [d Hd]. exists d. split; [exact Hd|].
    unfold get_node_description. rewrite Hd. reflexivity.
Qed.

End WithBuiltins.

Lemma listed_targets_witness :
  ("n68" = "END" \/ is_Some (TRANSITION_RULES !! "n68"))
  /\ exists d, descriptions !! "n68" = Some d /\ get_node_description "n68" = d.
Proof.
  apply (listed_targets_are_on_the_graph Sample.sample_builtins "n61" "n68").
  apply (bool_decide_unpack _). vm_compute. reflexivity.
Defined.

(** X3. A call that starts at [n61] is, after any number of turns, whatever is
    extracted in them, at ["END"] or at a node that has rules, and at a
    node that has a description. *)
Theorem calls_stay_on_the_graph (turns : list (dict * option dict)) :
  exists n, follow "n61" turns = Ok n
    /\ (n = "END" \/ is_Some (TRANSITION_RULES !! n))
    /\ is_Some (descriptions !! n).
Proof.
  assert (H : forall cur, on_the_graph cur = true ->
            exists n, follow cur turns = Ok n /\ on_the_graph n = true).
  { induction turns as [|[v c] rest IH]; intros cur Hc; [eauto|].
    cbn [follow].
    destruct (next_node_cases cur v c) as (t & Ht & _). rewrite Ht.
    apply IH. exact (next_node_on_the_graph cur v c t Hc Ht). }
  destruct (H "n61") as (n & Hn & Hg); [vm_compute; reflexivity|].
  exists n. split; [exact Hn|].
  unfold on_the_graph, has_rules, described in Hg.
  apply andb_prop in Hg as [H1 H2]. apply bool_decide_eq_true in H2.
  split; [|exact H2].
  apply orb_prop in H1 as [H1|H1].
  - left. apply String.eqb_eq, H1.
  - right. apply bool_decide_eq_true in H1. exact H1.
Qed.

(** When every rule of the node has the target [t] and one of them fires,
    the engine answers [t] unless a global trigger fires. *)
Lemma single_target_step cur t v c :
  forallb (fun r => String.eqb (target r) t) (rules_of TRANSITION_RULES cur)
  = true ->
  any_fires (rules_of TRANSITION_RULES cur) v c = true ->
  any_fires GLOBAL_TRIGGERS v c = false ->
  get_next_node cur v c = Ok t.
Proof.
  intros Ht Hf Hg. unfold get_next_node.
  rewrite TransitionFacts.next_node_with_eq, (TransitionFacts.find_none_any _ _ _ Hg).
  destruct (List.find _ (rules_of _ _)) as [l|] eqn:El.
  - apply find_some in El as [Hin _].
    apply (proj1 (forallb_forall _ _) Ht) in Hin.
    apply String.eqb_eq in Hin. rewrite Hin. reflexivity.
  - exfalso. unfold any_fires in Hf. apply existsb_exists in Hf as (r & Hr & Hfr).
    apply (find_none _ _ El) in Hr. congruence.
Qed.

Ltac last_rule_fires :=
  match goal with
  | |- any_fires (rules_of TRANSITION_RULES ?n) _ _ = true =>
      let rs := fresh "rs" in
      set (rs := rules_of TRANSITION_RULES n); vm_compute in rs; subst rs;
      unfold any_fires, fires; cbn [existsb cond truthy];
      rewrite ?orb_true_r; reflexivity
  end.

(** X4. The nodes that only pass the call on: at each of them the engine goes
    to the one target of the node whatever was extracted, unless a global
    trigger fires.  The five closing nodes end the call. *)
Theorem pass_through_nodes_move_on (cur t : string) (v : dict)
    (c : option dict) :
  In (cur, t) pass_through ->
  any_fires GLOBAL_TRIGGERS v c = false ->
  get_next_node cur v c = Ok t.
Proof.
  intros Hin Hg. cbn [pass_through In] in Hin.
  repeat (destruct Hin as [[= <- <-]|Hin];
          [apply single_target_step;
           [vm_compute; reflexivity | last_rule_fires | exact Hg]|]).
  contradiction.
Qed.

Lemma pass_through_witness :
  get_next_node "n69" {["small_talk" := PBool true]} None = Ok "END".
Proof.
  apply (pass_through_nodes_move_on "n69" "END").
  - cbn. tauto.
  - vm_compute. reflexivity.
Defined.

End GraphFacts.


(* ================================================================== *)
(** * Further properties of the context store *)
(* ================================================================== *)

Module StoreFacts.
Import Py Host ContextStore StoreSpec.

Section WithBuiltins.
Variable B : builtins.

(** X6. On a call the store does not know, nothing is changed and every
    operation answers with its default. *)
Theorem unknown_call_is_a_no_op
    (st : store) (call_sid : string) (d : dict)
    (role content node_id counter_name : string) (n : nat) :
  get_context st call_sid = None ->
  update_context st call_sid d = (st, None)
  /\ append_transcript B st call_sid role content = (st, Ok tt)
  /\ get_transcript st call_sid n = Ok (PList [])
  /\ set_current_node st call_sid node_id = st
  /\ get_current_node st call_sid = PStr "n61"
  /\ increment_counter st call_sid counter_name = (st, Ok (PInt 0))
  /\ delete_context st call_sid = (st, None).
Proof.
  unfold get_context. intros H.
  unfold update_context, append_transcript, get_transcript, set_current_node,
    get_current_node, increment_counter, delete_context.
  rewrite H, (delete_id _ _ H). repeat split; reflexivity.
Qed.

(** X7. [create_context] stores what it returns; in it a key of the initial
    data has the value given there, and every other key its start value.
    Deleting the call hands the same context back and removes it. *)
Theorem created_context_is_stored
    (st : store) (call_sid : string) (initial_data : dict) :
  let created := create_context B st call_sid initial_data in
  get_context (fst created) call_sid = Some (snd created)
  /\ (forall k,
        snd created !! k =
        match initial_data !! k with
        | Some x => Some x
        | None => fresh_context B call_sid !! k
        end)
  /\ delete_context (fst created) call_sid
     = (delete call_sid st, Some (snd created))
  /\ get_context (fst (delete_context (fst created) call_sid)) call_sid = None.
Proof.
  cbv zeta. unfold create_context, get_context, delete_context. cbn [fst snd].
  repeat split.
  - apply lookup_insert_eq.
  - intros k. rewrite lookup_union.
    destruct (initial_data !! k), (fresh_context B call_sid !! k); reflexivity.
  - rewrite delete_insert_eq, lookup_insert_eq. reflexivity.
  - apply lookup_delete_eq.
Qed.

Lemma last_n_length {A} (n : nat) (l : list A) :
  length (last_n n l) = Nat.min n (length l).
Proof. unfold last_n. rewrite length_drop. lia. Qed.

Lemma last_n_snoc {A} (n : nat) (l : list A) (x : A) :
  (0 < n)%nat -> last_n n (l ++ [x]) = (last_n (n - 1) l ++ [x])%list.
Proof.
  intros Hn. unfold last_n. rewrite length_app. cbn [length].
  replace (length l + 1 - n)%nat with (length l - (n - 1))%nat by lia.
  apply drop_app_le. lia.
Qed.

(** X8. After [append_transcript] on a call whose transcript is a list, the
    transcript is one entry longer, [get_transcript] with a positive limit
    [n] returns its last [n] entries, at most [n] of them, the new entry
    last; the other keys of the context are as before. *)
Theorem appended_entry_is_returned_last
    (st : store) (call_sid role content : string) (ctx : dict)
    (entries : list pyval) (n : nat) :
  get_context st call_sid = Some ctx ->
  ctx !! "transcript" = Some (PList entries) ->
  (0 < n)%nat ->
  let entry := transcript_entry B role content in
  let st' := fst (append_transcript B st call_sid role content) in
  append_transcript B st call_sid role content = (st', Ok tt)
  /\ get_context st' call_sid
     = Some (<["transcript" := PList (entries ++ [entry])]> ctx)
  /\ get_transcript st' call_sid n
     = Ok (PList (last_n (n - 1) entries ++ [entry]))
  /\ (length (last_n (n - 1) entries ++ [entry]) <= n)%nat.
Proof.
  unfold get_context. intros Hst Ht Hn. cbv zeta.
  unfold append_transcript. rewrite Hst, Ht. cbn [fst].
  split; [reflexivity|]. split; [apply lookup_insert_eq|]. split.
  - unfold get_transcript, get_or. rewrite lookup_insert_eq, lookup_insert_eq.
    cbn [default id]. rewrite (proj2 (Nat.eqb_neq n 0)) by lia.
    rewrite (last_n_snoc n entries _ Hn). reflexivity.
  - rewrite length_app, last_n_length. cbn [length]. lia.
Qed.

(** X9. A transcript that is missing or is not a list makes [append_transcript]
    raise, and the store stays as it was. *)
Theorem append_needs_a_list_transcript
    (st : store) (call_sid role content : string) (ctx : dict) :
  get_context st call_sid = Some ctx ->
  (forall entries, ctx !! "transcript" <> Some (PList entries)) ->
  exists e, append_transcript B st call_sid role content = (st, Raise e).
Proof.
  unfold get_context. intros Hst Ht. unfold append_transcript. rewrite Hst.
  destruct (ctx !! "transcript") as [[]|] eqn:E; try (eexists; reflexivity).
  exfalso. exact (Ht _ eq_refl).
Qed.

Lemma increment_int (st : store) call_sid counter_name (ctx : dict) (z : Z) :
  st !! call_sid = Some ctx ->
  get_or ctx counter_name (PInt 0) = PInt z ->
  increment_counter st call_sid counter_name
  = (<[call_sid := <[counter_name := PInt (z + 1)]> ctx]> st,
     Ok (PInt (z + 1))).
Proof.
  intros Hst Hz. unfold increment_counter. rewrite Hst, Hz. reflexivity.
Qed.

Lemma increments_int (n : nat) : forall (st : store) call_sid counter_name
    (ctx : dict) (z : Z),
  st !! call_sid = Some ctx ->
  get_or ctx counter_name (PInt 0) = PInt z ->
  increments st call_sid counter_name n
  = match n with
    | O => st
    | S _ => <[call_sid := <[counter_name := PInt (z + Z.of_nat n)]> ctx]> st
    end.
Proof.
  induction n as [|n IH]; intros st call_sid counter_name ctx z Hst Hz;
    [reflexivity|].
  cbn [increments]. rewrite (increment_int st _ _ ctx z Hst Hz). cbn [fst].
  rewrite (IH _ _ _ (<[counter_name := PInt (z + 1)]> ctx) (z + 1));
    [|apply lookup_insert_eq|unfold get_or; rewrite lookup_insert_eq; reflexivity].
  destruct n as [|n].
  - replace (z + Z.of_nat 1) with (z + 1) by lia. reflexivity.
  - rewrite insert_insert_eq, insert_insert_eq. do 3 f_equal. lia.
Qed.

(** X10. A counter that holds the int [z], or is missing and counts as [0], is
    stored and returned one higher by [increment_counter]; after [n] calls
    it holds [z + n], and the other keys are as before. *)
Theorem counter_counts
    (st : store) (call_sid counter_name : string) (ctx : dict) (z : Z)
    (n : nat) :
  get_context st call_sid = Some ctx ->
  get_or ctx counter_name (PInt 0) = PInt z ->
  increment_counter st call_sid counter_name
  = (<[call_sid := <[counter_name := PInt (z + 1)]> ctx]> st,
     Ok (PInt (z + 1)))
  /\ (exists ctx',
        get_context (increments st call_sid counter_name n) call_sid = Some ctx'
        /\ get_or ctx' counter_name (PInt 0) = PInt (z + Z.of_nat n)
        /\ forall k, k <> counter_name -> ctx' !! k = ctx !! k).
Proof.
  unfold get_context. intros Hst Hz. split; [exact (increment_int _ _ _ _ _ Hst Hz)|].
  rewrite (increments_int n st _ _ ctx z Hst Hz). destruct n as [|n].
  - exists ctx. split; [exact Hst|]. split; [|reflexivity].
    rewrite Hz. f_equal. cbn. lia.
  - eexists. split; [apply lookup_insert_eq|]. split.
    + unfold get_or. rewrite lookup_insert_eq. reflexivity.
    + intros k Hk. apply lookup_insert_ne. congruence.
Qed.

(** X11. A counter that holds [None], text, a list or a dict makes
    [increment_counter] raise a [TypeError], and the store stays as it
    was. *)
Theorem counter_must_be_a_number
    (st : store) (call_sid counter_name : string) (ctx : dict) (x : pyval) :
  get_context st call_sid = Some ctx ->
  ctx !! counter_name = Some x ->
  (x = PNone \/ (exists s, x = PStr s) \/ (exists l, x = PList l)
   \/ exists d, x = PDict d) ->
  exists e, increment_counter st call_sid counter_name = (st, Raise e)
            /\ exn_class e = "TypeError".
Proof.
  unfold get_context. intros Hst Hx Hk. unfold increment_counter, get_or.
  rewrite Hst, Hx. cbn [default].
  destruct Hk as [-> | [[s ->] | [[l ->] | [d ->]]]];
    (eexists; split; reflexivity).
Qed.

(** X12. [set_current_node] on a known call: [get_current_node] then answers
    with that node, and the other keys of the context are as before.  A
    context without the key is at [n61]. *)
Theorem current_node_round_trip
    (st : store) (call_sid node_id : string) (ctx : dict) :
  get_context st call_sid = Some ctx ->
  get_current_node (set_current_node st call_sid node_id) call_sid
    = PStr node_id
  /\ get_context (set_current_node st call_sid node_id) call_sid
     = Some (<["current_node" := PStr node_id]> ctx)
  /\ (ctx !! "current_node" = None -> get_current_node st call_sid = PStr "n61").
Proof.
  unfold get_context. intros Hst.
  unfold get_current_node, set_current_node. rewrite Hst.
  rewrite lookup_insert_eq. unfold get_or. rewrite lookup_insert_eq.
  repeat split. intros ->. reflexivity.
Qed.

(** X13. [update_context] on a known call returns the context it stores, keeps
    every key the context had, and has nothing left to do when it is run
    again with the same updates. *)
Theorem update_context_is_idempotent
    (st : store) (call_sid : string) (updates ctx : dict) :
  get_context st call_sid = Some ctx ->
  let st' := fst (update_context st call_sid updates) in
  let ctx' := snd (update_context st call_sid updates) in
  ctx' = get_context st' call_sid
  /\ (forall k, is_Some (ctx !! k) -> exists ctx1,
         ctx' = Some ctx1 /\ is_Some (ctx1 !! k))
  /\ update_context st' call_sid updates = (st', ctx').
Proof.
  unfold get_context. intros Hst. cbv zeta.
  assert (E : update_context st call_sid updates
              = (<[call_sid := filtered_updates updates ∪ ctx]> st,
                 Some (filtered_updates updates ∪ ctx)))
    by (unfold update_context; rewrite Hst; reflexivity).
  rewrite E. cbn [fst snd].
  split; [symmetry; apply lookup_insert_eq|]. split.
  - intros k [x Hx]. eexists. split; [reflexivity|].
    destruct (filtered_updates updates !! k) as [y|] eqn:Ek.
    + exists y. apply lookup_union_Some_l, Ek.
    + exists x. rewrite lookup_union_r; assumption.
  - unfold update_context. rewrite lookup_insert_eq.
    rewrite (assoc_L (∪)), (idemp (∪) (filtered_updates updates)).
    rewrite insert_insert_eq. reflexivity.
Qed.

End WithBuiltins.

Lemma unknown_call_witness :
  increment_counter Sample.st_n32 "CA2" "dob_attempts"
  = (Sample.st_n32, Ok (PInt 0)).
Proof.
  apply (unknown_call_is_a_no_op Sample.sample_builtins Sample.st_n32 "CA2"
           ∅ "" "" "" "dob_attempts" 1).
  reflexivity.
Defined.

Lemma appended_entry_witness :
  get_transcript
    (fst (append_transcript Sample.sample_builtins
            {["CA1" := {["transcript" := PList [PStr "x"; PStr "y"]]}]}
            "CA1" "user" "hello")) "CA1" 2
  = Ok (PList [PStr "y"; transcript_entry Sample.sample_builtins "user" "hello"]).
Proof.
  apply (appended_entry_is_returned_last Sample.sample_builtins
           {["CA1" := {["transcript" := PList [PStr "x"; PStr "y"]]}]}
           "CA1" "user" "hello" {["transcript" := PList [PStr "x"; PStr "y"]]}
           [PStr "x"; PStr "y"] 2);
    [reflexivity | reflexivity | lia].
Defined.

Lemma append_needs_a_list_witness :
  exists e,
    append_transcript Sample.sample_builtins Sample.st_n32 "CA1" "user" "hello"
    = (Sample.st_n32, Raise e).
Proof.
  apply (append_needs_a_list_transcript Sample.sample_builtins Sample.st_n32
           "CA1" "user" "hello" {["current_node" := PStr "n32"]}).
  - reflexivity.
  - intros entries. vm_compute. discriminate.
Defined.

Lemma counter_counts_witness :
  exists ctx',
    get_context (increments Sample.st_n32 "CA1" "dob_attempts" 5) "CA1"
      = Some ctx'
    /\ get_or ctx' "dob_attempts" (PInt 0) = PInt 5.
Proof.
  destruct (counter_counts Sample.st_n32 "CA1" "dob_attempts"
              {["current_node" := PStr "n32"]} 0 5) as (_ & ctx' & H1 & H2 & _);
    [reflexivity | reflexivity |].
  exists ctx'. split; [exact H1 | exact H2].
Defined.

Lemma counter_must_be_a_number_witness :
  exists e,
    increment_counter {["CA1" := {["party_name" := PNone]}]} "CA1" "party_name"
    = ({["CA1" := {["party_name" := PNone]}]}, Raise e)
    /\ exn_class e = "TypeError".
Proof.
  apply (counter_must_be_a_number {["CA1" := {["party_name" := PNone]}]}
           "CA1" "party_name" {["party_name" := PNone]} PNone);
    [reflexivity | reflexivity | left; reflexivity].
Defined.

Lemma current_node_witness :
  get_current_node (set_current_node Sample.st_n32 "CA1" "n22") "CA1"
  = PStr "n22".
Proof.
  apply (current_node_round_trip Sample.st_n32 "CA1" "n22"
           {["current_node" := PStr "n32"]}).
  reflexivity.
Defined.

Lemma update_idempotent_witness :
  update_context
    (fst (update_context Sample.st_n32 "CA1" {["language" := PStr "es"]}))
    "CA1" {["language" := PStr "es"]}
  = (fst (update_context Sample.st_n32 "CA1" {["language" := PStr "es"]}),
     snd (update_context Sample.st_n32 "CA1" {["language" := PStr "es"]})).
Proof.
  apply (update_context_is_idempotent Sample.st_n32 "CA1"
           {["language" := PStr "es"]} {["current_node" := PStr "n32"]}).
  reflexivity.
Defined.

End StoreFacts.

(* ================================================================== *)
(** * Properties of the store with its list objects *)
(* ================================================================== *)

Module SharedStoreFacts.
Import Py Host SharedStore SharedSpec.

Section WithBuiltins.
Variable B : builtins.

Lemma view_same_lists (m m' : manager) other :
  contexts m' !! other = contexts m !! other -> lists m' = lists m ->
  view m' other = view m other.
Proof. unfold view. intros -> ->. reflexivity. Qed.

Lemma fresh_context_lists call_sid a k a' :
  fresh_context B call_sid a !! k = Some (IList a') ->
  k = "transcript" /\ a' = a.
Proof.
  unfold fresh_context. rewrite lookup_fmap.
  destruct (ContextStore.fresh_context B call_sid !! k) as [x|] eqn:E;
    [|discriminate].
  apply elem_of_list_to_map_2 in E.
  repeat (apply elem_of_cons in E as [E|E];
          [injection E as -> ->; cbn; try discriminate|]).
  - intros [= <-]. auto.
  - apply elem_of_nil in E. contradiction.
Qed.

Lemma fresh_address (m : manager) : lists m !! fresh (dom (lists m)) = None.
Proof. apply not_elem_of_dom, is_fresh. Qed.

(** While the transcript of a call is a list no other key and no other
    call holds, appending to it in place shows as the value model of the
    store has it. *)
Lemma append_shows (m : manager) (call_sid role content : string) :
  (forall a, transcript_at m call_sid a -> held_once m call_sid a) ->
  ContextStore.append_transcript B (shows m) call_sid role content
  = (shows (fst (append_transcript B m call_sid role content)),
     snd (append_transcript B m call_sid role content)).
Proof.
  intros Hown.
  unfold ContextStore.append_transcript, append_transcript, shows.
  rewrite lookup_fmap.
  destruct (contexts m !! call_sid) as [ctx|] eqn:Hc; cbn [fmap option_fmap option_map];
    [|reflexivity].
  rewrite lookup_fmap.
  destruct (ctx !! "transcript") as [i|] eqn:Ht; cbn [fmap option_fmap option_map];
    [|reflexivity].
  destruct i; try reflexivity.
  cbn [shown fst snd contexts lists]. f_equal.
  specialize (Hown a (ex_intro _ ctx (conj Hc Ht))).
  apply map_eq. intros c. rewrite lookup_fmap.
  destruct (decide (c = call_sid)) as [->|Hne].
  - rewrite lookup_insert_eq, Hc. cbn. f_equal.
    apply map_eq. intros k. rewrite lookup_fmap.
    destruct (decide (k = "transcript")) as [->|Hk].
    + rewrite lookup_insert_eq, Ht. cbn. rewrite lookup_insert_eq.
      reflexivity.
    + rewrite lookup_insert_ne by congruence. rewrite lookup_fmap.
      destruct (ctx !! k) as [i|] eqn:Hi; [|reflexivity]. cbn. f_equal.
      destruct i; try reflexivity. cbn.
      rewrite lookup_insert_ne; [reflexivity|].
      intros ->. destruct (Hown _ _ _ Hc Hi) as [_ ?]. contradiction.
  - rewrite lookup_insert_ne by congruence. rewrite lookup_fmap.
    destruct (contexts m !! c) as [ctx_c|] eqn:Hcc; [|reflexivity].
    cbn. f_equal. apply map_fmap_ext. intros k i Hi.
    destruct i; try reflexivity. cbn.
    rewrite lookup_insert_ne; [reflexivity|].
    intros ->. destruct (Hown _ _ _ Hcc Hi) as [? _]. contradiction.
Qed.

(** X5. The operations on one call and the context of another call, as a
    reader of that context sees it, the lists read through.  Creating,
    updating, setting the node, counting and deleting assign to the dict
    of the call alone, and the other context shows what it showed.
    [append_transcript] changes a list object in place: the other context
    shows what it showed when it does not hold that object, and shows the
    new entry too when it holds it, under whatever key.  A context
    created from initial data without lists holds one list, which no
    context did hold. *)
Theorem other_calls_are_untouched
    (m : manager) (call_sid other : string) (d : gmap string item)
    (role content node_id counter_name : string) :
  call_sid <> other ->
  view (fst (create_context B m call_sid d)) other = view m other
  /\ view (fst (update_context m call_sid d)) other = view m other
  /\ view (set_current_node m call_sid node_id) other = view m other
  /\ view (fst (increment_counter m call_sid counter_name)) other
     = view m other
  /\ view (fst (delete_context m call_sid)) other = view m other
  /\ ((forall a, transcript_at m call_sid a -> ~ holds m other a) ->
      view (fst (append_transcript B m call_sid role content)) other
      = view m other)
  /\ (forall a ctx k,
        transcript_at m call_sid a ->
        contexts m !! other = Some ctx -> ctx !! k = Some (IList a) ->
        exists ctx',
          view (fst (append_transcript B m call_sid role content)) other
          = Some ctx'
          /\ ctx' !! k
             = Some (PList (default [] (lists m !! a)
                            ++ [StoreSpec.transcript_entry B role content])))
  /\ (flat d -> allocated m ->
      forall a, holds (fst (create_context B m call_sid d)) call_sid a ->
        transcript_at (fst (create_context B m call_sid d)) call_sid a
        /\ ~ holds (fst (create_context B m call_sid d)) other a)
  /\ ((forall a, transcript_at m call_sid a -> held_once m call_sid a) ->
      ContextStore.append_transcript B (shows m) call_sid role content
      = (shows (fst (append_transcript B m call_sid role content)),
         snd (append_transcript B m call_sid role content))).
Proof.
  intros Hne.
  split; [|split; [|split; [|split; [|split; [|split; [|split; [|split]]]]]]];
    [| | | | | | | |apply append_shows].
  - unfold view, create_context. cbn [fst contexts lists].
    rewrite lookup_insert_ne by exact Hne.
    destruct (contexts m !! other) as [ctx|]; [|reflexivity].
    cbn. f_equal. apply map_fmap_ext. intros k [] _; try reflexivity.
    cbn. destruct (decide (fresh (dom (lists m)) = a)) as [<-|Ha].
    + rewrite lookup_insert_eq, fresh_address. reflexivity.
    + rewrite lookup_insert_ne by exact Ha. reflexivity.
  - apply view_same_lists; unfold update_context;
      destruct (contexts m !! call_sid); try reflexivity.
    apply lookup_insert_ne, Hne.
  - apply view_same_lists; unfold set_current_node;
      destruct (contexts m !! call_sid); try reflexivity.
    apply lookup_insert_ne, Hne.
  - apply view_same_lists; unfold increment_counter;
      destruct (contexts m !! call_sid) as [ctx|]; try reflexivity;
      destruct (add_one _); try reflexivity.
    apply lookup_insert_ne, Hne.
  - apply view_same_lists; [|reflexivity]. apply lookup_delete_ne, Hne.
  - intros Hsep. unfold append_transcript.
    destruct (contexts m !! call_sid) as [ctx|] eqn:Hc; [|reflexivity].
    destruct (ctx !! "transcript") as [[]|] eqn:Ht; try reflexivity.
    unfold view. cbn [fst contexts lists].
    destruct (contexts m !! other) as [ctx_o|] eqn:Ho; [|reflexivity].
    cbn. f_equal. apply map_fmap_ext. intros k [] Hk; try reflexivity.
    cbn. rewrite lookup_insert_ne; [reflexivity|].
    intros ->. apply (Hsep a0).
    + exists ctx. auto.
    + exists ctx_o, k. auto.
  - intros a ctx k (ctx_s & Hc & Ht) Ho Hk. unfold append_transcript.
    rewrite Hc, Ht. unfold view. cbn [fst contexts lists]. rewrite Ho.
    eexists. split; [reflexivity|].
    rewrite lookup_fmap, Hk. cbn. rewrite lookup_insert_eq. reflexivity.
  - intros Hflat Halloc a (ctx & k & Hc & Hk).
    unfold create_context in *. cbn [fst contexts lists] in *.
    rewrite lookup_insert_eq in Hc. injection Hc as <-.
    assert (Hk' := Hk).
    apply lookup_union_Some_raw in Hk' as [Hk'|[_ Hk']];
      [exfalso; exact (Hflat k a Hk')|].
    apply fresh_context_lists in Hk' as [-> ->]. split.
    + unfold transcript_at. cbn [contexts]. rewrite lookup_insert_eq.
      eexists. split; [reflexivity|exact Hk].
    + intros (ctx_o & k_o & Ho & Hko). cbn [contexts] in Ho.
      rewrite lookup_insert_ne in Ho by exact Hne.
      destruct (Halloc other _ (ex_intro _ ctx_o (ex_intro _ k_o (conj Ho Hko))))
        as [l Hl].
      rewrite fresh_address in Hl. discriminate.
Qed.


End WithBuiltins.

Lemma other_calls_witness :
  view (fst (append_transcript Sample.sample_builtins two_calls
               "CA1" "user" "hello")) "CA2"
  = Some {["transcript" := PList [PStr "hi"]; "party_name" := PStr "Bo"]}
  /\ (let copy := default ∅ (get_context two_calls "CA1") in
      let shared := fst (update_context two_calls "CA2" copy) in
      exists ctx',
        view (fst (append_transcript Sample.sample_builtins shared
                     "CA1" "user" "hello")) "CA2" = Some ctx'
        /\ ctx' !! "transcript"
           = Some (PList [StoreSpec.transcript_entry Sample.sample_builtins
                            "user" "hello"])).
Proof.
  split.
  - destruct (other_calls_are_untouched Sample.sample_builtins two_calls
                "CA1" "CA2" ∅ "user" "hello" "n61" "dob_attempts")
      as (_ & _ & _ & _ & _ & Hsep & _); [discriminate|].
    rewrite Hsep; [vm_compute; reflexivity|].
    intros a (ctx & Hc & Ht) (ctx' & k & Hc' & Hk).
    unfold two_calls in *. cbn [contexts] in *.
    rewrite lookup_insert_eq in Hc. injection Hc as <-.
    rewrite lookup_insert_eq in Ht. injection Ht as <-.
    rewrite lookup_insert_ne in Hc' by discriminate.
    rewrite lookup_singleton_eq in Hc'. injection Hc' as <-.
    apply lookup_insert_Some in Hk as [[_ Hk]|[_ Hk]]; [discriminate Hk|].
    apply lookup_singleton_Some in Hk as [_ Hk]. discriminate Hk.
  - cbv zeta.
    destruct (other_calls_are_untouched Sample.sample_builtins
                (fst (update_context two_calls "CA2"
                        (default ∅ (get_context two_calls "CA1"))))
                "CA1" "CA2" ∅ "user" "hello" "n61" "dob_attempts")
      as (_ & _ & _ & _ & _ & _ & Hshared & _); [discriminate|].
    apply (Hshared 0%nat
             {["transcript" := IList 0%nat; "current_node" := IStr "n61";
               "party_name" := IStr "Bo"]} "transcript").
    + eexists. split; vm_compute; reflexivity.
    + vm_compute. reflexivity.
    + reflexivity.
Defined.

End SharedStoreFacts.


(* ================================================================== *)
(** * Further properties of the template renderer *)
(* ================================================================== *)

Module MarkupFacts.
Import Py Host Re Render CleanSpec CleanFacts MarkupSpec.

(** ** Strings *)

Lemma length_app (s t : string) :
  String.length (s ++ t) = (String.length s + String.length t)%nat.
Proof.
  induction s as [|a s IH]; [reflexivity|].
  rewrite app_cons. cbn [String.length]. rewrite IH. reflexivity.
Qed.

Lemma app_assoc (s t u : string) : (s ++ t) ++ u = s ++ t ++ u.
Proof.
  induction s as [|a s IH]; [reflexivity|].
  rewrite !app_cons, IH. reflexivity.
Qed.

Lemma substring_prefix (s t : string) :
  substring 0 (String.length s) (s ++ t) = s.
Proof.
  induction s as [|a s IH].
  - destruct t; reflexivity.
  - rewrite app_cons. cbn [String.length substring]. rewrite IH. reflexivity.
Qed.

Lemma strip_prefix_app (p s : string) : strip_prefix p (p ++ s) = Some s.
Proof.
  induction p as [|a p IH]; [reflexivity|].
  rewrite app_cons. cbn [strip_prefix]. rewrite Ascii.eqb_refl. exact IH.
Qed.

Lemma plain_app (s t : string) : plain (s ++ t) = plain s && plain t.
Proof.
  induction s as [|a s IH]; [reflexivity|].
  rewrite app_cons. cbn [plain]. rewrite IH, andb_assoc. reflexivity.
Qed.

Lemma brace_eqb (a : ascii) :
  is_brace a = false -> Ascii.eqb "{" a = false.
Proof.
  intros H. destruct (Ascii.eqb_spec "{"%char a) as [<-|]; [|reflexivity].
  vm_compute in H. discriminate.
Qed.

Lemma word_class (a : ascii) :
  is_word a = true ->
  is_space a = false /\ is_brace a = false /\ Ascii.eqb "%" a = false
  /\ Ascii.eqb "}" a = false.
Proof.
  destruct a as [[] [] [] [] [] [] [] []]; vm_compute; intros H;
    first [discriminate H | repeat split].
Qed.

Lemma word_chars_plain (s : string) : word_chars s = true -> plain s = true.
Proof.
  induction s as [|a s IH]; [reflexivity|]. cbn [word_chars plain].
  intros H. apply andb_prop in H as [Ha Hs].
  destruct (word_class a Ha) as (_ & -> & _). exact (IH Hs).
Qed.

Lemma word_chars_app (s t : string) :
  word_chars (s ++ t) = word_chars s && word_chars t.
Proof.
  induction s as [|a s IH]; [reflexivity|].
  rewrite app_cons. cbn [word_chars]. rewrite IH, andb_assoc. reflexivity.
Qed.

Lemma skip_leading_word (k rest : string) :
  word_chars k = true -> leading is_word rest = O ->
  skip_leading is_word (k ++ rest) = rest.
Proof.
  intros Hk Hr. induction k as [|a k IH].
  - rewrite app_nil_l. destruct rest as [|b rest]; [reflexivity|].
    cbn [leading] in Hr. cbn [skip_leading].
    destruct (is_word b); [discriminate|reflexivity].
  - cbn [word_chars] in Hk. apply andb_prop in Hk as [Ha Hk].
    rewrite app_cons. cbn [skip_leading]. rewrite Ha. exact (IH Hk).
Qed.

(** ** The engine *)

Section Engine.
Context {R : Type}.

Lemma more_greedy_stop cls (k : string -> option R) s :
  leading cls s = O -> more_greedy cls k s = k s.
Proof.
  destruct s as [|a s]; [reflexivity|]. cbn [leading more_greedy].
  destruct (cls a); [discriminate|reflexivity].
Qed.

Lemma more_greedy_reach cls (k : string -> option R) s r :
  k (skip_leading cls s) = Some r -> more_greedy cls k s = Some r.
Proof.
  induction s as [|a s IH]; cbn [skip_leading more_greedy]; [auto|].
  destruct (cls a); [|auto]. intros H. rewrite (IH H). reflexivity.
Qed.

Lemma more_lazy_here cls (k : string -> option R) s r :
  k s = Some r -> more_lazy cls k s = Some r.
Proof. intros H. destruct s; cbn [more_lazy]; rewrite H; reflexivity. Qed.

Lemma more_lazy_plain (k : string -> option R) body s :
  plain body = true ->
  (forall a t, is_brace a = false -> k (String a t) = None) ->
  more_lazy any_char k (body ++ s) = more_lazy any_char k s.
Proof.
  intros Hb Hk. induction body as [|a body IH]; [reflexivity|].
  cbn [plain] in Hb. apply andb_prop in Hb as [Ha Hb].
  apply negb_true_iff in Ha.
  rewrite app_cons. cbn [more_lazy]. rewrite (Hk a _ Ha). exact (IH Hb).
Qed.

End Engine.

Lemma match_at_not_brace r a s :
  opens_with_brace r -> is_brace a = false -> match_at r (String a s) = None.
Proof.
  intros (p & r2 & ->) Ha. unfold match_at. cbn [rmatch strip_prefix].
  rewrite (brace_eqb a Ha). reflexivity.
Qed.

Lemma match_at_empty r : opens_with_brace r -> match_at r "" = None.
Proof. intros (p & r2 & ->). reflexivity. Qed.

Lemma sub_prefix r repl pre s :
  opens_with_brace r -> plain pre = true ->
  sub_from r repl O (pre ++ s) = pre ++ sub_from r repl O s.
Proof.
  intros Hr Hp. induction pre as [|a pre IH]; [reflexivity|].
  cbn [plain] in Hp. apply andb_prop in Hp as [Ha Hp].
  apply negb_true_iff in Ha.
  rewrite !app_cons. cbn [sub_from].
  rewrite (match_at_not_brace r a _ Hr Ha), (IH Hp). reflexivity.
Qed.

Lemma findall_prefix r pre s :
  opens_with_brace r -> plain pre = true ->
  findall_from r O (pre ++ s) = findall_from r O s.
Proof.
  intros Hr Hp. induction pre as [|a pre IH]; [reflexivity|].
  cbn [plain] in Hp. apply andb_prop in Hp as [Ha Hp].
  apply negb_true_iff in Ha.
  rewrite !app_cons. cbn [findall_from].
  rewrite (match_at_not_brace r a _ Hr Ha). exact (IH Hp).
Qed.

Lemma sub_plain r repl s :
  opens_with_brace r -> plain s = true -> re_sub r repl s = s.
Proof.
  intros Hr Hs. unfold re_sub.
  rewrite <- (string_app_nil_r s) at 1. rewrite (sub_prefix r repl s "" Hr Hs).
  cbn [sub_from]. rewrite (match_at_empty r Hr). apply string_app_nil_r.
Qed.

Lemma findall_plain r s :
  opens_with_brace r -> plain s = true -> re_findall r s = [].
Proof.
  intros Hr Hs. unfold re_findall.
  rewrite <- (string_app_nil_r s). rewrite (findall_prefix r s "" Hr Hs).
  cbn [findall_from]. rewrite (match_at_empty r Hr). reflexivity.
Qed.

Lemma sub_skip r repl p s :
  sub_from r repl (String.length p) (p ++ s) = sub_from r repl O s.
Proof.
  induction p as [|a p IH]; [reflexivity|].
  rewrite app_cons. cbn [String.length sub_from]. exact IH.
Qed.

Lemma findall_skip r p s :
  findall_from r (String.length p) (p ++ s) = findall_from r O s.
Proof.
  induction p as [|a p IH]; [reflexivity|].
  rewrite app_cons. cbn [String.length findall_from]. exact IH.
Qed.

(** A match [m] at the start is replaced, and the scan goes on after
    it. *)
Lemma sub_match r repl a m cap rest :
  match_at r (String a m ++ rest) = Some (String.length (String a m), cap) ->
  sub_from r repl O (String a m ++ rest)
  = repl cap ++ sub_from r repl O rest.
Proof.
  intros H. rewrite app_cons in *. cbn [sub_from]. rewrite H.
  cbn [String.length]. rewrite sub_skip. reflexivity.
Qed.

Lemma findall_match r a m cap rest :
  match_at r (String a m ++ rest) = Some (String.length (String a m), cap) ->
  findall_from r O (String a m ++ rest)
  = default "" cap :: findall_from r O rest.
Proof.
  intros H. rewrite app_cons in *. cbn [findall_from]. rewrite H.
  cbn [String.length Nat.pred]. rewrite findall_skip. reflexivity.
Qed.

(** ** The patterns on well-formed markers *)

Lemma name_head (X : string) :
  name X = true ->
  exists a X', X = String a X' /\ is_word a = true /\ word_chars X' = true.
Proof.
  unfold name. destruct X as [|a X']; [discriminate|]. cbn [word_chars].
  intros H. apply andb_prop in H as [_ H]. apply andb_prop in H as [Ha HX].
  eauto.
Qed.

Lemma name_no_space (X rest : string) :
  name X = true -> leading is_space (X ++ rest) = O.
Proof.
  intros H. destruct (name_head X H) as (a & X' & -> & Ha & _).
  rewrite app_cons. cbn [leading].
  destruct (word_class a Ha) as (-> & _). reflexivity.
Qed.

Section Patterns.
Context {R : Type}.

Lemma rmatch_lit p s cap (K : string -> option string -> option R) r :
  rmatch (Cat (Lit p) r) (p ++ s) cap K = rmatch r s cap K.
Proof. cbn [rmatch]. rewrite strip_prefix_app. reflexivity. Qed.

Lemma rmatch_last_lit p s cap (K : string -> option string -> option R) :
  rmatch (Lit p) (p ++ s) cap K = K s cap.
Proof. cbn [rmatch]. rewrite strip_prefix_app. reflexivity. Qed.

Lemma rmatch_no_spaces s cap (K : string -> option string -> option R) r :
  leading is_space s = O ->
  rmatch (Cat spaces r) s cap K = rmatch r s cap K.
Proof.
  intros H. unfold spaces. cbn [rmatch eat].
  rewrite (more_greedy_stop _ _ _ H). reflexivity.
Qed.

(** [(\w+)] on a name that something other than a word character
    follows: the group takes the name whenever the rest of the pattern
    matches after it. *)
Lemma rmatch_name X rest cap (K : string -> option string -> option R) r res :
  name X = true -> leading is_word rest = O ->
  rmatch r rest (Some X) K = Some res ->
  rmatch (Cat (Group (Rep is_word 1 true)) r) (X ++ rest) cap K = Some res.
Proof.
  intros HX Hr Hres. destruct (name_head X HX) as (a & X' & -> & Ha & HX').
  cbn [rmatch]. rewrite app_cons. cbn [eat]. rewrite Ha.
  apply more_greedy_reach.
  rewrite (skip_leading_word X' rest HX' Hr).
  replace (String.length (String a (X' ++ rest)) - String.length rest)%nat
    with (String.length (String a X'))
    by (cbn [String.length]; rewrite length_app; lia).
  rewrite <- app_cons, substring_prefix. exact Hres.
Qed.

(** [.*?] over text without a brace, before a continuation that wants
    one. *)
Lemma rmatch_lazy_body body s cap (K : string -> option string -> option R)
    p r res :
  plain body = true ->
  rmatch (Cat (Lit (String "{" p)) r) s cap K = Some res ->
  rmatch (Cat (Rep any_char 0 false) (Cat (Lit (String "{" p)) r))
    (body ++ s) cap K = Some res.
Proof.
  intros Hb Hres. cbn [rmatch eat strip_prefix].
  rewrite more_lazy_plain; [|exact Hb|].
  - apply more_lazy_here. exact Hres.
  - intros a t Ha. rewrite (brace_eqb a Ha). reflexivity.
Qed.

Lemma rmatch_lazy_group body s cap (K : string -> option string -> option R)
    p r res :
  plain body = true ->
  rmatch (Cat (Lit (String "{" p)) r) s (Some body) K = Some res ->
  rmatch (Cat (Group (Rep any_char 0 false)) (Cat (Lit (String "{" p)) r))
    (body ++ s) cap K = Some res.
Proof.
  intros Hb Hres. cbn [rmatch eat strip_prefix].
  rewrite more_lazy_plain; [|exact Hb|].
  - apply more_lazy_here.
    replace (String.length (body ++ s) - String.length s)%nat
      with (String.length body) by (rewrite length_app; lia).
    rewrite substring_prefix. exact Hres.
  - intros a t Ha. rewrite (brace_eqb a Ha). reflexivity.
Qed.

End Patterns.

Ltac name_continuation K :=
  match goal with |- rmatch _ _ _ ?k = _ => set (K := k) end.

Ltac matched_length K :=
  subst K; cbv beta; unfold open_tag, close_tag, placeholder;
  do 2 f_equal; rewrite ?length_app; lia.

Lemma match_delimited op cl X rest :
  name X = true ->
  leading is_space (cl ++ rest) = O -> leading is_word (cl ++ rest) = O ->
  match_at (seq [Lit op; spaces; Group (Rep is_word 1 true); spaces; Lit cl])
    ((op ++ X ++ cl) ++ rest)
  = Some (String.length (op ++ X ++ cl), Some X).
Proof.
  intros HX Hs Hw. unfold match_at. cbn [seq]. name_continuation K.
  rewrite !app_assoc.
  rewrite rmatch_lit, (rmatch_no_spaces _ _ _ _ (name_no_space X _ HX)).
  apply rmatch_name; [exact HX|exact Hw|].
  rewrite (rmatch_no_spaces _ _ _ _ Hs), rmatch_last_lit.
  matched_length K.
Qed.

Lemma match_open_tag X rest :
  name X = true ->
  match_at tag_pattern (open_tag X ++ rest)
  = Some (String.length (open_tag X), Some X).
Proof. intros HX. apply (match_delimited "{%" "%}" X rest HX); reflexivity. Qed.

Lemma name_end X : word_chars X = true -> name ("end" ++ X) = true.
Proof. intros H. unfold name. cbn. exact H. Qed.

Lemma match_close_tag X rest :
  word_chars X = true ->
  match_at tag_pattern (close_tag X ++ rest)
  = Some (String.length (close_tag X), Some ("end" ++ X)).
Proof.
  intros HX.
  apply (match_delimited "{%" "%}" ("end" ++ X) rest (name_end X HX));
    reflexivity.
Qed.

Lemma match_placeholder k rest :
  name k = true ->
  match_at var_pattern (placeholder k ++ rest)
  = Some (String.length (placeholder k), Some k).
Proof. intros Hk. apply (match_delimited "{{" "}}" k rest Hk); reflexivity. Qed.

Lemma match_keep X body rest :
  name X = true -> plain body = true ->
  match_at (keep_pattern X) ((open_tag X ++ body ++ close_tag X) ++ rest)
  = Some (String.length (open_tag X ++ body ++ close_tag X), Some body).
Proof.
  intros HX Hb. unfold match_at, keep_pattern. cbn [seq]. name_continuation K.
  unfold open_tag, close_tag. rewrite !app_assoc.
  rewrite rmatch_lit, (rmatch_no_spaces _ _ _ _ (name_no_space X _ HX)).
  rewrite rmatch_lit, rmatch_no_spaces by reflexivity.
  rewrite rmatch_lit.
  apply rmatch_lazy_group; [exact Hb|].
  rewrite rmatch_lit, rmatch_no_spaces by reflexivity.
  rewrite !rmatch_lit, rmatch_no_spaces by reflexivity.
  rewrite rmatch_last_lit.
  matched_length K.
Qed.

Lemma match_remove X body rest :
  name X = true -> plain body = true ->
  match_at (remove_pattern X) ((open_tag X ++ body ++ close_tag X) ++ rest)
  = Some (String.length (open_tag X ++ body ++ close_tag X), None).
Proof.
  intros HX Hb. unfold match_at, remove_pattern. cbn [seq]. name_continuation K.
  unfold open_tag, close_tag. rewrite !app_assoc.
  rewrite rmatch_lit, (rmatch_no_spaces _ _ _ _ (name_no_space X _ HX)).
  rewrite rmatch_lit, rmatch_no_spaces by reflexivity.
  rewrite rmatch_lit.
  apply rmatch_lazy_body; [exact Hb|].
  rewrite rmatch_lit, rmatch_no_spaces by reflexivity.
  rewrite !rmatch_lit, rmatch_no_spaces by reflexivity.
  rewrite rmatch_last_lit.
  matched_length K.
Qed.

Lemma sub_match_at r repl m cap rest :
  m <> "" ->
  match_at r (m ++ rest) = Some (String.length m, cap) ->
  sub_from r repl O (m ++ rest) = repl cap ++ sub_from r repl O rest.
Proof. destruct m; [contradiction|]. intros _. apply sub_match. Qed.

Lemma findall_match_at r m cap rest :
  m <> "" ->
  match_at r (m ++ rest) = Some (String.length m, cap) ->
  findall_from r O (m ++ rest) = default "" cap :: findall_from r O rest.
Proof. destruct m; [contradiction|]. intros _. apply findall_match. Qed.

Lemma findall_step r a s :
  match_at r (String a s) = None ->
  findall_from r O (String a s) = findall_from r O s.
Proof. intros H. cbn [findall_from]. rewrite H. reflexivity. Qed.

Lemma tag_pattern_opens : opens_with_brace tag_pattern.
Proof. eexists _, _. reflexivity. Qed.
Lemma var_pattern_opens : opens_with_brace var_pattern.
Proof. eexists _, _. reflexivity. Qed.
Lemma keep_pattern_opens X : opens_with_brace (keep_pattern X).
Proof. eexists _, _. reflexivity. Qed.
Lemma remove_pattern_opens X : opens_with_brace (remove_pattern X).
Proof. eexists _, _. reflexivity. Qed.

Section WithBuiltins.
Variable B : builtins.

Lemma set_iter_empty : set_iter B [] = [].
Proof.
  destruct (set_iter B []) as [|x l] eqn:E; [reflexivity|].
  assert (H : x ∈ set_iter B []) by (rewrite E; apply list_elem_of_here).
  apply set_iter_elem in H. inversion H.
Qed.

Lemma process_conditionals_plain t ctx :
  re_findall tag_pattern t = [] -> process_conditionals B t ctx = Ok t.
Proof.
  intros H. unfold process_conditionals. rewrite H, set_iter_empty.
  reflexivity.
Qed.

Lemma substitute_variables_plain t ctx :
  plain t = true -> substitute_variables B t ctx = Ok t.
Proof.
  intros H. unfold substitute_variables. destruct ctx as [d|].
  - rewrite (sub_plain _ _ _ var_pattern_opens H). reflexivity.
  - unfold re_search. rewrite (findall_plain _ _ var_pattern_opens H).
    reflexivity.
Qed.

(** X14. A template without an opening brace renders, in every context and
    with none, to its text with the whitespace normalised. *)
Theorem plain_text_is_only_cleaned (t : string) (ctx : option dict) :
  plain t = true ->
  render_template B t ctx = Ok (clean_whitespace t)
  /\ process_conditionals B t ctx = Ok t
  /\ substitute_variables B t ctx = Ok t.
Proof.
  intros H.
  pose proof (process_conditionals_plain t ctx
                (findall_plain _ _ tag_pattern_opens H)) as Hp.
  pose proof (substitute_variables_plain t ctx H) as Hs.
  split; [|split; assumption].
  unfold render_template. destruct (String.eqb t "") eqn:E.
  - apply String.eqb_eq in E. subst t. reflexivity.
  - rewrite Hp. cbn [bind]. rewrite Hs. reflexivity.
Qed.

(** *** One conditional block *)

Lemma block_regroup X body post :
  open_tag X ++ body ++ close_tag X ++ post
  = (open_tag X ++ body ++ close_tag X) ++ post.
Proof. rewrite !app_assoc. reflexivity. Qed.

Lemma open_tag_not_empty X : open_tag X <> "".
Proof. discriminate. Qed.

Lemma close_tag_not_empty X : close_tag X <> "".
Proof. discriminate. Qed.

Lemma not_empty_app (s t : string) : t <> "" -> String.eqb (s ++ t) "" = false.
Proof.
  intros H. destruct s as [|a s]; [|reflexivity].
  rewrite app_nil_l. apply String.eqb_neq, H.
Qed.

Lemma one_block_tags pre X body post :
  name X = true -> plain pre = true -> plain body = true ->
  plain post = true ->
  re_findall tag_pattern (one_block pre X body post) = [X; "end" ++ X].
Proof.
  intros HX Hpre Hbody Hpost. unfold re_findall, one_block.
  assert (HX' : word_chars X = true)
    by (unfold name in HX; apply andb_prop in HX as [_ HX]; exact HX).
  rewrite (findall_prefix _ _ _ tag_pattern_opens Hpre).
  rewrite (findall_match_at _ _ _ _ (open_tag_not_empty X)
             (match_open_tag X _ HX)).
  rewrite (findall_prefix _ _ _ tag_pattern_opens Hbody).
  rewrite (findall_match_at _ _ _ _ (close_tag_not_empty X)
             (match_close_tag X _ HX')).
  change (findall_from tag_pattern 0 post) with (re_findall tag_pattern post).
  rewrite (findall_plain _ _ tag_pattern_opens Hpost). reflexivity.
Qed.

Lemma one_block_kept pre X body post :
  name X = true -> plain pre = true -> plain body = true ->
  plain post = true ->
  keep_block (one_block pre X body post) X = pre ++ body ++ post.
Proof.
  intros HX Hpre Hbody Hpost. unfold keep_block, re_sub, one_block.
  rewrite (sub_prefix _ _ _ _ (keep_pattern_opens X) Hpre), block_regroup.
  rewrite (sub_match_at _ _ (open_tag X ++ body ++ close_tag X) (Some body));
    [|discriminate|apply match_keep; assumption].
  change (sub_from (keep_pattern X) (fun cap => default "" cap) 0 post)
    with (re_sub (keep_pattern X) (fun cap => default "" cap) post).
  rewrite (sub_plain _ _ _ (keep_pattern_opens X) Hpost). reflexivity.
Qed.

Lemma one_block_removed pre X body post :
  name X = true -> plain pre = true -> plain body = true ->
  plain post = true ->
  remove_block (one_block pre X body post) X = pre ++ post.
Proof.
  intros HX Hpre Hbody Hpost. unfold remove_block, re_sub, one_block.
  rewrite (sub_prefix _ _ _ _ (remove_pattern_opens X) Hpre), block_regroup.
  rewrite (sub_match_at _ _ (open_tag X ++ body ++ close_tag X) None);
    [|discriminate|apply match_remove; assumption].
  change (sub_from (remove_pattern X) (fun _ => "") 0 post)
    with (re_sub (remove_pattern X) (fun _ => "") post).
  rewrite (sub_plain _ _ _ (remove_pattern_opens X) Hpost). reflexivity.
Qed.

Lemma not_its_own_end X : X <> "end" ++ X.
Proof.
  intros E. apply (f_equal String.length) in E.
  rewrite length_app in E. cbn in E. lia.
Qed.

(** The two tags of a block, in whichever order the set gives them, come
    to one turn of the loop for the opening tag. *)
Lemma for_tags_pair ctx X T :
  startswith "end" X = false ->
  for_tags B ctx (set_iter B [X; "end" ++ X]) T = process_tag B ctx X T.
Proof.
  intros Hs.
  assert (Hend : forall T', process_tag B ctx ("end" ++ X) T' = Ok T')
    by reflexivity.
  assert (Hcons : forall t rest T',
            for_tags B ctx (t :: rest) T' =
            bind (process_tag B ctx t T') (fun T'' => for_tags B ctx rest T''))
    by reflexivity.
  destruct (RenderFacts.set_iter_pair B X ("end" ++ X) (not_its_own_end X))
    as [-> | ->]; rewrite Hcons.
  - destruct (process_tag B ctx X T) as [T'|e]; [|reflexivity].
    cbn [bind]. rewrite Hcons, Hend. reflexivity.
  - rewrite Hend. cbn [bind]. rewrite Hcons.
    destruct (process_tag B ctx X T) as [T'|e]; reflexivity.
Qed.

(** X15. A template with one conditional block and no other marker, the name of
    the block any word that does not start with [end]: a name without a
    registered predicate keeps the block; a registered name keeps it when
    its predicate returns a true value, removes it with its tags when the
    value is false, and raises what the predicate raises. *)
Theorem one_block_is_kept_or_removed
    (pre X body post : string) (ctx : option dict) :
  name X = true -> startswith "end" X = false ->
  plain pre = true -> plain body = true -> plain post = true ->
  render_template B (one_block pre X body post) ctx =
  match CONDITIONAL_MAPPINGS B !! X with
  | Some predicate =>
      bind (predicate ctx)
        (fun x => Ok (clean_whitespace
                        (pre ++ (if truthy x then body else "") ++ post)))
  | None => Ok (clean_whitespace (pre ++ body ++ post))
  end.
Proof.
  intros HX Hs Hpre Hbody Hpost. unfold render_template.
  assert (Hne : String.eqb (one_block pre X body post) "" = false)
    by (apply not_empty_app; discriminate).
  rewrite Hne. unfold process_conditionals.
  rewrite (one_block_tags pre X body post HX Hpre Hbody Hpost).
  rewrite (for_tags_pair ctx X _ Hs). unfold process_tag. rewrite Hs.
  assert (Hk : plain (pre ++ body ++ post) = true)
    by (rewrite !plain_app, Hpre, Hbody, Hpost; reflexivity).
  assert (Hr : plain (pre ++ post) = true)
    by (rewrite plain_app, Hpre, Hpost; reflexivity).
  destruct (CONDITIONAL_MAPPINGS B !! X) as [predicate|].
  - destruct (predicate ctx) as [x|e]; [|reflexivity]. cbn [bind].
    destruct (truthy x); cbn [bind].
    + rewrite (one_block_kept pre X body post HX Hpre Hbody Hpost).
      rewrite (substitute_variables_plain _ ctx Hk). reflexivity.
    + rewrite (one_block_removed pre X body post HX Hpre Hbody Hpost).
      rewrite (substitute_variables_plain _ ctx Hr). reflexivity.
  - cbn [bind].
    rewrite (one_block_kept pre X body post HX Hpre Hbody Hpost).
    rewrite (substitute_variables_plain _ ctx Hk). reflexivity.
Qed.

(** *** One placeholder *)

Lemma rstrip_word (k : string) : word_chars k = true -> rstrip k = k.
Proof.
  induction k as [|a k IH]; [reflexivity|]. cbn [word_chars rstrip].
  intros H. apply andb_prop in H as [Ha Hk]. rewrite (IH Hk).
  destruct k; [|reflexivity].
  destruct (word_class a Ha) as (-> & _). reflexivity.
Qed.

Lemma strip_name (k : string) : word_chars k = true -> strip k = k.
Proof.
  intros H. unfold strip. rewrite (rstrip_word k H).
  destruct k as [|a k]; [reflexivity|]. cbn [word_chars] in H.
  apply andb_prop in H as [Ha _]. cbn [lstrip].
  destruct (word_class a Ha) as (-> & _). reflexivity.
Qed.

Lemma name_word_chars k : name k = true -> word_chars k = true.
Proof. unfold name. intros H. apply andb_prop in H as [_ H]. exact H. Qed.

Lemma placeholder_regroup k post :
  placeholder k ++ post = "{{" ++ k ++ "}}" ++ post.
Proof. unfold placeholder. rewrite !app_assoc. reflexivity. Qed.

Lemma one_placeholder_tags pre k post :
  name k = true -> plain pre = true -> plain post = true ->
  re_findall tag_pattern (one_placeholder pre k post) = [].
Proof.
  intros Hk Hpre Hpost. unfold re_findall, one_placeholder.
  rewrite (findall_prefix _ _ _ tag_pattern_opens Hpre), placeholder_regroup.
  destruct (name_head k Hk) as (a & k' & -> & Ha & Hk').
  destruct (word_class a Ha) as (_ & _ & Hpc & _).
  change ("{{" ++ String a k' ++ "}}" ++ post)
    with (String "{" (String "{" (String a (k' ++ "}}" ++ post)))).
  rewrite findall_step by reflexivity.
  rewrite findall_step
    by (unfold match_at, tag_pattern; cbn [seq rmatch strip_prefix];
        rewrite Hpc; reflexivity).
  change (String a (k' ++ "}}" ++ post))
    with (String a k' ++ "}}" ++ post).
  rewrite (findall_prefix _ _ _ tag_pattern_opens
             (word_chars_plain _ (name_word_chars _ Hk))).
  change (findall_from tag_pattern 0 ("}}" ++ post))
    with (re_findall tag_pattern ("}}" ++ post)).
  apply (findall_plain _ _ tag_pattern_opens). exact Hpost.
Qed.

Lemma placeholder_not_empty k : placeholder k <> "".
Proof. discriminate. Qed.

Lemma one_placeholder_found pre k post :
  name k = true -> plain pre = true ->
  re_search var_pattern (one_placeholder pre k post) = true.
Proof.
  intros Hk Hpre. unfold re_search, re_findall, one_placeholder.
  rewrite (findall_prefix _ _ _ var_pattern_opens Hpre).
  rewrite (findall_match_at _ _ _ _ (placeholder_not_empty k)
             (match_placeholder k post Hk)).
  reflexivity.
Qed.

Lemma one_placeholder_replaced repl pre k post :
  name k = true -> plain pre = true -> plain post = true ->
  re_sub var_pattern repl (one_placeholder pre k post)
  = pre ++ repl (Some k) ++ post.
Proof.
  intros Hk Hpre Hpost. unfold re_sub, one_placeholder.
  rewrite (sub_prefix _ _ _ _ var_pattern_opens Hpre).
  rewrite (sub_match_at _ _ _ _ _ (placeholder_not_empty k)
             (match_placeholder k post Hk)).
  change (sub_from var_pattern repl 0 post) with (re_sub var_pattern repl post).
  rewrite (sub_plain _ _ _ var_pattern_opens Hpost). reflexivity.
Qed.

(** X16. A template with one placeholder and no other marker: with a context
    the placeholder is replaced by [str] of the value under its name, by
    nothing when the key is missing or holds [None], and the text around it
    is left as it is; with no context the substitution raises. *)
Theorem one_placeholder_is_replaced
    (pre k post : string) (d : dict) :
  name k = true -> plain pre = true -> plain post = true ->
  substitute_variables B (one_placeholder pre k post) (Some d)
    = Ok (pre ++ shown B d k ++ post)
  /\ render_template B (one_placeholder pre k post) (Some d)
     = Ok (clean_whitespace (pre ++ shown B d k ++ post))
  /\ (exists e,
        substitute_variables B (one_placeholder pre k post) None = Raise e
        /\ render_template B (one_placeholder pre k post) None = Raise e
        /\ exn_class e = "AttributeError").
Proof.
  intros Hk Hpre Hpost.
  assert (Hsub : substitute_variables B (one_placeholder pre k post) (Some d)
                 = Ok (pre ++ shown B d k ++ post)).
  { unfold substitute_variables.
    rewrite (one_placeholder_replaced _ pre k post Hk Hpre Hpost).
    unfold replace_var, shown. cbv zeta.
    change (default "" (Some k)) with k.
    rewrite (strip_name k (name_word_chars k Hk)). reflexivity. }
  assert (Hne : String.eqb (one_placeholder pre k post) "" = false)
    by (apply not_empty_app; discriminate).
  assert (Hpc : forall ctx,
            process_conditionals B (one_placeholder pre k post) ctx
            = Ok (one_placeholder pre k post))
    by (intros ctx; apply process_conditionals_plain,
          one_placeholder_tags; assumption).
  split; [exact Hsub|]. split.
  - unfold render_template. rewrite Hne, Hpc. cbn [bind]. rewrite Hsub.
    reflexivity.
  - eexists. split; [|split].
    + unfold substitute_variables.
      rewrite (one_placeholder_found pre k post Hk Hpre). reflexivity.
    + unfold render_template. rewrite Hne, Hpc. cbn [bind].
      unfold substitute_variables.
      rewrite (one_placeholder_found pre k post Hk Hpre). reflexivity.
    + reflexivity.
Qed.

(** *** The registered predicates *)

Lemma negates_not_flag k a b :
  CONDITIONAL_MAPPINGS B !! a = Some (flag k) ->
  CONDITIONAL_MAPPINGS B !! b = Some (not_flag k) ->
  negates B a b.
Proof.
  intros Ha Hb. exists (flag k), (not_flag k). repeat split; try assumption.
  intros ctx. unfold flag, not_flag.
  destruct (oget_or ctx k (PBool false)); reflexivity.
Qed.

Lemma negates_not_set k a b :
  CONDITIONAL_MAPPINGS B !! a = Some (as_bool k) ->
  CONDITIONAL_MAPPINGS B !! b = Some (not_set k) ->
  negates B a b.
Proof.
  intros Ha Hb. exists (as_bool k), (not_set k). repeat split; try assumption.
  intros ctx. unfold as_bool, not_set.
  destruct (oget ctx k); reflexivity.
Qed.

Lemma negates_days_late n a b :
  CONDITIONAL_MAPPINGS B !! a = Some (days_late B (fun d => d <=? n)) ->
  CONDITIONAL_MAPPINGS B !! b = Some (days_late B (fun d => n <? d)) ->
  negates B a b.
Proof.
  intros Ha Hb. eexists _, _. repeat split; try eassumption.
  intros ctx. unfold days_late.
  destruct (oget_or ctx "DaysLate" (PInt 0)) as [x|e]; [|reflexivity].
  cbn [bind]. destruct (py_int B x) as [d|e]; [|reflexivity].
  cbn [bind truthy]. rewrite Z.ltb_antisym. reflexivity.
Qed.

(** X17. Each pair of [complementary_tags] is registered, and in every context
    the second predicate answers with the negation of the first: of the
    two blocks exactly one is kept whenever the predicates return. *)
Theorem complementary_tags_negate_each_other :
  Forall (fun '(a, b) => negates B a b) complementary_tags.
Proof.
  unfold complementary_tags.
  repeat apply List.Forall_cons; try apply List.Forall_nil.
  - apply (negates_not_set "AccountNumberLastFour"); reflexivity.
  - exists (fun ctx => _is_payment_today B ctx),
      (fun ctx => bind (_is_payment_today B ctx) (fun x => Ok (py_not x))).
    split; [reflexivity|]. split; [reflexivity|].
    intros ctx. destruct (_is_payment_today B ctx) as [x|e]; reflexivity.
  - exists (eq_to "RestrictAutoPayDraft" PNone (LStr "Y")),
      (ne_to "RestrictAutoPayDraft" (LStr "Y")).
    split; [reflexivity|]. split; [reflexivity|].
    intros ctx. unfold ne_to, eq_to, oget_or, oget, get_or, get.
    destruct ctx as [d|]; reflexivity.
  - apply (negates_days_late 15); reflexivity.
  - apply (negates_days_late 45); reflexivity.
  - apply (negates_not_flag "is_birthday"); reflexivity.
  - apply (negates_not_flag "is_anniversary"); reflexivity.
  - apply (negates_not_flag "appt_conflict"); reflexivity.
  - apply (negates_not_flag "name_match"); reflexivity.
  - apply (negates_not_set "AccountNumberLastFour"); reflexivity.
  - apply (negates_not_flag "affected_by_disaster"); reflexivity.
Qed.

(** *** The body of an API request *)

Lemma substitute_api_body_keys items : forall ctx (result body : dict),
  substitute_api_body B items ctx result = Ok body ->
  forall k, is_Some (body !! k) <-> is_Some (result !! k) \/ In k (map fst items).
Proof.
  induction items as [|[key value] rest IH]; intros ctx result body H k.
  - injection H as <-. cbn. tauto.
  - cbn [substitute_api_body] in H.
    destruct (substitute_variables B value ctx) as [v|e]; [|discriminate].
    cbn [bind] in H.
    destruct (convert_value B v) as [x|e]; [|discriminate].
    cbn [bind] in H. rewrite (IH _ _ _ H k). cbn [map fst In].
    destruct (decide (key = k)) as [->|Hne].
    + rewrite lookup_insert_eq. split; [auto|]. intros _. left. eauto.
    + rewrite lookup_insert_ne by exact Hne. tauto.
Qed.

Lemma substitute_api_body_other items : forall ctx (result body : dict) k,
  substitute_api_body B items ctx result = Ok body ->
  ~ In k (map fst items) -> body !! k = result !! k.
Proof.
  induction items as [|[key value] rest IH]; intros ctx result body k H Hk.
  - injection H as <-. reflexivity.
  - cbn [substitute_api_body] in H.
    destruct (substitute_variables B value ctx) as [v|e]; [|discriminate].
    cbn [bind] in H.
    destruct (convert_value B v) as [x|e]; [|discriminate].
    cbn [bind] in H. cbn [map fst In] in Hk.
    rewrite (IH _ _ _ k H) by tauto.
    apply lookup_insert_ne. tauto.
Qed.

Lemma substitute_api_body_item items : forall ctx (result body : dict) key value,
  substitute_api_body B items ctx result = Ok body ->
  NoDup (map fst items) -> In (key, value) items ->
  exists v x,
    substitute_variables B value ctx = Ok v /\ convert_value B v = Ok x /\
    body !! key = Some x.
Proof.
  induction items as [|[key0 value0] rest IH];
    intros ctx result body key value H Hnd Hin; [contradiction|].
  cbn [substitute_api_body] in H.
  destruct (substitute_variables B value0 ctx) as [v|e] eqn:Ev; [|discriminate].
  cbn [bind] in H.
  destruct (convert_value B v) as [x|e] eqn:Ex; [|discriminate].
  cbn [bind] in H. cbn [map fst] in Hnd. apply NoDup_cons in Hnd as [Hk Hnd].
  rewrite list_elem_of_In in Hk.
  destruct Hin as [[= -> ->]|Hin].
  - exists v, x. repeat split; try assumption.
    rewrite (substitute_api_body_other rest ctx _ body key H Hk).
    apply lookup_insert_eq.
  - exact (IH _ _ _ _ _ H Hnd Hin).
Qed.

(** X18. The body [substitute_api_body] builds from items with distinct keys has
    a value under the key of every item and under no other key: the value
    template with its placeholders replaced, then converted; [true] and
    [false], in any case, become the booleans. *)
Theorem api_body_has_the_declared_keys
    (items : list (string * string)) (ctx : option dict) (body : dict) :
  substitute_api_body B items ctx ∅ = Ok body ->
  NoDup (map fst items) ->
  (forall k, is_Some (body !! k) <-> In k (map fst items))
  /\ (forall key value, In (key, value) items ->
        exists v x,
          substitute_variables B value ctx = Ok v /\
          convert_value B v = Ok x /\ body !! key = Some x)
  /\ (forall v, lower v = "true" -> convert_value B v = Ok (PBool true))
  /\ (forall v, lower v = "false" -> convert_value B v = Ok (PBool false)).
Proof.
  intros H Hnd. split; [|split; [|split]].
  - intros k. rewrite (substitute_api_body_keys _ _ _ _ H k).
    rewrite lookup_empty. split; [intros [[x Hx]|Hk]; [discriminate|exact Hk]|auto].
  - intros key value Hin.
    exact (substitute_api_body_item items ctx ∅ body key value H Hnd Hin).
  - intros v Hv. unfold convert_value. rewrite Hv. reflexivity.
  - intros v Hv. unfold convert_value. rewrite Hv. reflexivity.
Qed.

End WithBuiltins.

Lemma plain_text_witness :
  render_template Sample.sample_builtins ("Hello," ++ NL ++ " " ++ NL) None
  = Ok "Hello,".
Proof.
  apply (proj1 (plain_text_is_only_cleaned Sample.sample_builtins
                  ("Hello," ++ NL ++ " " ++ NL) None eq_refl)).
Defined.

Lemma one_block_witness :
  render_template Sample.sample_builtins
    (one_block "Dear customer, " "vip" "thank you. " "Goodbye.") None
  = Ok "Dear customer, thank you. Goodbye.".
Proof.
  apply (one_block_is_kept_or_removed Sample.sample_builtins
           "Dear customer, " "vip" "thank you. " "Goodbye." None);
    reflexivity.
Defined.

Lemma one_placeholder_witness :
  render_template Sample.sample_builtins
    (one_placeholder "Hello " "FirstName" ", you owe: ")
    (Some {["FirstName" := PStr "Ann"]})
  = Ok "Hello Ann, you owe: ".
Proof.
  refine (eq_trans
            (proj1 (proj2 (one_placeholder_is_replaced Sample.sample_builtins
                             "Hello " "FirstName" ", you owe: "
                             {["FirstName" := PStr "Ann"]}
                             eq_refl eq_refl eq_refl))) _).
  vm_compute. reflexivity.
Defined.

Lemma api_body_witness :
  exists v x,
    substitute_variables Sample.sample_builtins "{{id}}"
      (Some {["id" := PStr "L-7"]}) = Ok v
    /\ convert_value Sample.sample_builtins v = Ok x
    /\ ({["loan" := PStr "L-7"; "confirm" := PBool true]} : dict) !! "loan"
       = Some x.
Proof.
  assert (H : substitute_api_body Sample.sample_builtins
                [("loan", "{{id}}"); ("confirm", "TRUE")]
                (Some {["id" := PStr "L-7"]}) ∅
              = Ok ({["loan" := PStr "L-7"; "confirm" := PBool true]} : dict))
    by (vm_compute; reflexivity).
  assert (Hnd : NoDup (map fst [("loan", "{{id}}"); ("confirm", "TRUE")]))
    by (apply (bool_decide_unpack _); vm_compute; reflexivity).
  exact (proj1 (proj2 (api_body_has_the_declared_keys Sample.sample_builtins
                         _ _ _ H Hnd)) "loan" "{{id}}" (or_introl eq_refl)).
Defined.

End MarkupFacts.

Module InspectFacts.
Import Py Host Re Render CleanSpec CleanFacts MarkupSpec MarkupFacts.

Lemma replace_end (X : string) :
  replace "end" "" ("end" ++ X) = replace "end" "" X.
Proof.
  unfold replace, re_sub.
  rewrite (sub_match_at (Lit "end") (fun _ => "") "end" None X);
    [reflexivity|discriminate|].
  unfold match_at. cbn [rmatch]. rewrite strip_prefix_app.
  rewrite length_app. do 2 f_equal. lia.
Qed.

Lemma one_block_variables pre X body post :
  name X = true -> plain pre = true -> plain body = true ->
  plain post = true ->
  re_findall var_pattern (one_block pre X body post) = [].
Proof.
  intros HX Hpre Hbody Hpost. unfold re_findall, one_block.
  pose proof (word_chars_plain X (name_word_chars X HX)) as HXp.
  pose proof var_pattern_opens as Hv.
  rewrite (findall_prefix _ _ _ Hv Hpre).
  unfold open_tag, close_tag. rewrite !app_assoc.
  change ("{%" ++ X ++ "%}" ++ body ++ "{%" ++ "end" ++ X ++ "%}" ++ post)
    with (String "{"
            ("%" ++ X ++ "%}" ++ body ++ "{%" ++ "end" ++ X ++ "%}" ++ post)).
  rewrite findall_step by reflexivity.
  rewrite (findall_prefix _ "%" _ Hv eq_refl), (findall_prefix _ X _ Hv HXp),
    (findall_prefix _ "%}" _ Hv eq_refl), (findall_prefix _ body _ Hv Hbody).
  change ("{%" ++ "end" ++ X ++ "%}" ++ post)
    with (String "{" ("%end" ++ X ++ "%}" ++ post)).
  rewrite findall_step by reflexivity.
  rewrite (findall_prefix _ "%end" _ Hv eq_refl), (findall_prefix _ X _ Hv HXp),
    (findall_prefix _ "%}" _ Hv eq_refl).
  apply (findall_plain _ _ Hv Hpost).
Qed.

Section WithBuiltins.
Variable B : builtins.

Lemma opening_tags_of_pair X :
  startswith "end" X = false ->
  List.filter (fun t => negb (startswith "end" t))
    (set_iter B [X; "end" ++ X]) = [X].
Proof.
  intros Hs.
  assert (He : startswith "end" ("end" ++ X) = true) by reflexivity.
  destruct (RenderFacts.set_iter_pair B X ("end" ++ X) (not_its_own_end X))
    as [-> | ->]; cbn [List.filter]; rewrite Hs, He; reflexivity.
Qed.

(** X19. A template with one conditional block and no other marker, as the
    inspection helpers see it: one conditional tag, no variable; and
    [validate_template] calls it valid exactly when the tag is registered
    and its name is left as it is by taking every [end] out of it. *)
Theorem one_block_is_inspected (pre X body post : string) :
  name X = true -> startswith "end" X = false ->
  plain pre = true -> plain body = true -> plain post = true ->
  let t := one_block pre X body post in
  get_conditional_tags B t = [X]
  /\ get_available_variables B t = []
  /\ conditional_tags (validate_template B t) = [X]
  /\ variables_used (validate_template B t) = []
  /\ valid (validate_template B t)
     = String.eqb (replace "end" "" X) X
       && bool_decide (is_Some (CONDITIONAL_MAPPINGS B !! X)).
Proof.
  intros HX Hs Hpre Hbody Hpost. cbv zeta.
  assert (He : startswith "end" ("end" ++ X) = true) by reflexivity.
  pose proof (one_block_tags pre X body post HX Hpre Hbody Hpost) as Ht.
  pose proof (one_block_variables pre X body post HX Hpre Hbody Hpost) as Hv.
  assert (Hvars : get_available_variables B (one_block pre X body post) = [])
    by (unfold get_available_variables; rewrite Hv; apply set_iter_empty).
  split; [|split; [exact Hvars|]].
  - unfold get_conditional_tags. rewrite Ht. apply opening_tags_of_pair, Hs.
  - unfold validate_template. rewrite Ht. cbn [List.filter]. rewrite Hs, He.
    cbn [negb List.filter map]. rewrite replace_end.
    cbn [conditional_tags variables_used valid].
    split; [reflexivity|]. split; [exact Hvars|].
    unfold is_in. cbn [existsb]. rewrite !orb_false_r.
    rewrite (String.eqb_sym X (replace "end" "" X)).
    destruct (String.eqb (replace "end" "" X) X);
      destruct (bool_decide (is_Some (CONDITIONAL_MAPPINGS B !! X)));
      reflexivity.
Qed.

End WithBuiltins.

Lemma one_block_inspected_witness :
  valid (validate_template Sample.sample_builtins
           (one_block "Hola. " "es" "Gracias. " "Adios."))
  = String.eqb (replace "end" "" "es") "es"
    && bool_decide
         (is_Some (CONDITIONAL_MAPPINGS Sample.sample_builtins !! "es")).
Proof.
  destruct (one_block_is_inspected Sample.sample_builtins
              "Hola. " "es" "Gracias. " "Adios.")
    as (_ & _ & _ & _ & H);
    [reflexivity | reflexivity | reflexivity | reflexivity | reflexivity |].
  exact H.
Defined.

End InspectFacts.


(* ================================================================== *)
(** * Further properties of the node engine *)
(* ================================================================== *)

Module TurnFacts.
Import Py Host Re Render ContextStore Transition Engine TransitionSpec.
Import StoreSpec TurnSpec.

Section WithEnvironment.
Variable B : builtins.
Variable W : services.
Variable nodes : gmap string node_def.

(** ** [extract_variables] *)

(** X20. With a context, [extract_variables] never raises; what it returns
    holds no [None], no ["N/A"] and no ["null"], and each of its entries
    is an entry of the object the model answered with.  A node without
    variables gives [{}] without a context too. *)
Theorem extraction_is_cleaned
    (node_id transcript : string) (c : dict) :
  (exists d,
     extract_variables W nodes node_id transcript (Some c) = Ok d
     /\ (forall k x, d !! k = Some x ->
           x <> PNone /\ x <> PStr "N/A" /\ x <> PStr "null"
           /\ exists vars r,
                llm_json W vars transcript c = Ok (PDict r)
                /\ r !! k = Some x))
  /\ ((forall node, nodes !! node_id = Some node -> node_variables node = []) ->
      forall ctx, extract_variables W nodes node_id transcript ctx = Ok ∅).
Proof.
  split.
  - unfold extract_variables.
    destruct (match nodes !! node_id with
              | Some node => node_variables node
              | None => []
              end) as [|var vars] eqn:Ev.
    + exists ∅. split; [reflexivity|]. intros k x H.
      rewrite lookup_empty in H. discriminate.
    + cbn [oget bind]. change (default ∅ (Some c)) with c. unfold try_except.
      destruct (llm_json W (var :: vars) transcript c) as [[]|e] eqn:El;
        cbn [bind];
        try (exists ∅; split; [reflexivity|];
             intros k x H; rewrite lookup_empty in H; discriminate).
      eexists. split; [reflexivity|]. intros k x H.
      apply map_lookup_filter_Some in H as [Hk Hx]. cbn [snd] in Hx.
      unfold extracted_value in Hx.
      apply andb_prop in Hx as [Hx H3]. apply andb_prop in Hx as [H1 H2].
      repeat split.
      * intros ->. discriminate.
      * intros ->. discriminate.
      * intros ->. discriminate.
      * exists (var :: vars), d. split; [exact El|exact Hk].
  - intros Hv ctx. unfold extract_variables.
    destruct (nodes !! node_id) as [node|]; [|reflexivity].
    rewrite (Hv node eq_refl). reflexivity.
Qed.

(** ** [initialize_call] and [end_call] *)

Lemma initial_data_keys customer agent client k :
  is_Some (initial_data customer agent client !! k) <-> k ∈ initial_keys.
Proof.
  unfold initial_data. split.
  - intros [x Hx]. apply elem_of_list_to_map_2 in Hx.
    apply (list_elem_of_fmap_2 fst) in Hx. exact Hx.
  - intros Hk.
    destruct (list_to_map _ !! k) as [x|] eqn:E; [eauto|].
    apply not_elem_of_list_to_map_2 in E. contradiction.
Qed.

Lemma state_keys_are_not_initial call_sid k x :
  fresh_context B call_sid !! k = Some x -> k ∉ initial_keys.
Proof.
  intros H. unfold fresh_context in H. apply elem_of_list_to_map_2 in H.
  apply (list_elem_of_fmap_2 fst) in H. cbn [fmap list_fmap fst] in H.
  revert H. generalize k.
  apply Forall_forall. apply (bool_decide_unpack _). vm_compute. reflexivity.
Qed.

Lemma state_survives st call_sid customer agent client k x :
  fresh_context B call_sid !! k = Some x ->
  snd (initialize_call B st call_sid customer agent client) !! k = Some x.
Proof.
  intros Hk. unfold initialize_call, create_context. cbn [snd].
  rewrite lookup_union_r; [exact Hk|].
  destruct (initial_data customer agent client !! k) as [y|] eqn:E;
    [|reflexivity].
  exfalso. apply (state_keys_are_not_initial call_sid k x Hk).
  apply (proj1 (initial_data_keys customer agent client k)). eauto.
Qed.

Lemma initialize_call_starts_clean_helper st call_sid customer agent client :
  exists ctx,
    fst (initialize_call B st call_sid customer agent client) !! call_sid
      = Some ctx
    /\ ctx !! "transcript" = Some (PList []).
Proof.
  exists (snd (initialize_call B st call_sid customer agent client)).
  split; [apply lookup_insert_eq|]. apply state_survives. reflexivity.
Qed.

(** X21. [initialize_call] stores the context it returns.  That context holds
    every start value of [create_context]: the three records cannot reach
    the state of the call, whatever keys they carry.  From them it holds
    the nineteen keys of [initial_data] and nothing else, a key that is
    missing in its record as [None], or as ["N"], [0] and [0] for
    [RestrictAutoPayDraft], [DaysLate] and [FeesBalance]. *)
Theorem initialize_call_starts_clean
    (st : store) (call_sid : string) (customer agent client : dict) :
  let started := initialize_call B st call_sid customer agent client in
  get_context (fst started) call_sid = Some (snd started)
  /\ (forall k x, fresh_context B call_sid !! k = Some x ->
        snd started !! k = Some x)
  /\ get_current_node (fst started) call_sid = PStr "n61"
  /\ get_transcript (fst started) call_sid 10 = Ok (PList [])
  /\ (forall k, is_Some (snd started !! k) <->
        k ∈ initial_keys \/ is_Some (fresh_context B call_sid !! k))
  /\ snd started !! "FirstName" = Some (get customer "FirstName")
  /\ snd started !! "DOB" = Some (get customer "DOB")
  /\ snd started !! "RestrictAutoPayDraft"
     = Some (get_or customer "RestrictAutoPayDraft" (PStr "N"))
  /\ snd started !! "DaysLate" = Some (get_or customer "DaysLate" (PInt 0))
  /\ snd started !! "FeesBalance"
     = Some (get_or customer "FeesBalance" (PInt 0))
  /\ snd started !! "AgentName" = Some (get agent "name")
  /\ snd started !! "CompanyName" = Some (get client "CompanyName").
Proof.
  cbv zeta. unfold initialize_call, create_context. cbn [fst snd].
  assert (Hstate : forall k x, fresh_context B call_sid !! k = Some x ->
            (initial_data customer agent client ∪ fresh_context B call_sid) !! k
            = Some x).
  { intros k x Hk. rewrite lookup_union_r; [exact Hk|].
    destruct (initial_data customer agent client !! k) as [y|] eqn:E;
      [|reflexivity].
    exfalso. apply (state_keys_are_not_initial call_sid k x Hk).
    apply (proj1 (initial_data_keys customer agent client k)). eauto. }
  assert (Hgiven : forall k x, initial_data customer agent client !! k = Some x ->
            (initial_data customer agent client ∪ fresh_context B call_sid) !! k
            = Some x)
    by (intros k x Hk; apply lookup_union_Some_l, Hk).
  split; [apply lookup_insert_eq|]. split; [exact Hstate|]. split.
  { unfold get_current_node, get_or. rewrite lookup_insert_eq.
    rewrite (Hstate "current_node" (PStr "n61")) by reflexivity. reflexivity. }
  split.
  { unfold get_transcript, get_or. rewrite lookup_insert_eq.
    rewrite (Hstate "transcript" (PList [])) by reflexivity. reflexivity. }
  split.
  { intros k. rewrite lookup_union_is_Some, initial_data_keys. reflexivity. }
  repeat split; apply Hgiven; reflexivity.
Qed.

Lemma falsy_dict_is_empty (d : dict) : truthy (PDict d) = false -> d = ∅.
Proof.
  cbn [truthy]. intros H. apply negb_false_iff, Nat.eqb_eq in H.
  apply map_size_empty_iff, H.
Qed.

(** X22. [end_call] removes the call and hands back the context it had, [{}]
    for a call the store does not hold; after [initialize_call] it hands
    back the context that was returned then. *)
Theorem end_call_hands_back_the_context
    (st : store) (call_sid : string) (customer agent client : dict) :
  end_call st call_sid = (delete call_sid st, default ∅ (st !! call_sid))
  /\ get_context (fst (end_call st call_sid)) call_sid = None
  /\ (get_context st call_sid = None -> end_call st call_sid = (st, ∅))
  /\ end_call (fst (initialize_call B st call_sid customer agent client))
       call_sid
     = (delete call_sid st,
        snd (initialize_call B st call_sid customer agent client)).
Proof.
  assert (H : forall s : store,
            end_call s call_sid = (delete call_sid s, default ∅ (s !! call_sid))).
  { intros s. unfold end_call, delete_context.
    destruct (s !! call_sid) as [d|]; [|reflexivity].
    destruct (truthy (PDict d)) eqn:E; [reflexivity|].
    rewrite (falsy_dict_is_empty d E). reflexivity. }
  split; [apply H|]. split; [|split].
  - rewrite H. apply lookup_delete_eq.
  - unfold get_context. intros Hn. rewrite H, Hn, (delete_id _ _ Hn).
    reflexivity.
  - rewrite H. unfold initialize_call, create_context. cbn [fst snd].
    rewrite delete_insert_eq, lookup_insert_eq. reflexivity.
Qed.

(** ** The transcript of a call *)

Lemma appends_transcript (messages : list (string * string)) :
  forall (st : store) call_sid (ctx : dict) (entries : list pyval),
  st !! call_sid = Some ctx ->
  ctx !! "transcript" = Some (PList entries) ->
  exists ctx',
    appends B st call_sid messages !! call_sid = Some ctx'
    /\ ctx' !! "transcript"
       = Some (PList (entries ++
                      map (fun m => transcript_entry B (fst m) (snd m))
                        messages)).
Proof.
  induction messages as [|[role content] rest IH];
    intros st call_sid ctx entries Hst Ht.
  - exists ctx. split; [exact Hst|]. cbn [map]. rewrite app_nil_r. exact Ht.
  - cbn [appends]. unfold append_transcript at 1. rewrite Hst, Ht. cbn [fst].
    destruct (IH (<[call_sid :=
                      <["transcript" :=
                          PList (entries ++ [transcript_entry B role content])]>
                        ctx]> st)
                 call_sid _ _ (lookup_insert_eq _ _ _) (lookup_insert_eq _ _ _))
      as (ctx' & H1 & H2).
    exists ctx'. split; [exact H1|]. rewrite H2. cbn [map fst snd].
    rewrite <- List.app_assoc. reflexivity.
Qed.

Lemma format_entries_lines (messages : list (string * string)) :
  format_entries B
    (map (fun m => transcript_entry B (fst m) (snd m)) messages)
  = Ok (map transcript_line messages).
Proof.
  induction messages as [|[role content] rest IH]; [reflexivity|].
  cbn [map format_entries]. rewrite IH. reflexivity.
Qed.

Lemma last_n_map {X Y} (f : X -> Y) (n : nat) (l : list X) :
  last_n n (map f l) = map f (last_n n l).
Proof. unfold last_n. rewrite length_map. symmetry. apply fmap_drop. Qed.

(** X23. After [initialize_call] and any messages appended to the transcript,
    the text a turn is given for extraction is the last ten messages, one
    line each, the role before the content. *)
Theorem recent_transcript_shows_the_last_ten
    (st : store) (call_sid : string) (customer agent client : dict)
    (messages : list (string * string)) :
  let st0 := fst (initialize_call B st call_sid customer agent client) in
  recent_transcript B (appends B st0 call_sid messages) call_sid
  = Ok (join_lines (map transcript_line (last_n 10 messages))).
Proof.
  cbv zeta.
  destruct (initialize_call_starts_clean_helper st call_sid customer agent client)
    as (ctx & Hst & Ht).
  destruct (appends_transcript messages _ call_sid ctx [] Hst Ht)
    as (ctx' & H1 & H2).
  unfold recent_transcript, get_transcript, get_or. rewrite H1, H2.
  cbn [default id bind app Nat.eqb]. rewrite last_n_map.
  unfold _format_transcript. rewrite format_entries_lines. reflexivity.
Qed.

(** ** The store over a turn *)

Lemma keeps_refl call_sid st : keeps call_sid st st.
Proof. split; auto. Qed.

Lemma keeps_trans call_sid st1 st2 st3 :
  keeps call_sid st1 st2 -> keeps call_sid st2 st3 -> keeps call_sid st1 st3.
Proof.
  intros [H1 H1'] [H2 H2']. split.
  - intros other Ho. rewrite (H2 other Ho). exact (H1 other Ho).
  - auto.
Qed.

Lemma keeps_insert call_sid (st : store) (ctx : dict) :
  keeps call_sid st (<[call_sid := ctx]> st).
Proof.
  split.
  - intros other Ho. apply lookup_insert_ne. congruence.
  - intros _. rewrite lookup_insert_eq. eauto.
Qed.

Lemma keeps_update call_sid st updates :
  keeps call_sid st (fst (update_context st call_sid updates)).
Proof.
  unfold update_context. destruct (st !! call_sid);
    [apply keeps_insert|apply keeps_refl].
Qed.

Lemma keeps_set_node call_sid st node_id :
  keeps call_sid st (set_current_node st call_sid node_id).
Proof.
  unfold set_current_node. destruct (st !! call_sid);
    [apply keeps_insert|apply keeps_refl].
Qed.

Lemma keeps_append call_sid st role content :
  keeps call_sid st (fst (append_transcript B st call_sid role content)).
Proof.
  unfold append_transcript. destruct (st !! call_sid) as [ctx|];
    [|apply keeps_refl].
  destruct (ctx !! "transcript") as [[]|]; try apply keeps_refl.
  apply keeps_insert.
Qed.

Lemma set_node_sets call_sid (st : store) node_id :
  is_Some (st !! call_sid) ->
  get_current_node (set_current_node st call_sid node_id) call_sid
  = PStr node_id.
Proof.
  intros [ctx H]. unfold get_current_node, set_current_node, get_or.
  rewrite H, lookup_insert_eq, lookup_insert_eq. reflexivity.
Qed.

Lemma append_keeps_node call_sid st role content :
  get_current_node (fst (append_transcript B st call_sid role content)) call_sid
  = get_current_node st call_sid.
Proof.
  unfold append_transcript, get_current_node.
  destruct (st !! call_sid) as [ctx|] eqn:E; cbn [fst]; [|rewrite E; reflexivity].
  destruct (ctx !! "transcript") as [[]|]; cbn [fst]; rewrite ?E; try reflexivity.
  rewrite lookup_insert_eq. unfold get_or.
  rewrite lookup_insert_ne by discriminate. reflexivity.
Qed.

Lemma keeps_after_apis st call_sid next changed ctx :
  keeps call_sid st (fst (after_apis B W nodes st call_sid next changed ctx)).
Proof.
  unfold after_apis.
  destruct (changed && _); [|apply keeps_refl].
  destruct (execute_apis B W nodes next ctx) as [[d|]|e]; cbn [fst];
    try apply keeps_refl.
  apply keeps_update.
Qed.

Lemma enter_node_store st call_sid node_id next ctx :
  let out := enter_node B W nodes st call_sid node_id next ctx in
  keeps call_sid st (fst out)
  /\ (forall b, snd out = Ok b -> should_update_agent b = true ->
       is_Some (st !! call_sid) ->
       get_current_node (fst out) call_sid = PStr next).
Proof.
  cbv zeta. unfold enter_node.
  change (if negb (String.eqb next node_id)
             && negb (Nat.eqb (length (apis_of nodes next)) 0)
          then _ else _)
    with (after_apis B W nodes st call_sid next (negb (String.eqb next node_id)) ctx).
  pose proof (keeps_after_apis st call_sid next
                (negb (String.eqb next node_id)) ctx) as Hk.
  destruct (after_apis B W nodes st call_sid next _ ctx) as [st2 [ctx2|e]];
    cbn [fst snd] in *; [|split; [exact Hk|discriminate]].
  destruct (negb (String.eqb next node_id)).
  - destruct (oget ctx2 "AccountNumberLastFour") as [x|e];
      cbn [fst snd]; [|split; [exact Hk|discriminate]].
    destruct (get_rendered_prompt B nodes next ctx2) as [p|e];
      cbn [fst snd]; [|split; [exact Hk|discriminate]].
    pose proof (keeps_set_node call_sid st2 next) as Hs.
    destruct (nonempty (default "" p)).
    + pose proof (keeps_append call_sid (set_current_node st2 call_sid next)
                    "assistant" ("[Node: " ++ next ++ "]")) as Ha.
      pose proof (append_keeps_node call_sid
                    (set_current_node st2 call_sid next)
                    "assistant" ("[Node: " ++ next ++ "]")) as Hn.
      destruct (append_transcript B _ call_sid "assistant" _) as [st3 [u|e]];
        cbn [fst snd] in *.
      * split; [exact (keeps_trans _ _ _ _ Hk (keeps_trans _ _ _ _ Hs Ha))|].
        intros b _ _ Hsome. rewrite Hn. apply set_node_sets.
        apply (proj2 Hk), Hsome.
      * split; [exact (keeps_trans _ _ _ _ Hk (keeps_trans _ _ _ _ Hs Ha))|].
        discriminate.
    + cbn [fst snd]. split; [exact (keeps_trans _ _ _ _ Hk Hs)|].
      intros b _ _ Hsome. apply set_node_sets. apply (proj2 Hk), Hsome.
  - cbn [fst snd]. split; [exact Hk|]. intros b [= <-]. discriminate.
Qed.

Lemma process_store st call_sid node_id user_input ctx :
  let out := process B W nodes st call_sid node_id user_input ctx in
  keeps call_sid st (fst out)
  /\ (forall b, snd out = Ok b -> should_update_agent b = true ->
       is_Some (st !! call_sid) ->
       get_current_node (fst out) call_sid = PStr (next_node b)).
Proof.
  cbv zeta. unfold process.
  destruct (recent_transcript B st call_sid) as [text|e];
    [|split; [apply keeps_refl|discriminate]].
  destruct (check_dob B node_id _ ctx) as [extracted|e];
    [|split; [apply keeps_refl|discriminate]].
  pose proof (keeps_update call_sid st (sync_payment_date extracted)) as Hu.
  destruct (update_context st call_sid (sync_payment_date extracted))
    as [st1 ctx1]. cbn [fst] in Hu.
  destruct (get_next_node node_id _ ctx1) as [next|e];
    [|split; [exact Hu|discriminate]].
  destruct (String.eqb next "END").
  - cbn [fst snd]. split; [exact Hu|]. intros b [= <-]. discriminate.
  - pose proof (enter_node_store st1 call_sid node_id next ctx1) as [Hk Hn].
    pose proof (EngineFacts.enter_node_bundle B W nodes st1 call_sid node_id
                  next ctx1) as Hb.
    destruct (enter_node B W nodes st1 call_sid node_id next ctx1)
      as [st' r]. cbn [fst snd] in *.
    split; [exact (keeps_trans _ _ _ _ Hu Hk)|].
    intros b -> Hs Hsome.
    destruct (Hb st' b eq_refl) as [-> _].
    apply (Hn b eq_refl Hs). apply (proj2 Hu), Hsome.
Qed.

(** X25. When a turn on a known call returns a bundle that asks for an update
    of the agent, the store has the call at the node the bundle names. *)
Theorem store_follows_the_bundle
    (st st' : store) (call_sid node_id user_input : string)
    (ctx : option dict) (b : bundle) :
  process B W nodes st call_sid node_id user_input ctx = (st', Ok b) ->
  is_Some (get_context st call_sid) ->
  should_update_agent b = true ->
  get_current_node st' call_sid = PStr (next_node b).
Proof.
  intros H Hsome Hs.
  destruct (process_store st call_sid node_id user_input ctx) as [_ Hn].
  rewrite H in Hn. cbn [fst snd] in Hn. exact (Hn b eq_refl Hs Hsome).
Qed.

(** ** The date of birth *)

Lemma match_at_class cls a s :
  match_at (Class cls) (String a s)
  = if cls a then Some (1%nat, None) else None.
Proof.
  unfold match_at. cbn [rmatch eat]. destruct (cls a); [|reflexivity].
  cbn [String.length]. do 2 f_equal. lia.
Qed.

Lemma strip_non_digits (s : string) :
  re_sub (Class (fun a => negb (is_ascii_digit a))) (fun _ => "") s = digits s.
Proof.
  unfold re_sub. induction s as [|a s IH]; [reflexivity|].
  cbn [sub_from digits]. rewrite match_at_class.
  destruct (is_ascii_digit a); cbn [negb]; rewrite IH; reflexivity.
Qed.

Lemma eight_digits_not_empty (s : string) :
  String.length (digits s) = 8%nat -> String.eqb s "" = false.
Proof. destruct s; [discriminate|reflexivity]. Qed.

Lemma normalize_dob_digits (s : string) :
  String.length (digits s) = 8%nat ->
  normalize_dob B (PStr s) = Ok (Some (digits s)).
Proof.
  intros H. unfold normalize_dob. cbn [truthy py_str].
  rewrite (eight_digits_not_empty s H). cbn [negb].
  rewrite strip_non_digits, H. reflexivity.
Qed.

Lemma global_triggers_ignore (k : string) (x : pyval) (v : dict) c :
  In k ["dob_verified"; "dob_correct"; "dob_mismatch"; "dob_incorrect"] ->
  any_fires GLOBAL_TRIGGERS (<[k := x]> v) c = any_fires GLOBAL_TRIGGERS v c.
Proof.
  intros Hk. unfold any_fires, GLOBAL_TRIGGERS, fires. cbn [existsb cond].
  unfold get.
  cbn [In] in Hk.
  destruct Hk as [<-|[<-|[<-|[<-|[]]]]];
    rewrite !lookup_insert_ne by discriminate; reflexivity.
Qed.

(** X26. At [n68], an extracted date of birth and the one on file that have
    eight digits each are compared by their digits alone: equal digits set
    [dob_verified] and [dob_correct], and the call goes on to [n41] unless
    a global trigger fires; different digits set [dob_mismatch] and
    [dob_incorrect], and the call goes to [n32] unless a global trigger
    fires or the extraction itself says [dob_verified] or
    [dob_correct]. *)
Theorem dob_is_compared_by_digits
    (extracted ctx : dict) (c : option dict) (said on_file : string) :
  extracted !! "extracted_dob" = Some (PStr said) ->
  ctx !! "DOB" = Some (PStr on_file) ->
  String.length (digits said) = 8%nat ->
  String.length (digits on_file) = 8%nat ->
  any_fires GLOBAL_TRIGGERS extracted c = false ->
  (digits said = digits on_file ->
   let checked :=
     <["dob_correct" := PBool true]>
       (<["dob_verified" := PBool true]> extracted) in
   check_dob B "n68" extracted (Some ctx) = Ok checked
   /\ get_next_node "n68" checked c = Ok "n41")
  /\ (digits said <> digits on_file ->
      let checked :=
        <["dob_incorrect" := PBool true]>
          (<["dob_mismatch" := PBool true]> extracted) in
      check_dob B "n68" extracted (Some ctx) = Ok checked
      /\ (truthy (get extracted "dob_verified") = false ->
          truthy (get extracted "dob_correct") = false ->
          get_next_node "n68" checked c = Ok "n32")).
Proof.
  intros He Hc Hs Hf Hg.
  assert (Hcheck : check_dob B "n68" extracted (Some ctx) =
            Ok (if String.eqb (digits said) (digits on_file)
                then <["dob_correct" := PBool true]>
                       (<["dob_verified" := PBool true]> extracted)
                else <["dob_incorrect" := PBool true]>
                       (<["dob_mismatch" := PBool true]> extracted))).
  { unfold check_dob, get, oget_or, get_or. rewrite He, Hc. cbn [default id].
    cbn [String.eqb Ascii.eqb Bool.eqb andb truthy].
    rewrite (eight_digits_not_empty said Hs). cbn [negb bind].
    rewrite (normalize_dob_digits said Hs), (normalize_dob_digits on_file Hf).
    cbn [bind]. unfold nonempty.
    assert (Hn : forall t, String.length t = 8%nat -> String.eqb t "" = false)
      by (intros [|? ?]; [discriminate|reflexivity]).
    rewrite (Hn _ Hs), (Hn _ Hf). cbn [negb andb].
    destruct (String.eqb (digits said) (digits on_file)); reflexivity. }
  split.
  - intros Heq. cbv zeta. rewrite Hcheck, Heq, String.eqb_refl.
    split; [reflexivity|].
    unfold get_next_node. rewrite TransitionFacts.next_node_with_eq.
    rewrite (TransitionFacts.find_none_any GLOBAL_TRIGGERS _ c)
      by (rewrite !global_triggers_ignore by (cbn; tauto); exact Hg).
    rewrite TransitionFacts.rules_n68. unfold List.find, fires.
    cbn [cond target]. unfold get.
    rewrite lookup_insert_ne by discriminate. rewrite lookup_insert_eq.
    reflexivity.
  - intros Hne. cbv zeta. apply String.eqb_neq in Hne. rewrite Hcheck, Hne.
    split; [reflexivity|]. intros Hv Hcor.
    unfold get_next_node. rewrite TransitionFacts.next_node_with_eq.
    rewrite (TransitionFacts.find_none_any GLOBAL_TRIGGERS _ c)
      by (rewrite !global_triggers_ignore by (cbn; tauto); exact Hg).
    rewrite TransitionFacts.rules_n68. unfold List.find, fires.
    cbn [cond target]. unfold get in *.
    rewrite !(lookup_insert_ne _ "dob_incorrect") by discriminate.
    rewrite !(lookup_insert_ne _ "dob_mismatch" "dob_verified") by discriminate.
    rewrite !(lookup_insert_ne _ "dob_mismatch" "dob_correct") by discriminate.
    rewrite Hv, Hcor, lookup_insert_eq. reflexivity.
Qed.

(** ** GET actions *)

(** X27. An API action with a [get] URL and no [post] URL, whose URL renders:
    a 200 response with a JSON body is stored under [api_response]; another
    status is stored under [api_status_code] and reported under
    [api_error] without the response text; a 200 response whose body is
    not JSON leaves the status stored and reports the decoding error; a
    transport error is reported and no status is stored.  An action with
    neither URL changes nothing. *)
Theorem get_outcomes_are_recorded
    (api : api_spec) (ctx : dict) (url : string) :
  nonempty (api_post api) = false ->
  (nonempty (api_get api) = true ->
   render_template B (api_get api) (Some ctx) = Ok url ->
   (forall text rd,
      http_get W url = Response 200 text (Ok rd) ->
      run_api B W api ctx
      = Ok (<["api_response" := rd]> (<["api_status_code" := PInt 200]> ctx)))
   /\ (forall status text json,
         http_get W url = Response status text json -> status <> 200 ->
         run_api B W api ctx
         = Ok (<["api_error" := PStr ("Status " ++ py_str B (PInt status))]>
                 (<["api_status_code" := PInt status]> ctx)))
   /\ (forall text e,
         http_get W url = Response 200 text (Raise e) ->
         run_api B W api ctx
         = Ok (<["api_error" := PStr (exn_msg e)]>
                 (<["api_status_code" := PInt 200]> ctx)))
   /\ (forall e,
         http_get W url = Transport e ->
         run_api B W api ctx = Ok (<["api_error" := PStr (exn_msg e)]> ctx)))
  /\ (nonempty (api_get api) = true ->
      forall e, render_template B (api_get api) (Some ctx) = Raise e ->
      run_api B W api ctx = Ok (<["api_error" := PStr (exn_msg e)]> ctx))
  /\ (nonempty (api_get api) = false -> run_api B W api ctx = Ok ctx).
Proof.
  intros Hp. split; [|split].
  - intros Hg Hu. unfold run_api, get_request. rewrite Hp, Hg, Hu.
    repeat split.
    + intros text rd ->. reflexivity.
    + intros status text json -> Hs. apply Z.eqb_neq in Hs. rewrite Hs.
      reflexivity.
    + intros text e ->. reflexivity.
    + intros e ->. reflexivity.
  - intros Hg e He. unfold run_api, get_request. rewrite Hp, Hg, He.
    reflexivity.
  - intros Hg. unfold run_api. rewrite Hp, Hg. reflexivity.
Qed.

End WithEnvironment.

Lemma store_follows_witness :
  get_current_node {["CA1" := {["current_node" := PStr "n22"]}]} "CA1"
  = PStr (next_node (Bundle "n22" None (Sample.st_n32 !! "CA1") true)).
Proof.
  apply (store_follows_the_bundle Sample.sample_builtins Sample.quiet ∅
           Sample.st_n32 {["CA1" := {["current_node" := PStr "n22"]}]}
           "CA1" "n32" "ok" (Sample.st_n32 !! "CA1")
           (Bundle "n22" None (Sample.st_n32 !! "CA1") true)).
  - vm_compute. reflexivity.
  - vm_compute. eauto.
  - reflexivity.
Defined.

Lemma dob_witness :
  check_dob Sample.sample_builtins "n68"
    {["extracted_dob" := PStr "03/12/1985"]}
    (Some {["DOB" := PStr "03-12-1985"]})
  = Ok (<["dob_correct" := PBool true]>
          (<["dob_verified" := PBool true]>
             {["extracted_dob" := PStr "03/12/1985"]}))
  /\ get_next_node "n68"
       (<["dob_correct" := PBool true]>
          (<["dob_verified" := PBool true]>
             {["extracted_dob" := PStr "03/12/1985"]})) None
     = Ok "n41".
Proof.
  destruct (dob_is_compared_by_digits Sample.sample_builtins
              ({["extracted_dob" := PStr "03/12/1985"]} : dict)
              ({["DOB" := PStr "03-12-1985"]} : dict) None
              "03/12/1985" "03-12-1985") as [H _];
    [reflexivity | reflexivity | reflexivity | reflexivity
    | vm_compute; reflexivity |].
  apply H. reflexivity.
Defined.

Lemma get_outcomes_witness :
  run_api Sample.sample_builtins Sample.paid
    (ApiSpec "" "https://bank.example/slots" [] []) ∅
  = Ok (<["api_response" := PDict {["confirmation_id" := PStr "C-9"]}]>
          (<["api_status_code" := PInt 200]> ∅)).
Proof.
  destruct (get_outcomes_are_recorded Sample.sample_builtins Sample.paid
              (ApiSpec "" "https://bank.example/slots" [] []) ∅
              "https://bank.example/slots") as [H _]; [reflexivity|].
  destruct H as [H _]; [reflexivity | vm_compute; reflexivity |].
  apply (H "{confirmation_id: C-9}"). reflexivity.
Defined.

End TurnFacts.
